(** * WiiMote virtual controller server: session registry and motion fusion

    A shallow embedding of the server in [WiiMote-exe/exe.wiimote.py]:
    the slot table with its side tables ([controllers], [last_seen],
    [pkt_count], [hz_est]), one iteration of each service loop
    ([pair_server], [phone_listener], [cleanup_loop], [stats_loop],
    [bridge_loop]), [ModernUI.disconnect_slot] and the motion functions
    ([update_motion], [compute_axes]).

    Conventions of the embedding.
    - Python floats are idealised as exact rationals ([Q]); a float literal
      such as [0.985] is the rational 985/1000.  Rounding, infinities and
      NaN are outside the model.
    - Every call of [time.time()] is an explicit argument of the step that
      makes it; [secrets.token_hex(16)] is the argument [rnd].
    - [math.sqrt] and [math.atan2] are the two fields of the interface
      [MathLib]; a theorem that takes an instance holds for every one, and
      the closed examples run on the rational instance [libm_rational].
    - A received datagram is the record of the JSON fields the server
      reads, before the server strips or truncates them.
    - Each loop body is a function from the registry before the iteration
      to the registry after it, together with the datagram it sends.
      Logging is left out. *)

From Stdlib Require Import QArith Qabs Qround Lqa ZArith Lia Ascii String DecimalString.
From stdpp Require Import gmap strings list.

#[local] Open Scope Q_scope.

(** ** Numbers *)

Definition Qltb (x y : Q) : bool :=
  match x ?= y with Lt => true | _ => false end.

Definition Qleb (x y : Q) : bool :=
  match x ?= y with Gt => false | _ => true end.

(** Python's [min(a, b)] and [max(a, b)] return the first argument unless
    the second is strictly smaller (resp. larger). *)
Definition py_min (a b : Q) : Q := if Qltb b a then b else a.
Definition py_max (a b : Q) : Q := if Qltb a b then b else a.

(** [int(x)] on a float: truncation toward zero. *)
Definition py_int (x : Q) : Z := Z.quot (Qnum x) (Z.pos (Qden x)).

(** The libm functions the server calls. *)
Class MathLib := {
  math_sqrt : Q -> Q;
  math_atan2 : Q -> Q -> Q
}.

(** [math.pi] is the double 884279719003555 / 2^48. *)
Definition math_pi : Q := 884279719003555 # 281474976710656.

(** ** Constants *)

Definition DEFAULT_DATA_PORT : Z := 5005.
Definition MAX_CONTROLLERS : nat := 4.
Definition TIMEOUT_SEC : Q := 2.0.

Definition DT_MIN : Q := 1 / 500.
Definition DT_MAX : Q := 1 / 40.

Definition CF_ALPHA : Q := 0.985.
Definition ACC_G_TOL : Q := 1.2.
Definition DRIFT_ERR_THRESH : Q := 0.03.
Definition DRIFT_STEP : Q := 1 - CF_ALPHA.

Definition INVERT_RX : bool := true.
Definition INVERT_RY : bool := true.

Definition RECENTER_HOLD_SEC : Q := 0.60.

Definition SWING_THRESHOLD : Q := 2.3.
Definition SWING_COOLDOWN : Q := 0.25.

(** The dict [WII_TO_BRIDGE], in insertion order. *)
Definition WII_TO_BRIDGE : list (string * string) :=
  [ ("A", "A"); ("B", "B"); ("1", "X"); ("2", "Y"); ("+", "START");
    ("-", "BACK"); ("HOME", "GUIDE"); ("UP", "UP"); ("DOWN", "DOWN");
    ("LEFT", "LEFT"); ("RIGHT", "RIGHT") ]%string.

(** ** Data model *)

Record MotionState := mkMotion {
  last_ts : Q;
  pitch : Q;
  yaw : Q;
  pitch0 : Q;
  yaw0 : Q;
  home_hold : option Q;
  last_swing : Q
}.

(** [MotionState()] with its defaults. *)
Definition MotionState_default : MotionState :=
  mkMotion 0 0 0 0 0 None 0.

Definition Addr : Type := string * Z.

Record ControllerState := mkController {
  device_id : string;
  username : string;
  addr : Addr;
  token : string;
  buttons : gmap string Z;
  gyro : gmap string Q;
  accel : gmap string Q;
  motion : MotionState
}.

Definition zero_vec : gmap string Q :=
  <["x" := 0]> (<["y" := 0]> (<["z" := 0]> ∅)).

(** [ControllerState(device_id=.., username=.., addr=.., token=..)]. *)
Definition new_controller (d u : string) (a : Addr) (t : string)
  : ControllerState :=
  mkController d u a t ∅ zero_vec zero_vec MotionState_default.

Definition set_motion (c : ControllerState) (m : MotionState)
  : ControllerState :=
  mkController (device_id c) (username c) (addr c) (token c)
               (buttons c) (gyro c) (accel c) m.

(** The four module-level dicts, keyed by [range(MAX_CONTROLLERS)]: a table
    is the list of its values by slot index.  An index outside the table
    raises [KeyError] in Python and is a no-op here; every index the
    server uses comes from [range(MAX_CONTROLLERS)]. *)
Record Registry := mkRegistry {
  controllers : list (option ControllerState);
  last_seen : list Q;
  pkt_count : list Z;
  hz_est : list Q
}.

Definition Registry_init : Registry :=
  mkRegistry (replicate MAX_CONTROLLERS None)
             (replicate MAX_CONTROLLERS 0)
             (replicate MAX_CONTROLLERS 0%Z)
             (replicate MAX_CONTROLLERS 0).

(** [controllers.get(slot)]: the session of a slot, [None] for an empty or
    missing one. *)
Definition slot_get (cs : list (option ControllerState)) (s : nat)
  : option ControllerState :=
  mjoin (cs !! s).

(** [float(d.get(k, 0.0) or 0.0)] *)
Definition getf (d : gmap string Q) (k : string) : Q :=
  default 0 (d !! k).

(** ** Helpers of the motion code *)

Definition clamp (v lo hi : Q) : Q := py_max lo (py_min hi v).

Definition maybe_deg_to_rad (v : Q) : Q :=
  if Qltb 20 (Qabs v) then v * math_pi / 180 else v.

Definition accel_to_pitch {L : MathLib} (ax ay az : Q) : Q :=
  let denom := math_sqrt (ay * ay + az * az) in
  let denom := if Qltb denom (1 # 1000000) then 1 # 1000000 else denom in
  math_atan2 (- ax) denom.

(** ** [update_motion] *)

Definition update_motion {L : MathLib} (now : Q) (c : ControllerState)
  : ControllerState :=
  let m := motion c in
  if Qeq_bool (last_ts m) 0 then
    set_motion c (mkMotion now (pitch m) (yaw m) (pitch0 m) (yaw0 m)
                           (home_hold m) (last_swing m))
  else
    let dt := clamp (now - last_ts m) DT_MIN DT_MAX in
    let gx := maybe_deg_to_rad (getf (gyro c) "x") in
    let gz := maybe_deg_to_rad (getf (gyro c) "z") in
    let pitch1 := pitch m + gx * dt in
    let yaw1 := yaw m + gz * dt in
    let ax := getf (accel c) "x" in
    let ay := getf (accel c) "y" in
    let az := getf (accel c) "z" in
    let acc_mag := math_sqrt (ax * ax + ay * ay + az * az) in
    let pitch2 :=
      if Qltb (Qabs (acc_mag - 9.81)) ACC_G_TOL then
        let apitch := accel_to_pitch ax ay az in
        let err := apitch - pitch1 in
        if Qltb DRIFT_ERR_THRESH (Qabs err)
        then pitch1 + DRIFT_STEP * err
        else pitch1
      else pitch1 in
    set_motion c (mkMotion now pitch2 yaw1 (pitch0 m) (yaw0 m)
                           (home_hold m) (last_swing m)).

(** ** [compute_axes]

    The two inversion flags are arguments of [compute_axes_with];
    [compute_axes] is the function at the module's constants. *)

Definition compute_axes_with (inv_rx inv_ry : bool) (now : Q)
    (c : ControllerState) : ControllerState * (Z * Z) :=
  let m := motion c in
  if Qeq_bool (last_ts m) 0 then
    (set_motion c (mkMotion now (pitch m) (yaw m) (pitch0 m) (yaw0 m)
                            (home_hold m) (last_swing m)),
     (0%Z, 0%Z))
  else
    let dt := clamp (now - last_ts m) 0.001 0.05 in
    let gx := maybe_deg_to_rad (getf (gyro c) "x") in
    let gy := maybe_deg_to_rad (getf (gyro c) "y") in
    let DZ := 0.015 in
    let gx := if Qltb (Qabs gx) DZ then 0 else gx in
    let gy := if Qltb (Qabs gy) DZ then 0 else gy in
    let yaw1 := clamp (yaw m + gx * dt) (- 0.6) 0.6 in
    let pitch1 := clamp (pitch m + gy * dt) (- 0.45) 0.45 in
    let rx := yaw1 / 0.6 in
    let ry := (- pitch1) / 0.45 in
    let rx := if inv_rx then - rx else rx in
    let ry := if inv_ry then - ry else ry in
    (set_motion c (mkMotion now pitch1 yaw1 (pitch0 m) (yaw0 m)
                            (home_hold m) (last_swing m)),
     (py_int (rx * 32767), py_int (ry * 32767))).

Definition compute_axes : Q -> ControllerState -> ControllerState * (Z * Z) :=
  compute_axes_with INVERT_RX INVERT_RY.

(** ** Strings *)

#[local] Open Scope string_scope.

(** [str.isspace] on the code points below 256. *)
Definition is_space (a : ascii) : bool :=
  let n := N_of_ascii a in
  ((9 <=? n) && (n <=? 13) || (28 <=? n) && (n <=? 32)
   || (n =? 133) || (n =? 160))%N.

Fixpoint lstrip (s : string) : string :=
  match s with
  | EmptyString => EmptyString
  | String a s' => if is_space a then lstrip s' else s
  end.

Fixpoint rstrip (s : string) : string :=
  match s with
  | EmptyString => EmptyString
  | String a s' =>
      match rstrip s' with
      | EmptyString => if is_space a then EmptyString else String a EmptyString
      | r => String a r
      end
  end.

(** [s.strip()] *)
Definition strip (s : string) : string := rstrip (lstrip s).

(** [str(n)] for an [int]. *)
Definition str_int (n : Z) : string := NilZero.string_of_int (Z.to_int n).

(** ** Datagrams

    A decoded JSON object is the record of the fields the server reads,
    each [None] when the key is absent and otherwise the value as [str],
    [dict] or number conversion reads it. *)

Record PairDatagram := mkPairDatagram {
  pd_type : option string;
  pd_device_id : option string;
  pd_username : option string
}.

Record TelemetryDatagram := mkTelemetry {
  td_device_id : option string;
  td_token : option string;
  td_buttons : option (gmap string Z);
  td_gyro : option (gmap string Q);
  td_accel : option (gmap string Q)
}.

Inductive Reply :=
| PAIR_ACCEPT (slot : nat) (tok : string) (data_port : Z)
| PAIR_DENY (reason : string).

(** ** Slot lookup *)

(** [for slot, c in controllers.items(): if c and c.device_id == device_id]:
    the first slot, by ascending index, whose session has this id. *)
Fixpoint find_device_from (s : nat) (cs : list (option ControllerState))
    (d : string) : option (nat * ControllerState) :=
  match cs with
  | [] => None
  | Some c :: cs' =>
      if String.eqb (device_id c) d then Some (s, c)
      else find_device_from (S s) cs' d
  | None :: cs' => find_device_from (S s) cs' d
  end.

Definition find_device := find_device_from 0.

Definition is_free (cs : list (option ControllerState)) (i : nat) : bool :=
  match cs !! i with
  | Some None => true
  | _ => false
  end.

(** [next((i for i in range(MAX_CONTROLLERS) if controllers[i] is None), None)] *)
Definition find_free (cs : list (option ControllerState)) : option nat :=
  List.find (is_free cs) (seq 0 MAX_CONTROLLERS).

(** ** [pair_server]: one received datagram *)

Definition pair_server_step (data_port : Z) (now : Q) (rnd : string)
    (from : Addr) (j : PairDatagram) (st : Registry)
  : Registry * option (Addr * Reply) :=
  if negb (bool_decide (pd_type j = Some "PAIR_REQUEST")) then (st, None)
  else
    let did := strip (default "" (pd_device_id j)) in
    let uname := substring 0 64 (strip (default "Phone" (pd_username j))) in
    if bool_decide (did = "") then (st, None)
    else
      match find_device (controllers st) did with
      | Some (slot, c) =>
          let tok := if bool_decide (token c = "") then rnd else token c in
          let c' := mkController (device_id c) uname from tok
                                 (buttons c) (gyro c) (accel c) (motion c) in
          (mkRegistry (<[slot := Some c']> (controllers st))
                      (<[slot := now]> (last_seen st))
                      (pkt_count st) (hz_est st),
           Some (from, PAIR_ACCEPT slot tok data_port))
      | None =>
          match find_free (controllers st) with
          | None => (st, Some (from, PAIR_DENY "NO_FREE_SLOTS"))
          | Some free =>
              let c := new_controller did uname from rnd in
              (mkRegistry (<[free := Some c]> (controllers st))
                          (<[free := now]> (last_seen st))
                          (pkt_count st) (hz_est st),
               Some (from, PAIR_ACCEPT free rnd data_port))
          end
      end.

(** ** [phone_listener]: one received datagram *)

(** The assignments to the session object on an accepted datagram. *)
Definition touch_controller (from : Addr) (j : TelemetryDatagram)
    (c : ControllerState) : ControllerState :=
  mkController (device_id c) (username c) from (token c)
               (default ∅ (td_buttons j))
               (default ∅ (td_gyro j))
               (default ∅ (td_accel j))
               (motion c).

(** The listener never calls [sendto]: the list of datagrams it sends is
    empty on every path. *)
Definition phone_listener_step (now : Q) (from : Addr)
    (j : TelemetryDatagram) (st : Registry)
  : Registry * list (Addr * Reply) :=
  let did := strip (default "" (td_device_id j)) in
  let tok := strip (default "" (td_token j)) in
  if bool_decide (did = "") || bool_decide (tok = "") then (st, [])
  else
    match find_device (controllers st) did with
    | None => (st, [])
    | Some (slot, c) =>
        if negb (String.eqb (token c) tok) then (st, [])
        else
          (mkRegistry (<[slot := Some (touch_controller from j c)]>
                         (controllers st))
                      (<[slot := now]> (last_seen st))
                      (alter (fun n => n + 1)%Z slot (pkt_count st))
                      (hz_est st),
           [])
    end.

(** ** [cleanup_loop]: one pass, and [ModernUI.disconnect_slot] *)

Definition is_stale (now : Q) (st : Registry) (s : nat) : bool :=
  match slot_get (controllers st) s with
  | Some _ => Qltb TIMEOUT_SEC (now - default 0%Q (last_seen st !! s))
  | None => false
  end.

Definition evict_if_stale (now : Q) (st : Registry) (s : nat) : Registry :=
  if is_stale now st s then
    mkRegistry (<[s := None]> (controllers st))
               (<[s := 0%Q]> (last_seen st))
               (<[s := 0%Z]> (pkt_count st))
               (<[s := 0%Q]> (hz_est st))
  else st.

Definition cleanup_pass (now : Q) (st : Registry) : Registry :=
  fold_left (evict_if_stale now) (seq 0 MAX_CONTROLLERS) st.

Definition disconnect_slot (slot : nat) (st : Registry) : Registry :=
  mkRegistry (<[slot := None]> (controllers st))
             (<[slot := 0%Q]> (last_seen st))
             (pkt_count st)
             (<[slot := 0%Q]> (hz_est st)).

(** ** [stats_loop]: one pass

    [last_hz_t] is the global [_last_hz_t]; the pass returns its new
    value with the registry. *)

Definition stats_slot (dt : Q) (st : Registry) (s : nat) : Registry :=
  mkRegistry (controllers st) (last_seen st)
             (<[s := 0%Z]> (pkt_count st))
             (<[s := inject_Z (default 0%Z (pkt_count st !! s)) / dt]>
                (hz_est st)).

Definition stats_pass (now last_hz_t : Q) (st : Registry) : Registry * Q :=
  let dt := now - last_hz_t in
  if Qleb dt 0 then (st, now)
  else (fold_left (stats_slot dt) (seq 0 MAX_CONTROLLERS) st, now).

(** ** [bridge_loop]: one control tick

    [time.time()] is read once in [update_motion], once for the HOME
    check, once more when the recenter fires, once in [compute_axes] and
    once for the swing check. *)

Record Clock := mkClock {
  t_motion : Q;
  t_home : Q;
  t_guard : Q;
  t_axes : Q;
  t_swing : Q
}.

(** [int((c.buttons or {}).get("HOME", 0))] *)
Definition home_now (c : ControllerState) : Z :=
  default 0%Z (buttons c !! "HOME").

(** The condition under which the tick assigns [pitch0] and [yaw0]. *)
Definition recenter_due (t : Q) (c : ControllerState) : bool :=
  (home_now c =? 1)%Z &&
  match home_hold (motion c) with
  | Some h => Qleb RECENTER_HOLD_SEC (t - h)
  | None => false
  end.

Definition recenter_check (t tg : Q) (c : ControllerState)
  : ControllerState :=
  let m := motion c in
  if (home_now c =? 1)%Z then
    match home_hold m with
    | None =>
        set_motion c (mkMotion (last_ts m) (pitch m) (yaw m) (pitch0 m)
                               (yaw0 m) (Some t) (last_swing m))
    | Some h =>
        if Qleb RECENTER_HOLD_SEC (t - h) then
          set_motion c (mkMotion (last_ts m) (pitch m) (yaw m) (pitch m)
                                 (yaw m) (Some (tg + 9999)) (last_swing m))
        else c
    end
  else
    set_motion c (mkMotion (last_ts m) (pitch m) (yaw m) (pitch0 m)
                           (yaw0 m) None (last_swing m)).

Definition swing_due (now : Q) (c : ControllerState) : bool :=
  Qltb SWING_THRESHOLD (Qabs (getf (accel c) "x")) &&
  Qltb SWING_COOLDOWN (now - last_swing (motion c)).

Definition swing_check (now : Q) (c : ControllerState)
  : ControllerState * bool :=
  let m := motion c in
  if swing_due now c then
    (set_motion c (mkMotion (last_ts m) (pitch m) (yaw m) (pitch0 m)
                            (yaw0 m) (home_hold m) now), true)
  else (c, false).

(** [int(bool(btns.get(wii, 0)))] as the character it formats to. *)
Definition button_bit (btns : gmap string Z) (wii : string) : string :=
  if (default 0%Z (btns !! wii) =? 0)%Z then "0" else "1".

Definition button_parts (btns : gmap string Z) : list string :=
  map (fun kv => snd kv ++ "=" ++ button_bit btns (fst kv)) WII_TO_BRIDGE.

Definition control_parts (btns : gmap string Z) (swing : bool) (RX RY : Z)
  : list string :=
  button_parts btns
  ++ (if swing then ["A=1"] else [])
  ++ ["RX=" ++ str_int RX; "RY=" ++ str_int RY].

Record TickOut := mkTickOut {
  out_swing : bool;
  out_parts : list string;
  out_line : string
}.

(** The body of the loop for the session [c] of the active slot. *)
Definition bridge_tick {L : MathLib} (clk : Clock) (c : ControllerState)
  : ControllerState * TickOut :=
  let c1 := update_motion (t_motion clk) c in
  let c2 := recenter_check (t_home clk) (t_guard clk) c1 in
  let '(c3, (RX, RY)) := compute_axes (t_axes clk) c2 in
  let '(c4, swing) := swing_check (t_swing clk) c3 in
  let parts := control_parts (buttons c4) swing RX RY in
  (c4, mkTickOut swing parts (String.concat "," parts)).

(** One iteration of [bridge_loop]: the active slot is 1-based; nothing is
    sent when it is empty. *)
Definition bridge_loop_step {L : MathLib} (active_slot_1based : nat)
    (clk : Clock) (st : Registry) : Registry * option string :=
  let slot := (active_slot_1based - 1)%nat in
  match slot_get (controllers st) slot with
  | None => (st, None)
  | Some c =>
      let '(c', o) := bridge_tick clk c in
      (mkRegistry (<[slot := Some c']> (controllers st))
                  (last_seen st) (pkt_count st) (hz_est st),
       Some (out_line o))
  end.

(** ** Runs of one session

    Between two ticks the listener may replace the session's sample; a run
    is the list of the sample in place at each tick with the tick's clock
    readings. *)

Record Sample := mkSample {
  s_buttons : gmap string Z;
  s_gyro : gmap string Q;
  s_accel : gmap string Q
}.

Definition with_sample (s : Sample) (c : ControllerState)
  : ControllerState :=
  mkController (device_id c) (username c) (addr c) (token c)
               (s_buttons s) (s_gyro s) (s_accel s) (motion c).

Fixpoint run_ticks {L : MathLib} (ins : list (Sample * Clock))
    (c : ControllerState) : ControllerState :=
  match ins with
  | [] => c
  | (s, clk) :: ins' => run_ticks ins' (fst (bridge_tick clk (with_sample s c)))
  end.

(** The clock readings of the ticks of a run that emit a swing. *)
Fixpoint swing_times {L : MathLib} (ins : list (Sample * Clock))
    (c : ControllerState) : list Q :=
  match ins with
  | [] => []
  | (s, clk) :: ins' =>
      let r := bridge_tick clk (with_sample s c) in
      (if out_swing (snd r) then [t_swing clk] else [])
      ++ swing_times ins' (fst r)
  end.

(** The clock readings of the ticks of a run that assign the zero
    references. *)
Fixpoint recenter_times {L : MathLib} (ins : list (Sample * Clock))
    (c : ControllerState) : list Q :=
  match ins with
  | [] => []
  | (s, clk) :: ins' =>
      let c0 := with_sample s c in
      (if recenter_due (t_home clk) (update_motion (t_motion clk) c0)
       then [t_home clk] else [])
      ++ recenter_times ins' (fst (bridge_tick clk c0))
  end.

(** [update_motion] called at each time of a list, the sample unchanged. *)
Definition run_motion {L : MathLib} (times : list Q) (c : ControllerState)
  : ControllerState :=
  fold_left (fun c t => update_motion t c) times c.

(** ** A rational libm

    An instance of [MathLib] on which the model runs: the square root
    rounded down to twelve decimals, and the arc tangent by Euler's series
    (exactly 0 on the positive x axis). *)

Definition q_sqrt (x : Q) : Q :=
  if Qleb x 0 then 0
  else inject_Z (Z.sqrt (Qfloor (x * inject_Z (10 ^ 24)))) / inject_Z (10 ^ 12).

Fixpoint atan_euler (fuel : nat) (n : Z) (term r : Q) : Q :=
  match fuel with
  | O => 0
  | S fuel' =>
      term + atan_euler fuel' (n + 1)
                        (Qred (term * inject_Z (2 * n + 2) / inject_Z (2 * n + 3) * r)) r
  end.

Definition q_atan_unit (t : Q) : Q :=
  atan_euler 60 0 (t / (1 + t * t)) (t * t / (1 + t * t)).

Definition q_atan (t : Q) : Q :=
  if Qltb 1 t then math_pi / 2 - q_atan_unit (/ t)
  else if Qltb t (- 1) then - (math_pi / 2) - q_atan_unit (/ t)
  else q_atan_unit t.

Definition q_atan2 (y x : Q) : Q :=
  if Qltb 0 x then q_atan (y / x)
  else if Qltb x 0 then
    (if Qltb y 0 then q_atan (y / x) - math_pi else q_atan (y / x) + math_pi)
  else if Qltb 0 y then math_pi / 2
  else if Qltb y 0 then - (math_pi / 2)
  else 0.

Definition libm_rational : MathLib :=
  {| math_sqrt := q_sqrt; math_atan2 := q_atan2 |}.

(** ** Vocabulary of the statements *)

#[local] Open Scope Q_scope.

(** The identifier, name and token a datagram carries, as the server reads
    them. *)
Definition request_device (j : PairDatagram) : string :=
  strip (default "" (pd_device_id j)).

Definition request_name (j : PairDatagram) : string :=
  substring 0 64 (strip (default "Phone" (pd_username j))).

Definition telemetry_device (j : TelemetryDatagram) : string :=
  strip (default "" (td_device_id j)).

Definition telemetry_token (j : TelemetryDatagram) : string :=
  strip (default "" (td_token j)).

(** The identifier and the token of the datagram, exactly as sent, are
    those of the session of some occupied slot. *)
Definition matches_as_sent (st : Registry) (j : TelemetryDatagram) : Prop :=
  exists s c, controllers st !! s = Some (Some c)
              /\ td_device_id j = Some (device_id c)
              /\ td_token j = Some (token c).

(** Some occupied slot holds a session with this identifier and token. *)
Definition authorized (st : Registry) (d tok : string) : Prop :=
  exists s c, controllers st !! s = Some (Some c)
              /\ device_id c = d /\ token c = tok.

(** No session of the table has this identifier. *)
Definition unbound (st : Registry) (d : string) : Prop :=
  forall s c, controllers st !! s = Some (Some c) -> device_id c <> d.

(** Slot [s] is the first one whose session has this identifier. *)
Definition bound_at (st : Registry) (d : string) (s : nat)
    (c : ControllerState) : Prop :=
  controllers st !! s = Some (Some c) /\ device_id c = d /\
  forall j c', (j < s)%nat -> controllers st !! j = Some (Some c') ->
               device_id c' <> d.

(** Slot [i] is the lowest-indexed empty slot. *)
Definition lowest_free (st : Registry) (i : nat) : Prop :=
  (i < MAX_CONTROLLERS)%nat /\ controllers st !! i = Some None /\
  forall j, (j < i)%nat -> controllers st !! j <> Some None.

Definition no_free (st : Registry) : Prop :=
  forall i, (i < MAX_CONTROLLERS)%nat -> controllers st !! i <> Some None.

(** A session after a refresh that changes its name and address only. *)
Definition refresh_session (c : ControllerState) (uname : string)
    (from : Addr) : ControllerState :=
  mkController (device_id c) uname from (token c)
               (buttons c) (gyro c) (accel c) (motion c).

(** The outcome of re-pairing as the specification words it: the reply
    carries the token of the session, and nothing but the name and the
    address of that session changes. *)
Definition refresh_as_specified (data_port : Z) (from : Addr)
    (j : PairDatagram) (st : Registry) (slot : nat) (c : ControllerState)
  : Registry * option (Addr * Reply) :=
  (mkRegistry (<[slot := Some (refresh_session c (request_name j) from)]>
                 (controllers st))
              (last_seen st) (pkt_count st) (hz_est st),
   Some (from, PAIR_ACCEPT slot (token c) data_port)).

(** The outcome of re-pairing on the code: the slot's [last_seen] entry is
    refreshed as well. *)
Definition refresh_outcome (data_port : Z) (now : Q) (from : Addr)
    (j : PairDatagram) (st : Registry) (slot : nat) (c : ControllerState)
  : Registry * option (Addr * Reply) :=
  (mkRegistry (<[slot := Some (refresh_session c (request_name j) from)]>
                 (controllers st))
              (<[slot := now]> (last_seen st)) (pkt_count st) (hz_est st),
   Some (from, PAIR_ACCEPT slot (token c) data_port)).

(** The outcome of pairing a new device into slot [i]. *)
Definition create_outcome (data_port : Z) (now : Q) (rnd : string)
    (from : Addr) (j : PairDatagram) (st : Registry) (i : nat)
  : Registry * option (Addr * Reply) :=
  (mkRegistry (<[i := Some (new_controller (request_device j)
                                           (request_name j) from rnd)]>
                 (controllers st))
              (<[i := now]> (last_seen st)) (pkt_count st) (hz_est st),
   Some (from, PAIR_ACCEPT i rnd data_port)).

(** ** Sample inputs *)

Definition phone1 : Addr := ("192.168.1.20", 50000%Z).
Definition phone2 : Addr := ("192.168.1.21", 50001%Z).

Definition session_abc : ControllerState :=
  new_controller "abc" "Phone1" phone1 "5f2a".

Definition session_of (d : string) : ControllerState :=
  new_controller d "Phone" phone1 "77aa".

(** Slot 0 paired with device [abc], seen at time 5, five packets in the
    current window. *)
Definition reg_one : Registry :=
  mkRegistry [Some session_abc; None; None; None]
             [5; 0; 0; 0] [5%Z; 0%Z; 0%Z; 0%Z] [30; 0; 0; 0].

Definition reg_full : Registry :=
  mkRegistry [Some (session_of "d0"); Some (session_of "d1");
              Some (session_of "d2"); Some (session_of "d3")]
             [5; 5; 5; 5] [0%Z; 0%Z; 0%Z; 0%Z] [0; 0; 0; 0].

Definition pair_abc : PairDatagram :=
  mkPairDatagram (Some "PAIR_REQUEST") (Some "abc") (Some "Phone1").

Definition pair_new : PairDatagram :=
  mkPairDatagram (Some "PAIR_REQUEST") (Some "xyz") (Some "Phone2").

Definition telemetry_bad_token : TelemetryDatagram :=
  mkTelemetry (Some "abc") (Some "0000")
              (Some (<["A" := 1%Z]> ∅)) None None.

(** The token of slot 0 followed by a space. *)
Definition telemetry_padded : TelemetryDatagram :=
  mkTelemetry (Some "abc") (Some "5f2a ")
              (Some (<["A" := 1%Z]> ∅)) None None.

(** The identifier of slot 0 preceded by a space, and a blank identifier. *)
Definition pair_padded : PairDatagram :=
  mkPairDatagram (Some "PAIR_REQUEST") (Some " abc") (Some "Phone2").

Definition pair_blank : PairDatagram :=
  mkPairDatagram (Some "PAIR_REQUEST") (Some "  ") (Some "Phone2").

Definition telemetry_good : TelemetryDatagram :=
  mkTelemetry (Some "abc") (Some "5f2a")
              (Some (<["A" := 1%Z]> ∅)) None None.

(** All that the four tables hold for one slot. *)
Definition slot_view (st : Registry) (s : nat)
  : option (option ControllerState) * option Q * option Z * option Q :=
  (controllers st !! s, last_seen st !! s, pkt_count st !! s, hz_est st !! s).

(** ** Vocabulary of the motion statements *)

(** [acc_mag] of [update_motion] for the sample of a session. *)
Definition accel_magnitude {L : MathLib} (c : ControllerState) : Q :=
  let ax := getf (accel c) "x" in
  let ay := getf (accel c) "y" in
  let az := getf (accel c) "z" in
  math_sqrt (ax * ax + ay * ay + az * az).

(** A stick value as the specification words it: the angle divided by its
    clamp bound, negated when the flag is set, scaled by 32767 and
    truncated toward zero. *)
Definition stick_as_specified (inv : bool) (angle bound : Q) : Z :=
  let r := angle / bound in
  py_int ((if inv then - r else r) * 32767).

(** Successive times, each between [lo] and [hi] after the one before. *)
Fixpoint paced (lo hi : Q) (t : Q) (times : list Q) : bool :=
  match times with
  | [] => true
  | t' :: rest =>
      Qleb lo (t' - t) && Qleb (t' - t) hi && paced lo hi t' rest
  end.

(** The last time of a run that starts at [t]. *)
Definition final_time (t : Q) (times : list Q) : Q :=
  fold_left (fun _ x => x) times t.

(** The integration result as the specification words it: within [tol] of
    [target]. *)
Definition integrates_to {L : MathLib} (target tol : Q) (times : list Q)
    (c : ControllerState) : Prop :=
  Qabs (pitch (motion (run_motion times c)) - target) <= tol.

(** Where the pitch stands [e] seconds into the run [gravity_times]: it
    follows the gyro up to 0.03 rad and is pulled back on every later
    tick. *)
Definition pulled_back (e p : Q) : Prop :=
  0 <= e /\
  (e <= 0.3 -> p == 0.1 * e) /\
  (0.3 < e -> 0.029 <= p /\ p <= 0.1 * e - 0.018 * (e - 0.3)).

(** ** Sample sessions *)

Definition unit_vec : gmap string Q :=
  <["x" := 1]> (<["y" := 1]> (<["z" := 1]> ∅)).

(** A session in mid-run, every gyro axis at 1 rad/s, no acceleration. *)
Definition session_turning : ControllerState :=
  mkController "abc" "Phone1" phone1 "5f2a" ∅ unit_vec zero_vec
               (mkMotion 1000 0 0 0 0 None 0).

(** A session at rest whose accumulators stand at both clamp bounds. *)
Definition session_at_clamp : ControllerState :=
  mkController "abc" "Phone1" phone1 "5f2a" ∅ zero_vec zero_vec
               (mkMotion 1000 0.45 0.6 0 0 None 0).

(** A fresh session turning at 0.1 rad/s about x, at rest under gravity
    (acceleration 9.81 along z). *)
Definition session_gravity : ControllerState :=
  mkController "abc" "Phone1" phone1 "5f2a" ∅
               (<["x" := 0.1]> ∅) (<["z" := 9.81]> ∅) MotionState_default.

(** The same session in free fall (no acceleration measured). *)
Definition session_free_fall : ControllerState :=
  mkController "abc" "Phone1" phone1 "5f2a" ∅
               (<["x" := 0.1]> ∅) zero_vec MotionState_default.

(** Forty ticks of 25 ms after time 1000: one second in all. *)
Definition gravity_times : list Q :=
  map (fun k : nat => 1000 + inject_Z (Z.of_nat k) / 40) (seq 1 40).

(** ** Vocabulary of the control-tick statements *)

(** The swing test as the specification words it: the cooldown has
    elapsed when at least [SWING_COOLDOWN] has passed. *)
Definition swing_as_specified (now : Q) (c : ControllerState) : bool :=
  Qltb SWING_THRESHOLD (Qabs (getf (accel c) "x")) &&
  Qleb SWING_COOLDOWN (now - last_swing (motion c)).

(** Each time of the list is more than [SWING_COOLDOWN] after the one
    before, the first one after [t]. *)
Fixpoint spaced_from (t : Q) (l : list Q) : Prop :=
  match l with
  | [] => True
  | t' :: rest => SWING_COOLDOWN < t' - t /\ spaced_from t' rest
  end.

Definition home_pressed (s : Sample) : bool :=
  (default 0%Z (s_buttons s !! "HOME") =? 1)%Z.

(** The HOME reading of each tick is not before [t] nor before the one of
    the tick before, and the guard reading of a tick is not before its
    HOME reading. *)
Fixpoint clock_ordered (t : Q) (ins : list (Sample * Clock)) : bool :=
  match ins with
  | [] => true
  | (_, clk) :: rest =>
      Qleb t (t_home clk) && Qleb (t_home clk) (t_guard clk)
      && clock_ordered (t_home clk) rest
  end.

(** The HOME reading of the last tick of a run, [t] for the empty run. *)
Definition last_home (t : Q) (ins : list (Sample * Clock)) : Q :=
  fold_left (fun _ i => t_home (snd i)) ins t.

(** The name of a field [NAME=value] of the control line. *)
Fixpoint part_key (p : string) : string :=
  match p with
  | EmptyString => EmptyString
  | String a rest =>
      if Ascii.eqb a "=" then EmptyString else String a (part_key rest)
  end.

(** How many fields of the line carry the name [k]. *)
Definition count_key (k : string) (parts : list string) : nat :=
  length (List.filter (fun p => String.eqb (part_key p) k) parts).

(** ** Sample ticks *)

(** A tick all of whose clock readings fall on the same instant. *)
Definition tick_at (t : Q) : Clock := mkClock t t t t t.

Definition sample_home : Sample :=
  mkSample (<["HOME" := 1%Z]> ∅) zero_vec zero_vec.

Definition sample_idle : Sample := mkSample ∅ zero_vec zero_vec.

Definition sample_swing : Sample :=
  mkSample ∅ zero_vec (<["x" := 3.0]> ∅).

(** HOME held from time 1000 to time 11001. *)
Definition marathon_hold : list (Sample * Clock) :=
  [ (sample_home, tick_at 1000); (sample_home, tick_at 1001);
    (sample_home, tick_at 11001) ].

(** HOME held for 0.59 s, sampled three times. *)
Definition short_hold : list (Sample * Clock) :=
  [ (sample_home, tick_at 1000); (sample_home, tick_at 1000.3);
    (sample_home, tick_at 1000.59) ].

(** HOME held for 0.61 s, sampled three times. *)
Definition long_hold : list (Sample * Clock) :=
  [ (sample_home, tick_at 1000); (sample_home, tick_at 1000.3);
    (sample_home, tick_at 1000.61) ].

(** Three samples of x = 3.0, 0.1 s apart. *)
Definition three_swings : list (Sample * Clock) :=
  [ (sample_swing, tick_at 1000); (sample_swing, tick_at 1000.1);
    (sample_swing, tick_at 1000.2) ].

(** A session at rest whose accumulators are off their zero references. *)
Definition session_tilted : ControllerState :=
  mkController "abc" "Phone1" phone1 "5f2a" ∅ zero_vec zero_vec
               (mkMotion 999 0.2 0.1 0 0 None 0).

(** A session that swung at time 1000 and still reads x = 3.0. *)
Definition session_swung : ControllerState :=
  mkController "abc" "Phone1" phone1 "5f2a" ∅ zero_vec (<["x" := 3.0]> ∅)
               (mkMotion 1000 0 0 0 0 None 1000).

(** ** The server as a whole

    The six loops run as threads over the same tables. An event is one
    iteration of one loop body (or one click on Disconnect), taken as a
    whole; a run is a sequence of events. *)

Inductive Event :=
| EvPair (now : Q) (rnd : string) (from : Addr) (j : PairDatagram)
| EvTelemetry (now : Q) (from : Addr) (j : TelemetryDatagram)
| EvCleanup (now : Q)
| EvStats (now last_hz_t : Q)
| EvDisconnect (slot : nat)
| EvTick (active_slot_1based : nat) (clk : Clock).

Definition step {L : MathLib} (data_port : Z) (st : Registry) (ev : Event)
  : Registry :=
  match ev with
  | EvPair now rnd from j => fst (pair_server_step data_port now rnd from j st)
  | EvTelemetry now from j => fst (phone_listener_step now from j st)
  | EvCleanup now => cleanup_pass now st
  | EvStats now last => fst (stats_pass now last st)
  | EvDisconnect slot => disconnect_slot slot st
  | EvTick active clk => fst (bridge_loop_step active clk st)
  end.

Definition run {L : MathLib} (data_port : Z) (evs : list Event)
    (st : Registry) : Registry :=
  fold_left (step data_port) evs st.

(** [secrets.token_hex(16)] returns 32 hexadecimal digits. *)
Definition is_hex_digit (a : ascii) : bool :=
  let n := N_of_ascii a in
  ((48 <=? n) && (n <=? 57) || (97 <=? n) && (n <=? 102))%N.

Definition is_hex_token (s : string) : bool :=
  (String.length s =? 32)%nat && forallb is_hex_digit (list_ascii_of_string s).

(** What the events of a run carry: a token is one [token_hex] returns, a
    Disconnect button belongs to one of the rows, and the active slot is
    one of 1 .. MAX_CONTROLLERS. *)
Definition valid_event (ev : Event) : Prop :=
  match ev with
  | EvPair _ rnd _ _ => is_hex_token rnd = true
  | EvDisconnect slot => (slot < MAX_CONTROLLERS)%nat
  | EvTick active _ => (1 <= active <= MAX_CONTROLLERS)%nat
  | _ => True
  end.

(** ** Invariants of the tables *)

(** The four tables have one entry per slot. *)
Definition table_shape (st : Registry) : Prop :=
  length (controllers st) = MAX_CONTROLLERS /\
  length (last_seen st) = MAX_CONTROLLERS /\
  length (pkt_count st) = MAX_CONTROLLERS /\
  length (hz_est st) = MAX_CONTROLLERS.

(** No two slots hold sessions of the same device. *)
Definition unique_devices (st : Registry) : Prop :=
  forall s1 s2 c1 c2,
    controllers st !! s1 = Some (Some c1) ->
    controllers st !! s2 = Some (Some c2) ->
    device_id c1 = device_id c2 -> s1 = s2.

(** A session as the server creates it: identifier and token non-empty and
    free of surrounding whitespace, name of at most 64 characters. *)
Definition session_ok (c : ControllerState) : Prop :=
  device_id c <> "" /\ strip (device_id c) = device_id c /\
  token c <> "" /\ strip (token c) = token c /\
  (String.length (username c) <= 64)%nat.

Definition sessions_ok (st : Registry) : Prop :=
  forall s c, controllers st !! s = Some (Some c) -> session_ok c.

(** The side tables: an empty slot has [last_seen] 0, and no counter or
    rate is negative. *)
Definition side_tables_ok (st : Registry) : Prop :=
  (forall s, controllers st !! s = Some None -> last_seen st !! s = Some 0) /\
  (forall s n, pkt_count st !! s = Some n -> (0 <= n)%Z) /\
  (forall s h, hz_est st !! s = Some h -> 0 <= h).

Definition registry_ok (st : Registry) : Prop :=
  table_shape st /\ unique_devices st /\ sessions_ok st /\ side_tables_ok st.

(** The four entries of a slot after it was cleared by the eviction
    pass. *)
Definition cleared_view
  : option (option ControllerState) * option Q * option Z * option Q :=
  (Some None, Some 0, Some 0%Z, Some 0).

(** Two states of a session that differ in the motion state at most. *)
Definition same_session (c c' : ControllerState) : Prop :=
  device_id c' = device_id c /\ username c' = username c /\
  addr c' = addr c /\ token c' = token c /\
  buttons c' = buttons c /\ gyro c' = gyro c /\ accel c' = accel c.

(** A token as [secrets.token_hex(16)] returns them, and a run that pairs
    device [abc], receives its telemetry, ticks, cleans up, takes the
    statistics and disconnects slot 0. *)
Definition sample_token : string := "0123456789abcdef0123456789abcdef".

Definition sample_telemetry : TelemetryDatagram :=
  mkTelemetry (Some "abc") (Some sample_token)
              (Some (<["A" := 1%Z]> ∅)) None None.

Definition sample_run : list Event :=
  [ EvPair 1000 sample_token phone1 pair_abc;
    EvTelemetry 1000.1 phone1 sample_telemetry;
    EvTick 1 (tick_at 1000.2);
    EvPair 1000.3 sample_token phone2 pair_new;
    EvCleanup 1000.5;
    EvStats 1001 1000;
    EvDisconnect 1 ].

(** Telemetry datagrams with the times and the addresses they arrive
    with, handled one after the other. *)
Definition deliver (burst : list (Q * Addr * TelemetryDatagram))
    (st : Registry) : Registry :=
  fold_left (fun st d => fst (phone_listener_step (fst (fst d)) (snd (fst d))
                                                   (snd d) st))
            burst st.

(** The registry after an accepted datagram touched slot [s]. *)
Definition touched (now : Q) (from : Addr) (j : TelemetryDatagram)
    (st : Registry) (s : nat) (c : ControllerState) : Registry :=
  mkRegistry (<[s := Some (touch_controller from j c)]> (controllers st))
             (<[s := now]> (last_seen st))
             (alter (fun n => n + 1)%Z s (pkt_count st))
             (hz_est st).

(** A datagram of a burst carries the device identifier and the token of
    the session [c]. *)
Definition carries (c : ControllerState)
    (d : Q * Addr * TelemetryDatagram) : Prop :=
  telemetry_device (snd d) = device_id c /\
  telemetry_token (snd d) = token c.

(** Three datagrams of device [abc] within a second. *)
Definition sample_burst : list (Q * Addr * TelemetryDatagram) :=
  [ (10.1, phone2, telemetry_good);
    (10.2, phone2, telemetry_good);
    (10.3, phone1, telemetry_good) ].

(** Two states of a session that differ in the zero references [pitch0]
    and [yaw0] at most. *)
Definition same_up_to_zero (c c' : ControllerState) : Prop :=
  same_session c c' /\
  last_ts (motion c') = last_ts (motion c) /\
  pitch (motion c') = pitch (motion c) /\
  yaw (motion c') = yaw (motion c) /\
  home_hold (motion c') = home_hold (motion c) /\
  last_swing (motion c') = last_swing (motion c).

(** [session_turning] with other zero references. *)
Definition session_turning_recentered : ControllerState :=
  mkController "abc" "Phone1" phone1 "5f2a" ∅ unit_vec zero_vec
               (mkMotion 1000 0 0 0.3 0.2 None 0).

(** * Proofs *)

(** ** Comparisons on rationals *)

Lemma Qltb_true (x y : Q) : Qltb x y = true <-> x < y.
Proof.
  unfold Qltb. rewrite Qlt_alt. destruct (x ?= y); split; congruence.
Qed.

Lemma Qltb_false (x y : Q) : Qltb x y = false <-> y <= x.
Proof.
  split; intros H.
  - apply Qnot_lt_le. intros Hlt. apply Qltb_true in Hlt. congruence.
  - destruct (Qltb x y) eqn:E; [|reflexivity].
    apply Qltb_true in E. exfalso. exact (Qlt_not_le _ _ E H).
Qed.

Lemma Qleb_true (x y : Q) : Qleb x y = true <-> x <= y.
Proof.
  unfold Qleb. rewrite Qle_alt. destruct (x ?= y); split; congruence.
Qed.

Lemma Qleb_false (x y : Q) : Qleb x y = false <-> y < x.
Proof.
  split; intros H.
  - apply Qnot_le_lt. intros Hle. apply Qleb_true in Hle. congruence.
  - destruct (Qleb x y) eqn:E; [|reflexivity].
    apply Qleb_true in E. exfalso. exact (Qlt_not_le _ _ H E).
Qed.

(** Case analysis on a comparison, keeping the order fact. *)
Ltac case_Qltb x y :=
  let E := fresh "E" in
  destruct (Qltb x y) eqn:E;
  [apply Qltb_true in E | apply Qltb_false in E].

Ltac case_Qleb x y :=
  let E := fresh "E" in
  destruct (Qleb x y) eqn:E;
  [apply Qleb_true in E | apply Qleb_false in E].

(** ** Slot lookup *)

Lemma find_device_from_first (cs : list (option ControllerState)) :
  forall (k s : nat) (c : ControllerState) (d : string),
    cs !! s = Some (Some c) ->
    device_id c = d ->
    (forall j c', (j < s)%nat -> cs !! j = Some (Some c') -> device_id c' <> d) ->
    find_device_from k cs d = Some ((k + s)%nat, c).
Proof.
  induction cs as [|oc cs IH]; intros k s c d Hs Hd Hfirst.
  - discriminate.
  - destruct s as [|s]; simpl in Hs.
    + injection Hs as ->. simpl.
      rewrite (proj2 (String.eqb_eq _ _) Hd).
      f_equal. f_equal. lia.
    + assert (Hrest : find_device_from (S k) cs d = Some ((S k + s)%nat, c)).
      { apply IH; auto. intros j c' Hj Hl.
        apply (Hfirst (S j) c'); [lia | exact Hl]. }
      replace (k + S s)%nat with (S k + s)%nat by lia.
      simpl. destruct oc as [c0|]; [|exact Hrest].
      destruct (String.eqb (device_id c0) d) eqn:E; [|exact Hrest].
      apply String.eqb_eq in E.
      exfalso. apply (Hfirst 0%nat c0); [lia | reflexivity | exact E].
Qed.

Lemma find_device_from_none (cs : list (option ControllerState)) :
  forall (k : nat) (d : string),
    (forall s c, cs !! s = Some (Some c) -> device_id c <> d) ->
    find_device_from k cs d = None.
Proof.
  induction cs as [|oc cs IH]; intros k d Hno; [reflexivity|].
  assert (Hrest : find_device_from (S k) cs d = None).
  { apply IH. intros s c Hl. apply (Hno (S s) c Hl). }
  simpl. destruct oc as [c0|]; [|exact Hrest].
  destruct (String.eqb (device_id c0) d) eqn:E; [|exact Hrest].
  apply String.eqb_eq in E.
  exfalso. apply (Hno 0%nat c0); [reflexivity | exact E].
Qed.

Lemma find_device_bound (st : Registry) (d : string) (s : nat)
    (c : ControllerState) :
  bound_at st d s c -> find_device (controllers st) d = Some (s, c).
Proof.
  intros (Hs & Hd & Hfirst). unfold find_device.
  exact (find_device_from_first _ 0 s c d Hs Hd Hfirst).
Qed.

Lemma find_device_unbound (st : Registry) (d : string) :
  unbound st d -> find_device (controllers st) d = None.
Proof. intros H. apply find_device_from_none. exact H. Qed.

(** What a successful lookup tells about the table. *)
Lemma find_device_from_sound (cs : list (option ControllerState)) :
  forall (k s : nat) (c : ControllerState) (d : string),
    find_device_from k cs d = Some (s, c) ->
    exists i, s = (k + i)%nat /\ cs !! i = Some (Some c) /\ device_id c = d.
Proof.
  induction cs as [|oc cs IH]; intros k s c d H; [discriminate|].
  simpl in H. destruct oc as [c0|].
  - destruct (String.eqb (device_id c0) d) eqn:E.
    + injection H as <- <-. apply String.eqb_eq in E.
      exists 0%nat. repeat split; [lia | exact E].
    + destruct (IH _ _ _ _ H) as (i & -> & Hl & Hd).
      exists (S i). repeat split; [lia | exact Hl | exact Hd].
  - destruct (IH _ _ _ _ H) as (i & -> & Hl & Hd).
    exists (S i). repeat split; [lia | exact Hl | exact Hd].
Qed.

Lemma find_seq_first (f : nat -> bool) :
  forall (n a i : nat),
    (a <= i < a + n)%nat -> f i = true ->
    (forall j, (a <= j < i)%nat -> f j = false) ->
    List.find f (seq a n) = Some i.
Proof.
  induction n as [|n IH]; intros a i Hr Hi Hlow; [lia|].
  simpl. destruct (Nat.eq_dec a i) as [->|Hne].
  - rewrite Hi. reflexivity.
  - rewrite (Hlow a) by lia. apply IH; [lia | exact Hi |].
    intros j Hj. apply Hlow. lia.
Qed.

Lemma find_seq_none (f : nat -> bool) :
  forall (n a : nat),
    (forall j, (a <= j < a + n)%nat -> f j = false) ->
    List.find f (seq a n) = None.
Proof.
  induction n as [|n IH]; intros a Hall; [reflexivity|].
  simpl. rewrite (Hall a) by lia. apply IH. intros j Hj. apply Hall. lia.
Qed.

Lemma is_free_true (cs : list (option ControllerState)) (i : nat) :
  is_free cs i = true <-> cs !! i = Some None.
Proof.
  unfold is_free. destruct (cs !! i) as [[c|]|]; split; congruence.
Qed.

Lemma is_free_false (cs : list (option ControllerState)) (i : nat) :
  is_free cs i = false <-> cs !! i <> Some None.
Proof.
  unfold is_free. destruct (cs !! i) as [[c|]|]; split; congruence.
Qed.

Lemma find_free_lowest (st : Registry) (i : nat) :
  lowest_free st i -> find_free (controllers st) = Some i.
Proof.
  intros (Hi & Hfree & Hlow). unfold find_free.
  apply find_seq_first.
  - lia.
  - apply is_free_true. exact Hfree.
  - intros j Hj. apply is_free_false. apply Hlow. lia.
Qed.

Lemma find_free_none (st : Registry) :
  no_free st -> find_free (controllers st) = None.
Proof.
  intros H. unfold find_free. apply find_seq_none.
  intros j Hj. apply is_free_false. apply H. lia.
Qed.

(** ** Telemetry from an unauthorized sender *)

(** C1, as the code has it. The listener compares the device identifier
    and the token of a datagram after stripping the whitespace around
    them. A datagram for which either is then empty, or for which no
    occupied slot holds both (the device is unknown, or its slot has
    another token), leaves the whole registry as it was: sessions,
    [last_seen], [pkt_count] and [hz_est] keep their values, and the
    listener sends nothing. *)
Theorem phone_listener_drops_unauthorized
    (now : Q) (from : Addr) (j : TelemetryDatagram) (st : Registry) :
  telemetry_device j = "" \/ telemetry_token j = "" \/
  ~ authorized st (telemetry_device j) (telemetry_token j) ->
  phone_listener_step now from j st = (st, []).
Proof.
  intros H. unfold phone_listener_step.
  fold (telemetry_device j). fold (telemetry_token j).
  destruct (bool_decide (telemetry_device j = "")) eqn:Ed; [reflexivity|].
  destruct (bool_decide (telemetry_token j = "")) eqn:Et; [reflexivity|].
  apply bool_decide_eq_false in Ed, Et. simpl.
  destruct H as [H | [H | H]]; [contradiction | contradiction |].
  destruct (find_device (controllers st) (telemetry_device j))
    as [[slot c]|] eqn:Ef; [|reflexivity].
  destruct (String.eqb (token c) (telemetry_token j)) eqn:Etok;
    [|reflexivity].
  exfalso. apply H.
  apply String.eqb_eq in Etok.
  destruct (find_device_from_sound _ _ _ _ _ Ef) as (i & _ & Hl & Hd).
  exists i, c. auto.
Qed.

Lemma phone_listener_drops_unauthorized_witness :
  phone_listener_step 10 phone2 telemetry_bad_token reg_one = (reg_one, []).
Proof.
  apply phone_listener_drops_unauthorized.
  right; right. intros (s & c & Hl & Hd & Ht).
  destruct s as [|[|[|[|s]]]]; simpl in Hl; try discriminate.
  injection Hl as <-. vm_compute in Ht. discriminate.
Defined.

(** C1 as stated fails: a datagram whose token is the token of slot 0
    followed by a space does not carry the token of that slot, and it is
    accepted: slot 0 is touched. *)
Lemma phone_listener_accepts_padded_token :
  ~ matches_as_sent reg_one telemetry_padded /\
  phone_listener_step 10 phone2 telemetry_padded reg_one <> (reg_one, []).
Proof.
  split.
  - intros (s & c & Hl & Hd & Ht).
    destruct s as [|[|[|[|s]]]]; simpl in Hl; try discriminate.
    injection Hl as <-. discriminate.
  - intros H. apply (f_equal (fun r => last_seen (fst r))) in H.
    vm_compute in H. discriminate.
Qed.

(** The listener is not constant: the same datagram with the slot's token
    is accepted and touches slot 0. *)
Example phone_listener_accepts :
  phone_listener_step 10 phone2 telemetry_good reg_one =
  (mkRegistry
     [Some (mkController "abc" "Phone1" phone2 "5f2a" (<["A" := 1%Z]> ∅)
                         ∅ ∅ MotionState_default);
      None; None; None]
     [10; 0; 0; 0] [6%Z; 0%Z; 0%Z; 0%Z] [30; 0; 0; 0],
   []).
Proof. vm_compute. reflexivity. Qed.

(** ** Pairing *)

Lemma pair_server_step_known
    (data_port : Z) (now : Q) (rnd : string) (from : Addr)
    (j : PairDatagram) (st : Registry) (slot : nat) (c : ControllerState) :
  pd_type j = Some "PAIR_REQUEST" ->
  request_device j <> "" ->
  bound_at st (request_device j) slot c ->
  token c <> "" ->
  pair_server_step data_port now rnd from j st
  = refresh_outcome data_port now from j st slot c.
Proof.
  intros Hty Hd Hb Htok. unfold pair_server_step.
  fold (request_device j). fold (request_name j).
  rewrite (bool_decide_eq_true_2 _ Hty). simpl.
  rewrite (bool_decide_eq_false_2 _ Hd).
  rewrite (find_device_bound _ _ _ _ Hb).
  rewrite (bool_decide_eq_false_2 _ Htok).
  reflexivity.
Qed.

(** C4, as the code has it. When the device identifier of a pairing
    request, stripped of the whitespace around it, is already bound to a
    slot (and the session carries a token,
    as every session the server creates does), the reply is a PAIR_ACCEPT
    with the slot and the session's existing token, the session of that
    slot changes in its name and address only, every other slot keeps its
    session, and of the side tables only the slot's [last_seen] entry
    changes: it is set to the time of the request. *)
Theorem pair_refresh_keeps_token
    (data_port : Z) (now : Q) (rnd : string) (from : Addr)
    (j : PairDatagram) (st : Registry) (slot : nat) (c : ControllerState) :
  pd_type j = Some "PAIR_REQUEST" ->
  request_device j <> "" ->
  bound_at st (request_device j) slot c ->
  token c <> "" ->
  let r := pair_server_step data_port now rnd from j st in
  snd r = Some (from, PAIR_ACCEPT slot (token c) data_port) /\
  controllers (fst r) !! slot
    = Some (Some (refresh_session c (request_name j) from)) /\
  (forall k, k <> slot -> controllers (fst r) !! k = controllers st !! k) /\
  last_seen (fst r) = <[slot := now]> (last_seen st) /\
  pkt_count (fst r) = pkt_count st /\
  hz_est (fst r) = hz_est st.
Proof.
  intros Hty Hd Hb Htok r. subst r.
  rewrite (pair_server_step_known _ _ _ _ _ _ _ _ Hty Hd Hb Htok).
  unfold refresh_outcome. simpl.
  destruct Hb as (Hs & _ & _).
  repeat split.
  - apply list_lookup_insert_eq. apply lookup_lt_Some in Hs. exact Hs.
  - intros k Hk. apply list_lookup_insert_ne. congruence.
Qed.

Lemma bound_at_reg_one : bound_at reg_one (request_device pair_abc) 0 session_abc.
Proof.
  repeat split. intros j c' Hj. lia.
Qed.

Lemma pair_refresh_keeps_token_witness :
  snd (pair_server_step 5005 10 "ffff" phone2 pair_abc reg_one)
  = Some (phone2, PAIR_ACCEPT 0 "5f2a" 5005%Z).
Proof.
  refine (proj1 (pair_refresh_keeps_token 5005 10 "ffff" phone2 pair_abc
                   reg_one 0 session_abc _ _ bound_at_reg_one _)).
  - reflexivity.
  - vm_compute. discriminate.
  - vm_compute. discriminate.
Defined.

(** C4 as stated fails: re-pairing device [abc] at time 10 moves the
    [last_seen] entry of slot 0 from 5 to 10, so the registry is not the
    one in which only the name and the address changed. *)
Lemma pair_refresh_touches_last_seen :
  bound_at reg_one (request_device pair_abc) 0 session_abc /\
  pair_server_step 5005 10 "ffff" phone2 pair_abc reg_one
  <> refresh_as_specified 5005 phone2 pair_abc reg_one 0 session_abc.
Proof.
  split; [exact bound_at_reg_one|].
  intros H. apply (f_equal (fun r => last_seen (fst r))) in H.
  vm_compute in H. discriminate.
Qed.

Lemma find_seq_sound (f : nat -> bool) :
  forall (n a i : nat),
    List.find f (seq a n) = Some i ->
    (a <= i < a + n)%nat /\ f i = true /\
    forall j, (a <= j < i)%nat -> f j = false.
Proof.
  induction n as [|n IH]; intros a i H; [discriminate|].
  simpl in H. destruct (f a) eqn:Ea.
  - injection H as <-. repeat split; [lia | lia | exact Ea | intros j Hj; lia].
  - destruct (IH _ _ H) as (Hr & Hi & Hlow).
    repeat split; [lia | lia | exact Hi |].
    intros j Hj. destruct (Nat.eq_dec j a) as [->|Hne]; [exact Ea|].
    apply Hlow. lia.
Qed.

Lemma lowest_free_exists (st : Registry) :
  (exists i, (i < MAX_CONTROLLERS)%nat /\ controllers st !! i = Some None) ->
  exists i, lowest_free st i.
Proof.
  intros (i & Hi & Hfree).
  destruct (find_free (controllers st)) as [k|] eqn:Ef.
  - unfold find_free in Ef.
    destruct (find_seq_sound _ _ _ _ Ef) as (Hr & Hk & Hlow).
    exists k. repeat split.
    + lia.
    + apply is_free_true. exact Hk.
    + intros j Hj. apply is_free_false. apply Hlow. lia.
  - exfalso. unfold find_free in Ef.
    pose proof (find_none _ _ Ef i) as Hn.
    assert (Hin : In i (seq 0 MAX_CONTROLLERS)) by (apply in_seq; lia).
    specialize (Hn Hin). apply is_free_false in Hn. contradiction.
Qed.

(** C5, as the code has it. A pairing request whose device identifier,
    stripped of the whitespace around it, is non-empty and bound to no
    slot: when some slot is empty, the session is created in the
    lowest-indexed empty slot, with the token just generated, and the
    reply is a PAIR_ACCEPT for that slot and token; when no slot is empty
    the reply is PAIR_DENY with reason NO_FREE_SLOTS and the registry is
    the one before the request. *)
Theorem pair_new_device
    (data_port : Z) (now : Q) (rnd : string) (from : Addr)
    (j : PairDatagram) (st : Registry) :
  pd_type j = Some "PAIR_REQUEST" ->
  request_device j <> "" ->
  unbound st (request_device j) ->
  (forall i, lowest_free st i ->
     pair_server_step data_port now rnd from j st
     = create_outcome data_port now rnd from j st i) /\
  ((exists i, (i < MAX_CONTROLLERS)%nat /\ controllers st !! i = Some None) ->
   exists i, lowest_free st i /\
     token <$> slot_get (controllers (fst (pair_server_step data_port now rnd from j st))) i
       = Some rnd) /\
  (no_free st ->
     pair_server_step data_port now rnd from j st
     = (st, Some (from, PAIR_DENY "NO_FREE_SLOTS"))).
Proof.
  intros Hty Hd Hun.
  assert (Hstep : forall i, lowest_free st i ->
            pair_server_step data_port now rnd from j st
            = create_outcome data_port now rnd from j st i).
  { intros i Hi. unfold pair_server_step.
    fold (request_device j). fold (request_name j).
    rewrite (bool_decide_eq_true_2 _ Hty). simpl.
    rewrite (bool_decide_eq_false_2 _ Hd).
    rewrite (find_device_unbound _ _ Hun).
    rewrite (find_free_lowest _ _ Hi). reflexivity. }
  split; [exact Hstep|]. split.
  - intros Hex. destruct (lowest_free_exists _ Hex) as (i & Hi).
    exists i. split; [exact Hi|].
    rewrite (Hstep i Hi). unfold create_outcome, slot_get. simpl.
    destruct Hi as (_ & Hfree & _).
    rewrite list_lookup_insert_eq by (apply lookup_lt_Some in Hfree; exact Hfree).
    reflexivity.
  - intros Hno. unfold pair_server_step.
    fold (request_device j). fold (request_name j).
    rewrite (bool_decide_eq_true_2 _ Hty). simpl.
    rewrite (bool_decide_eq_false_2 _ Hd).
    rewrite (find_device_unbound _ _ Hun).
    rewrite (find_free_none _ Hno). reflexivity.
Qed.

Lemma unbound_reg_one : unbound reg_one (request_device pair_new).
Proof.
  intros s c Hl Hd.
  destruct s as [|[|[|[|s]]]]; simpl in Hl; try discriminate.
  injection Hl as <-. vm_compute in Hd. discriminate.
Qed.

Lemma lowest_free_reg_one : lowest_free reg_one 1.
Proof.
  repeat split.
  - unfold MAX_CONTROLLERS. lia.
  - intros j Hj Hl. assert (j = 0%nat) as -> by lia. discriminate.
Qed.

Lemma pair_new_device_witness :
  pair_server_step 5005 10 "c0de" phone2 pair_new reg_one
  = create_outcome 5005 10 "c0de" phone2 pair_new reg_one 1.
Proof.
  refine (proj1 (pair_new_device 5005 10 "c0de" phone2 pair_new reg_one
                   _ _ unbound_reg_one) 1%nat lowest_free_reg_one).
  - reflexivity.
  - vm_compute. discriminate.
Defined.

(** C5 as stated fails: the identifier [" abc"] is non-empty and is the
    identifier of no session, slot 1 is the lowest empty slot, and the
    request creates no session: it refreshes slot 0, bound to ["abc"], and
    is answered with the token of that slot. A blank identifier is
    non-empty too, and its request is discarded without a reply. *)
Lemma pair_padded_device_not_created :
  default "" (pd_device_id pair_padded) <> "" /\
  unbound reg_one (default "" (pd_device_id pair_padded)) /\
  lowest_free reg_one 1 /\
  controllers (fst (pair_server_step 5005 10 "c0de" phone2 pair_padded
                      reg_one)) !! 1%nat = Some None /\
  snd (pair_server_step 5005 10 "c0de" phone2 pair_padded reg_one)
  = Some (phone2, PAIR_ACCEPT 0 "5f2a" 5005%Z) /\
  default "" (pd_device_id pair_blank) <> "" /\
  pair_server_step 5005 10 "c0de" phone2 pair_blank reg_one = (reg_one, None).
Proof.
  split; [discriminate|]. split.
  { intros s c Hl Hd.
    destruct s as [|[|[|[|s]]]]; simpl in Hl; try discriminate.
    injection Hl as <-. discriminate. }
  split; [exact lowest_free_reg_one|].
  split; [vm_compute; reflexivity|].
  split; [vm_compute; reflexivity|].
  split; [discriminate|]. vm_compute. reflexivity.
Qed.

(** The end-to-end start of the specification: the first request on the
    empty registry gets slot 0. *)
Example pair_first_device :
  snd (pair_server_step 5005 1000 "c0de" phone1 pair_abc Registry_init)
  = Some (phone1, PAIR_ACCEPT 0 "c0de" 5005%Z).
Proof. vm_compute. reflexivity. Qed.

(** With four sessions in place a fifth device is denied. *)
Example pair_denied_when_full :
  pair_server_step 5005 10 "c0de" phone2 pair_new reg_full
  = (reg_full, Some (phone2, PAIR_DENY "NO_FREE_SLOTS")).
Proof. vm_compute. reflexivity. Qed.

(** ** Eviction and disconnection *)

Lemma lookup_insert_self {A : Type} (l : list A) (s : nat) (v : A) :
  <[s := v]> l !! s = (fun _ => v) <$> (l !! s).
Proof.
  destruct (l !! s) eqn:E; simpl.
  - apply list_lookup_insert_eq. apply lookup_lt_Some in E. exact E.
  - rewrite list_insert_ge; [exact E|]. apply lookup_ge_None. exact E.
Qed.

Lemma evict_if_stale_other (now : Q) (st : Registry) (j s : nat) :
  s <> j -> slot_view (evict_if_stale now st j) s = slot_view st s.
Proof.
  intros Hne. unfold evict_if_stale, slot_view.
  destruct (is_stale now st j); [|reflexivity]. simpl.
  rewrite !list_lookup_insert_ne by congruence. reflexivity.
Qed.

Lemma evict_if_stale_self (now : Q) (st st' : Registry) (s : nat) :
  slot_view st s = slot_view st' s ->
  slot_view (evict_if_stale now st s) s
  = slot_view (evict_if_stale now st' s) s.
Proof.
  unfold slot_view. intros H. injection H as Hc Hl Hp Hh.
  assert (Hst : is_stale now st s = is_stale now st' s).
  { unfold is_stale, slot_get. rewrite Hc, Hl. reflexivity. }
  unfold evict_if_stale. rewrite Hst.
  destruct (is_stale now st' s); simpl.
  - rewrite !lookup_insert_self, Hc, Hl, Hp, Hh. reflexivity.
  - rewrite Hc, Hl, Hp, Hh. reflexivity.
Qed.

Lemma fold_evict_view (now : Q) (s : nat) (l : list nat) :
  NoDup l ->
  forall st,
    slot_view (fold_left (evict_if_stale now) l st) s
    = if bool_decide (s ∈ l)
      then slot_view (evict_if_stale now st s) s
      else slot_view st s.
Proof.
  induction 1 as [|j l Hj Hnd IH]; intros st; cbn [fold_left].
  - rewrite bool_decide_eq_false_2; [reflexivity | apply not_elem_of_nil].
  - rewrite IH. destruct (decide (s = j)) as [->|Hne].
    + rewrite (bool_decide_eq_false_2 _ Hj).
      rewrite bool_decide_eq_true_2 by (apply elem_of_cons; auto).
      reflexivity.
    + destruct (bool_decide (s ∈ l)) eqn:E.
      * rewrite bool_decide_eq_true_2
          by (apply elem_of_cons; right; apply bool_decide_eq_true in E; exact E).
        apply evict_if_stale_self. apply evict_if_stale_other. exact Hne.
      * rewrite bool_decide_eq_false_2.
        -- apply evict_if_stale_other. exact Hne.
        -- apply bool_decide_eq_false in E. intros Hin.
           apply elem_of_cons in Hin. destruct Hin; [congruence | contradiction].
Qed.

(** A pass treats each slot on its own: what it leaves in slot [s] is what
    the staleness test of slot [s] alone decides. *)
Lemma cleanup_pass_view (now : Q) (st : Registry) (s : nat) :
  (s < MAX_CONTROLLERS)%nat ->
  slot_view (cleanup_pass now st) s = slot_view (evict_if_stale now st s) s.
Proof.
  intros Hs. unfold cleanup_pass.
  rewrite fold_evict_view by apply NoDup_seq.
  rewrite bool_decide_eq_true_2; [reflexivity|].
  apply elem_of_seq. lia.
Qed.

(** A slot last seen more than [TIMEOUT_SEC] ago is emptied by the next
    pass, and its three side entries are zeroed. *)
Lemma cleanup_pass_evicts (now t : Q) (st : Registry) (s : nat)
    (c : ControllerState) (n : Z) (h : Q) :
  (s < MAX_CONTROLLERS)%nat ->
  slot_view st s = (Some (Some c), Some t, Some n, Some h) ->
  TIMEOUT_SEC < now - t ->
  slot_view (cleanup_pass now st) s
  = (Some None, Some 0, Some 0%Z, Some 0).
Proof.
  intros Hs Hv Hold. rewrite cleanup_pass_view by exact Hs.
  unfold slot_view in *. injection Hv as Hc Hl Hp Hh.
  unfold evict_if_stale, is_stale, slot_get. rewrite Hc, Hl. simpl.
  rewrite (proj2 (Qltb_true _ _) Hold). simpl.
  rewrite !lookup_insert_self, Hc, Hl, Hp, Hh. reflexivity.
Qed.

(** A slot seen within [TIMEOUT_SEC] survives the pass unchanged. *)
Lemma cleanup_pass_keeps (now t : Q) (st : Registry) (s : nat)
    (c : ControllerState) :
  (s < MAX_CONTROLLERS)%nat ->
  controllers st !! s = Some (Some c) ->
  last_seen st !! s = Some t ->
  now - t <= TIMEOUT_SEC ->
  slot_view (cleanup_pass now st) s = slot_view st s.
Proof.
  intros Hs Hc Hl Hfresh. rewrite cleanup_pass_view by exact Hs.
  unfold evict_if_stale, is_stale, slot_get. rewrite Hc, Hl. simpl.
  rewrite (proj2 (Qltb_false _ _) Hfresh). reflexivity.
Qed.

(** C6, the disconnect path. [disconnect_slot] empties the slot and zeroes
    its [last_seen] and [hz_est] entries but never writes [pkt_count]:
    after disconnecting slot 0 of a registry whose counter for slot 0 is
    5, the counter is still 5, and the next statistics pass, one second
    after the previous one, reports 5 Hz for the empty slot; the eviction
    pass on the same registry zeroes the counter. *)
Theorem disconnect_slot_keeps_pkt_count :
  (forall s st, pkt_count (disconnect_slot s st) = pkt_count st) /\
  slot_view (disconnect_slot 0 reg_one) 0
    = (Some None, Some 0, Some 5%Z, Some 0) /\
  slot_view (fst (stats_pass 11 10 (disconnect_slot 0 reg_one))) 0
    = (Some None, Some 0, Some 0%Z, Some 5) /\
  slot_view (cleanup_pass 10 reg_one) 0
    = (Some None, Some 0, Some 0%Z, Some 0).
Proof.
  split; [reflexivity|]. repeat split; vm_compute; reflexivity.
Qed.

(** ** The motion functions *)

Lemma py_int_inject (q : Q) (z : Z) : q == inject_Z z -> py_int q = z.
Proof.
  unfold Qeq, py_int, inject_Z. simpl. intros H.
  rewrite Z.mul_1_r in H. rewrite H. apply Z.quot_mul. discriminate.
Qed.

Lemma clamp_id (v lo hi : Q) : lo <= v <= hi -> clamp v lo hi == v.
Proof.
  intros [Hlo Hhi]. unfold clamp, py_max, py_min.
  case_Qltb v hi.
  - case_Qltb lo v; lra.
  - case_Qltb lo hi; lra.
Qed.

Lemma clamp_bounds (v lo hi : Q) :
  lo <= hi -> lo <= clamp v lo hi <= hi.
Proof.
  intros Hle. unfold clamp, py_max, py_min.
  case_Qltb v hi.
  - case_Qltb lo v; lra.
  - case_Qltb lo hi; lra.
Qed.

Lemma maybe_deg_to_rad_small (v : Q) :
  Qabs v <= 20 -> maybe_deg_to_rad v = v.
Proof.
  intros H. unfold maybe_deg_to_rad.
  rewrite (proj2 (Qltb_false _ _) H). reflexivity.
Qed.

(** What [update_motion] leaves alone: the sample, the zero references,
    the hold timer and the swing time.  It stamps [last_ts]. *)
Lemma update_motion_frame {L : MathLib} (now : Q) (c : ControllerState) :
  let c' := update_motion now c in
  buttons c' = buttons c /\ gyro c' = gyro c /\ accel c' = accel c /\
  pitch0 (motion c') = pitch0 (motion c) /\
  yaw0 (motion c') = yaw0 (motion c) /\
  home_hold (motion c') = home_hold (motion c) /\
  last_swing (motion c') = last_swing (motion c) /\
  last_ts (motion c') = now.
Proof.
  unfold update_motion.
  destruct (Qeq_bool (last_ts (motion c)) 0); simpl; repeat split.
Qed.

Lemma compute_axes_frame (ix iy : bool) (now : Q) (c : ControllerState) :
  let c' := fst (compute_axes_with ix iy now c) in
  buttons c' = buttons c /\ gyro c' = gyro c /\ accel c' = accel c /\
  pitch0 (motion c') = pitch0 (motion c) /\
  yaw0 (motion c') = yaw0 (motion c) /\
  home_hold (motion c') = home_hold (motion c) /\
  last_swing (motion c') = last_swing (motion c) /\
  last_ts (motion c') = now.
Proof.
  unfold compute_axes_with.
  destruct (Qeq_bool (last_ts (motion c)) 0); simpl; repeat split.
Qed.

(** The yaw that [update_motion] integrates is the field [compute_axes]
    reads and clamps as its pointer yaw. *)
Lemma update_motion_yaw {L : MathLib} (now : Q) (c : ControllerState) :
  Qeq_bool (last_ts (motion c)) 0 = false ->
  yaw (motion (update_motion now c))
  = yaw (motion c)
    + maybe_deg_to_rad (getf (gyro c) "z")
      * clamp (now - last_ts (motion c)) DT_MIN DT_MAX.
Proof. intros H0. unfold update_motion. rewrite H0. reflexivity. Qed.

(** The pitch that [compute_axes] integrates and clamps is the field
    [update_motion] maintains as its drift-corrected pitch. *)
Lemma compute_axes_pitch (ix iy : bool) (now : Q) (c : ControllerState) :
  Qeq_bool (last_ts (motion c)) 0 = false ->
  pitch (motion (fst (compute_axes_with ix iy now c)))
  = let gy := maybe_deg_to_rad (getf (gyro c) "y") in
    let gy := if Qltb (Qabs gy) 0.015 then 0 else gy in
    clamp (pitch (motion c)
           + gy * clamp (now - last_ts (motion c)) 0.001 0.05)
          (- 0.45) 0.45.
Proof. intros H0. unfold compute_axes_with. rewrite H0. reflexivity. Qed.

(** C2, at a session turning at 1 rad/s about every axis, 10 ms after its
    last update. The drift-corrected update moves the yaw accumulator that
    the pointer computation reads, and the pointer computation moves the
    pitch accumulator that the drift-corrected update maintains: the two
    functions share the fields [pitch] and [yaw] of the motion state. *)
Theorem motion_accumulators_shared :
  yaw (motion session_turning) == 0 /\
  yaw (motion (update_motion (L := libm_rational) 1000.01 session_turning))
    == 0.01 /\
  pitch (motion session_turning) == 0 /\
  pitch (motion (fst (compute_axes 1000.01 session_turning))) == 0.01.
Proof. repeat split; vm_compute; reflexivity. Qed.

(** C3, as the code has it. Once the session has a time stamp,
    [compute_axes] returns for RX the clamped yaw divided by 0.6, and for
    RY the negated clamped pitch divided by 0.45, each in [-1, 1], each
    negated when its inversion flag is set, scaled by 32767 and truncated
    toward zero; a yaw of 0.6 with the RX flag set gives RX = -32767. *)
Theorem compute_axes_sticks
    (ix iy : bool) (now : Q) (c : ControllerState) :
  Qeq_bool (last_ts (motion c)) 0 = false ->
  let r := compute_axes_with ix iy now c in
  let m' := motion (fst r) in
  fst (snd r) = stick_as_specified ix (yaw m') 0.6 /\
  snd (snd r) = stick_as_specified iy (- pitch m') 0.45 /\
  (- (1) <= yaw m' / 0.6 <= 1) /\
  (- (1) <= - pitch m' / 0.45 <= 1) /\
  (yaw m' == 0.6 -> ix = true -> fst (snd r) = (- 32767)%Z).
Proof.
  intros H0 r m'. subst r m'. unfold compute_axes_with. rewrite H0.
  cbn [fst snd motion set_motion yaw pitch].
  set (y1 := clamp _ (- 0.6) 0.6). set (p1 := clamp _ (- 0.45) 0.45).
  assert (Hy : - 0.6 <= y1 <= 0.6) by (apply clamp_bounds; lra).
  assert (Hp : - 0.45 <= p1 <= 0.45) by (apply clamp_bounds; lra).
  split; [reflexivity|]. split; [reflexivity|].
  split; [|split].
  - unfold Qdiv. change (/ 0.6) with (10 # 6). lra.
  - unfold Qdiv. change (/ 0.45) with (100 # 45). lra.
  - intros Hy1 ->. apply py_int_inject. rewrite Hy1. reflexivity.
Qed.

Lemma compute_axes_sticks_witness :
  fst (snd (compute_axes 1000.01 session_at_clamp)) = (- 32767)%Z.
Proof.
  refine (proj2 (proj2 (proj2 (proj2
            (compute_axes_sticks INVERT_RX INVERT_RY 1000.01
               session_at_clamp _)))) _ _).
  - reflexivity.
  - vm_compute. reflexivity.
  - reflexivity.
Defined.

(** C3 as stated fails for RY: with the pitch accumulator at 0.45 and
    INVERT_RY set, dividing by the bound and negating would give -32767,
    and the code returns 32767, because it negates the pitch once more
    before dividing. *)
Lemma compute_axes_pitch_sign :
  let r := compute_axes 1000.01 session_at_clamp in
  pitch (motion (fst r)) == 0.45 /\
  snd (snd r) = 32767%Z /\
  stick_as_specified INVERT_RY (pitch (motion (fst r))) 0.45 = (- 32767)%Z /\
  snd (snd r) <> stick_as_specified INVERT_RY (pitch (motion (fst r))) 0.45.
Proof.
  repeat split; vm_compute; try reflexivity. discriminate.
Qed.

(** ** Integrating the pitch over a run *)

Lemma run_motion_cons {L : MathLib} (t : Q) (times : list Q)
    (c : ControllerState) :
  run_motion (t :: times) c = run_motion times (update_motion t c).
Proof. reflexivity. Qed.

Lemma final_time_cons (t t' : Q) (times : list Q) :
  final_time t (t' :: times) = final_time t' times.
Proof. reflexivity. Qed.

Lemma paced_cons (lo hi t t' : Q) (times : list Q) :
  paced lo hi t (t' :: times) = true ->
  lo <= t' - t /\ t' - t <= hi /\ paced lo hi t' times = true.
Proof.
  simpl. intros H.
  apply andb_true_iff in H as [H Hrest].
  apply andb_true_iff in H as [Hlo Hhi].
  apply Qleb_true in Hlo, Hhi. auto.
Qed.

Lemma Qeq_bool_pos (t : Q) : 0 < t -> Qeq_bool t 0 = false.
Proof.
  intros Ht. destruct (Qeq_bool t 0) eqn:E; [|reflexivity].
  apply Qeq_bool_eq in E. lra.
Qed.

(** One call outside the gravity band: the pitch moves by rate times
    interval and nothing else. *)
Lemma update_motion_no_correction {L : MathLib} (now : Q)
    (c : ControllerState) :
  Qeq_bool (last_ts (motion c)) 0 = false ->
  ACC_G_TOL <= Qabs (accel_magnitude c - 9.81) ->
  pitch (motion (update_motion now c))
  = pitch (motion c)
    + maybe_deg_to_rad (getf (gyro c) "x")
      * clamp (now - last_ts (motion c)) DT_MIN DT_MAX.
Proof.
  intros H0 Hout. unfold update_motion. rewrite H0.
  unfold accel_magnitude in Hout. cbv zeta in Hout.
  rewrite (proj2 (Qltb_false _ _) Hout). reflexivity.
Qed.

(** One call inside the band: the pitch is nudged toward the
    accelerometer's estimate when they differ by more than the threshold. *)
Lemma update_motion_in_band {L : MathLib} (now : Q) (c : ControllerState) :
  Qeq_bool (last_ts (motion c)) 0 = false ->
  Qabs (accel_magnitude c - 9.81) < ACC_G_TOL ->
  pitch (motion (update_motion now c))
  = let p1 := pitch (motion c)
              + maybe_deg_to_rad (getf (gyro c) "x")
                * clamp (now - last_ts (motion c)) DT_MIN DT_MAX in
    let err := accel_to_pitch (getf (accel c) "x") (getf (accel c) "y")
                              (getf (accel c) "z") - p1 in
    if Qltb DRIFT_ERR_THRESH (Qabs err) then p1 + DRIFT_STEP * err else p1.
Proof.
  intros H0 Hin. unfold update_motion. rewrite H0.
  unfold accel_magnitude in Hin. cbv zeta in Hin.
  rewrite (proj2 (Qltb_true _ _) Hin). reflexivity.
Qed.

Lemma run_motion_integrates {L : MathLib} (times : list Q) :
  forall (t : Q) (c : ControllerState),
    last_ts (motion c) = t ->
    0 < t ->
    paced DT_MIN DT_MAX t times = true ->
    getf (gyro c) "x" == 0.1 ->
    ACC_G_TOL <= Qabs (accel_magnitude c - 9.81) ->
    pitch (motion (run_motion times c))
    == pitch (motion c) + 0.1 * (final_time t times - t).
Proof.
  induction times as [|t' times IH]; intros t c Hts Ht Hp Hg Hout.
  - unfold run_motion, final_time. simpl. lra.
  - apply paced_cons in Hp as (Hlo & Hhi & Hp).
    rewrite final_time_cons.
    change (run_motion (t' :: times) c)
      with (run_motion times (update_motion t' c)).
    pose proof (update_motion_frame t' c) as Hf. cbv zeta in Hf.
    destruct Hf as (_ & Hgy & Hac & _ & _ & _ & _ & Hts').
    assert (Hmin : 0 < DT_MIN) by reflexivity.
    assert (Ht' : 0 < t') by lra.
    rewrite (IH t' (update_motion t' c) Hts' Ht' Hp).
    + rewrite update_motion_no_correction;
        [| rewrite Hts; apply Qeq_bool_pos; exact Ht | exact Hout].
      rewrite maybe_deg_to_rad_small.
      * rewrite Hts. rewrite (clamp_id (t' - t) DT_MIN DT_MAX) by auto.
        rewrite Hg. lra.
      * rewrite Hg. vm_compute. discriminate.
    + rewrite Hgy. exact Hg.
    + unfold accel_magnitude in *. rewrite Hac. exact Hout.
Qed.

(** C9, as the code has it. A fresh session whose gyro x-rate is
    0.1 rad/s, ticked at [t0] and then at times each between 1/500 s and
    1/40 s after the one before, the last of them exactly 1 s after [t0],
    with an accelerometer magnitude at least 1.2 away from 9.81 (the case
    in which no correction applies): the pitch has grown by exactly
    0.1 rad. *)
Theorem update_motion_integrates_rate {L : MathLib}
    (t0 : Q) (times : list Q) (c : ControllerState) :
  Qeq_bool (last_ts (motion c)) 0 = true ->
  0 < t0 ->
  paced DT_MIN DT_MAX t0 times = true ->
  final_time t0 times - t0 == 1 ->
  getf (gyro c) "x" == 0.1 ->
  ACC_G_TOL <= Qabs (accel_magnitude c - 9.81) ->
  pitch (motion (run_motion (t0 :: times) c)) == pitch (motion c) + 0.1.
Proof.
  intros Hfresh Ht0 Hp Hspan Hg Hout.
  change (run_motion (t0 :: times) c)
    with (run_motion times (update_motion t0 c)).
  pose proof (update_motion_frame t0 c) as Hf. cbv zeta in Hf.
  destruct Hf as (_ & Hgy & Hac & _ & _ & _ & _ & Hts').
  rewrite (run_motion_integrates times t0 (update_motion t0 c) Hts' Ht0 Hp).
  - assert (Hpitch : pitch (motion (update_motion t0 c)) = pitch (motion c)).
    { unfold update_motion. rewrite Hfresh. reflexivity. }
    rewrite Hpitch. lra.
  - rewrite Hgy. exact Hg.
  - unfold accel_magnitude in *. rewrite Hac. exact Hout.
Qed.

Lemma update_motion_integrates_rate_witness :
  pitch (motion (run_motion (L := libm_rational) (1000 :: gravity_times)
                            session_free_fall))
  == 0 + 0.1.
Proof.
  refine (update_motion_integrates_rate (L := libm_rational) 1000
            gravity_times session_free_fall _ _ _ _ _ _).
  - reflexivity.
  - reflexivity.
  - vm_compute. reflexivity.
  - vm_compute. reflexivity.
  - vm_compute. reflexivity.
  - apply Qleb_true. vm_compute. reflexivity.
Defined.

(** The same run under gravity. *)

Lemma gravity_step (t t' : Q) (c : ControllerState) :
  last_ts (motion c) = t ->
  1000 <= t ->
  t' - t == 1 / 40 ->
  gyro c = gyro session_gravity ->
  accel c = accel session_gravity ->
  pulled_back (t - 1000) (pitch (motion c)) ->
  pulled_back (t' - 1000)
              (pitch (motion (update_motion (L := libm_rational) t' c))).
Proof.
  intros Hts Ht Hdt0 Hgy Hac (He & Hlow & Hhigh).
  assert (Hdt : t' - t == 0.025) by (rewrite Hdt0; reflexivity).
  clear Hdt0.
  assert (H0 : Qeq_bool (last_ts (motion c)) 0 = false)
    by (rewrite Hts; apply Qeq_bool_pos; lra).
  rewrite update_motion_in_band;
    [| exact H0
     | unfold accel_magnitude; rewrite Hac; apply Qltb_true;
       vm_compute; reflexivity].
  rewrite Hgy, Hac, Hts. cbv zeta.
  assert (Hgx : maybe_deg_to_rad (getf (gyro session_gravity) "x") == 0.1)
    by (vm_compute; reflexivity).
  assert (Hap : accel_to_pitch (L := libm_rational)
                  (getf (accel session_gravity) "x")
                  (getf (accel session_gravity) "y")
                  (getf (accel session_gravity) "z") == 0)
    by (vm_compute; reflexivity).
  assert (Hcl : clamp (t' - t) DT_MIN DT_MAX == 0.025).
  { rewrite clamp_id; [exact Hdt|]. rewrite Hdt.
    split; vm_compute; discriminate. }
  set (p := pitch (motion c)) in *.
  set (p1 := p + _ * _).
  assert (Hp1 : p1 == p + 0.0025).
  { subst p1. rewrite Hgx, Hcl. lra. }
  set (err := _ - p1).
  assert (Herr : err == - p1) by (subst err; rewrite Hap; lra).
  unfold pulled_back.
  split; [lra|].
  case_Qltb DRIFT_ERR_THRESH (Qabs err).
  - (* corrected *)
    rewrite Herr, Qabs_opp in E. unfold DRIFT_ERR_THRESH in E.
    assert (Hpos : 0.03 < p1).
    { destruct (Qlt_le_dec 0.3 (t - 1000)) as [Hlate|Hearly].
      - destruct (Hhigh Hlate) as [Hp _]. lra.
      - specialize (Hlow Hearly).
        destruct (Qlt_le_dec p1 0) as [Hneg|Hnn]; [lra|].
        rewrite Qabs_pos in E by exact Hnn. exact E. }
    unfold DRIFT_STEP, CF_ALPHA.
    split; intros Hcase.
    + exfalso.
      assert (Hearly : t - 1000 <= 0.3) by lra.
      specialize (Hlow Hearly). lra.
    + destruct (Qlt_le_dec 0.3 (t - 1000)) as [Hlate|Hearly].
      * destruct (Hhigh Hlate) as [Hlo Hup]. split; lra.
      * specialize (Hlow Hearly). split; lra.
  - (* not corrected *)
    rewrite Herr, Qabs_opp in E. unfold DRIFT_ERR_THRESH in E.
    assert (Hle : p1 <= 0.03).
    { apply Qle_trans with (Qabs p1); [apply Qle_Qabs | exact E]. }
    destruct (Qlt_le_dec 0.3 (t - 1000)) as [Hlate|Hearly].
    + destruct (Hhigh Hlate) as [Hlo Hup]. lra.
    + specialize (Hlow Hearly).
      split; intros Hcase; [lra|]. lra.
Qed.

Lemma gravity_run (times : list Q) :
  forall (t : Q) (c : ControllerState),
    last_ts (motion c) = t ->
    1000 <= t ->
    paced (1 / 40) (1 / 40) t times = true ->
    gyro c = gyro session_gravity ->
    accel c = accel session_gravity ->
    pulled_back (t - 1000) (pitch (motion c)) ->
    pulled_back (final_time t times - 1000)
                (pitch (motion (run_motion (L := libm_rational) times c))).
Proof.
  induction times as [|t' times IH]; intros t c Hts Ht Hp Hgy Hac Hinv.
  - exact Hinv.
  - apply paced_cons in Hp as (Hlo & Hhi & Hp).
    assert (Hdt : t' - t == 1 / 40) by (apply Qle_antisym; assumption).
    rewrite final_time_cons.
    change (run_motion (t' :: times) c)
      with (run_motion (L := libm_rational) times
                       (update_motion (L := libm_rational) t' c)).
    pose proof (update_motion_frame (L := libm_rational) t' c) as Hf.
    cbv zeta in Hf.
    destruct Hf as (_ & Hgy' & Hac' & _ & _ & _ & _ & Hts').
    apply (IH t').
    + exact Hts'.
    + assert (0 < 1 / 40) by reflexivity. lra.
    + exact Hp.
    + rewrite Hgy'. exact Hgy.
    + rewrite Hac'. exact Hac.
    + apply (gravity_step t t' c); assumption.
Qed.

(** C9 as stated fails. With the device at rest under gravity (measured
    acceleration 9.81 along z, magnitude 9.81) and ticks every 25 ms for
    exactly one second, the magnitude lies inside the band, the
    correction applies on every tick once the pitch has passed 0.03 rad,
    and the pitch ends below 0.09 rad: not within 0.001 of 0.1. *)
Lemma update_motion_corrects_at_gravity :
  accel_magnitude (L := libm_rational) session_gravity == 9.81 /\
  paced DT_MIN DT_MAX 1000 gravity_times = true /\
  final_time 1000 gravity_times - 1000 == 1 /\
  pitch (motion (run_motion (L := libm_rational) (1000 :: gravity_times)
                            session_gravity)) < 0.09 /\
  ~ integrates_to (L := libm_rational) 0.1 0.001 (1000 :: gravity_times)
      session_gravity.
Proof.
  assert (Hrun : pulled_back (final_time 1000 gravity_times - 1000)
           (pitch (motion (run_motion (L := libm_rational)
                             (1000 :: gravity_times) session_gravity)))).
  { rewrite run_motion_cons.
    apply gravity_run.
    - reflexivity.
    - apply Qle_refl.
    - vm_compute. reflexivity.
    - reflexivity.
    - reflexivity.
    - unfold pulled_back. split; [|split].
      + vm_compute. discriminate.
      + intros _. vm_compute. reflexivity.
      + intros Habs. exfalso. vm_compute in Habs. discriminate. }
  assert (Hspan : final_time 1000 gravity_times - 1000 == 1)
    by (vm_compute; reflexivity).
  assert (Hlt : pitch (motion (run_motion (L := libm_rational)
                  (1000 :: gravity_times) session_gravity)) < 0.09).
  { destruct Hrun as (_ & _ & Hhigh).
    destruct Hhigh as [_ Hup]; [rewrite Hspan; reflexivity|].
    rewrite Hspan in Hup. lra. }
  split; [|split; [|split; [|split]]].
  - vm_compute. reflexivity.
  - vm_compute. reflexivity.
  - exact Hspan.
  - exact Hlt.
  - unfold integrates_to. intros Hclose.
    apply Qabs_Qle_condition in Hclose. lra.
Qed.

(** ** The control tick *)

Lemma recenter_check_frame (t tg : Q) (c : ControllerState) :
  let c' := recenter_check t tg c in
  buttons c' = buttons c /\ gyro c' = gyro c /\ accel c' = accel c /\
  last_ts (motion c') = last_ts (motion c) /\
  pitch (motion c') = pitch (motion c) /\
  yaw (motion c') = yaw (motion c) /\
  last_swing (motion c') = last_swing (motion c).
Proof.
  unfold recenter_check.
  destruct (home_now c =? 1)%Z; [destruct (home_hold (motion c)) as [h|];
    [destruct (Qleb RECENTER_HOLD_SEC (t - h))|]|];
    simpl; repeat split.
Qed.

Lemma swing_check_frame (now : Q) (c : ControllerState) :
  let c' := fst (swing_check now c) in
  buttons c' = buttons c /\ gyro c' = gyro c /\ accel c' = accel c /\
  pitch0 (motion c') = pitch0 (motion c) /\
  yaw0 (motion c') = yaw0 (motion c) /\
  home_hold (motion c') = home_hold (motion c).
Proof.
  unfold swing_check. destruct (swing_due now c); simpl; repeat split.
Qed.

(** The tick, step by step. *)
Lemma bridge_tick_unfold {L : MathLib} (clk : Clock) (c : ControllerState) :
  let c1 := update_motion (t_motion clk) c in
  let c2 := recenter_check (t_home clk) (t_guard clk) c1 in
  let r3 := compute_axes (t_axes clk) c2 in
  let r4 := swing_check (t_swing clk) (fst r3) in
  fst (bridge_tick clk c) = fst r4 /\
  out_swing (snd (bridge_tick clk c)) = snd r4 /\
  out_parts (snd (bridge_tick clk c))
  = control_parts (buttons (fst r4)) (snd r4)
                  (fst (snd r3)) (snd (snd r3)) /\
  out_line (snd (bridge_tick clk c))
  = String.concat "," (out_parts (snd (bridge_tick clk c))).
Proof.
  unfold bridge_tick. cbv zeta.
  destruct (compute_axes (t_axes clk) _) as [c3 [RX RY]]. cbn [fst snd].
  destruct (swing_check (t_swing clk) c3) as [c4 swing]. cbn [fst snd].
  repeat split.
Qed.

(** The sample and the swing time as the swing test sees them are those
    the tick started with. *)
Lemma bridge_tick_before_swing {L : MathLib} (clk : Clock)
    (c : ControllerState) :
  let c3 := fst (compute_axes (t_axes clk)
                   (recenter_check (t_home clk) (t_guard clk)
                      (update_motion (t_motion clk) c))) in
  buttons c3 = buttons c /\ accel c3 = accel c /\
  last_swing (motion c3) = last_swing (motion c).
Proof.
  cbv zeta.
  pose proof (compute_axes_frame INVERT_RX INVERT_RY (t_axes clk)
                (recenter_check (t_home clk) (t_guard clk)
                   (update_motion (t_motion clk) c))) as H3.
  pose proof (recenter_check_frame (t_home clk) (t_guard clk)
                (update_motion (t_motion clk) c)) as H2.
  pose proof (update_motion_frame (t_motion clk) c) as H1.
  cbv zeta in H1, H2, H3. fold compute_axes in H3.
  destruct H1 as (B1 & _ & A1 & _ & _ & _ & S1 & _).
  destruct H2 as (B2 & _ & A2 & _ & _ & _ & S2).
  destruct H3 as (B3 & _ & A3 & _ & _ & _ & S3 & _).
  repeat split; congruence.
Qed.

Lemma bridge_tick_swing {L : MathLib} (clk : Clock) (c : ControllerState) :
  out_swing (snd (bridge_tick clk c)) = swing_due (t_swing clk) c /\
  last_swing (motion (fst (bridge_tick clk c)))
  = (if swing_due (t_swing clk) c then t_swing clk
     else last_swing (motion c)) /\
  buttons (fst (bridge_tick clk c)) = buttons c.
Proof.
  pose proof (bridge_tick_unfold clk c) as Hu. cbv zeta in Hu.
  destruct Hu as (Hfst & Hsw & _ & _).
  pose proof (bridge_tick_before_swing clk c) as Hb. cbv zeta in Hb.
  destruct Hb as (Hbt & Hac & Hls).
  rewrite Hfst, Hsw.
  set (c3 := fst (compute_axes _ _)) in *.
  assert (Hdue : swing_due (t_swing clk) c3 = swing_due (t_swing clk) c).
  { unfold swing_due. rewrite Hac, Hls. reflexivity. }
  unfold swing_check. rewrite Hdue.
  destruct (swing_due (t_swing clk) c); simpl; auto.
Qed.

Lemma swing_due_iff (now : Q) (c : ControllerState) :
  swing_due now c = true <->
  SWING_THRESHOLD < Qabs (getf (accel c) "x") /\
  SWING_COOLDOWN < now - last_swing (motion c).
Proof.
  unfold swing_due. rewrite andb_true_iff, !Qltb_true. reflexivity.
Qed.

Lemma swing_times_spaced {L : MathLib} (ins : list (Sample * Clock)) :
  forall c, spaced_from (last_swing (motion c)) (swing_times ins c).
Proof.
  induction ins as [|[s clk] ins IH]; intros c; [exact I|].
  cbn [swing_times].
  destruct (bridge_tick_swing clk (with_sample s c)) as (Hsw & Hls & _).
  rewrite Hsw. specialize (IH (fst (bridge_tick clk (with_sample s c)))).
  rewrite Hls in IH.
  destruct (swing_due (t_swing clk) (with_sample s c)) eqn:Hdue.
  - simpl. split; [|exact IH].
    apply swing_due_iff in Hdue. apply Hdue.
  - exact IH.
Qed.

(** C8, as the code has it. A tick emits the swing exactly when the x
    acceleration exceeds 2.3 in magnitude and more than 0.25 s have passed
    since the session's last swing; so along any run of a session each
    swing comes more than 0.25 s after the one before, and three samples
    of x = 3.0 that are 0.1 s apart, the first one out of the cooldown,
    give one swing, on the first. *)
Theorem swing_after_cooldown {L : MathLib} :
  (forall clk c,
     out_swing (snd (bridge_tick clk c)) = true <->
     SWING_THRESHOLD < Qabs (getf (accel c) "x") /\
     SWING_COOLDOWN < t_swing clk - last_swing (motion c)) /\
  (forall ins c, spaced_from (last_swing (motion c)) (swing_times ins c)) /\
  (forall c s1 s2 s3 k1 k2 k3,
     getf (s_accel s1) "x" == 3.0 ->
     getf (s_accel s2) "x" == 3.0 ->
     getf (s_accel s3) "x" == 3.0 ->
     t_swing k2 == t_swing k1 + 0.1 ->
     t_swing k3 == t_swing k1 + 0.2 ->
     SWING_COOLDOWN < t_swing k1 - last_swing (motion c) ->
     swing_times [(s1, k1); (s2, k2); (s3, k3)] c = [t_swing k1]).
Proof.
  split; [|split].
  - intros clk c. destruct (bridge_tick_swing clk c) as (-> & _ & _).
    apply swing_due_iff.
  - intros ins c. apply swing_times_spaced.
  - intros c s1 s2 s3 k1 k2 k3 H1 H2 H3 Hk2 Hk3 Hcool.
    cbn [swing_times].
    destruct (bridge_tick_swing k1 (with_sample s1 c)) as (Hsw1 & Hls1 & _).
    set (c1 := fst (bridge_tick k1 (with_sample s1 c))) in *.
    destruct (bridge_tick_swing k2 (with_sample s2 c1)) as (Hsw2 & Hls2 & _).
    set (c2 := fst (bridge_tick k2 (with_sample s2 c1))) in *.
    destruct (bridge_tick_swing k3 (with_sample s3 c2)) as (Hsw3 & _ & _).
    rewrite Hsw1, Hsw2, Hsw3.
    assert (Hbig : forall x, x == 3.0 -> SWING_THRESHOLD < Qabs x).
    { intros x Hx. rewrite Hx. reflexivity. }
    assert (D1 : swing_due (t_swing k1) (with_sample s1 c) = true).
    { apply swing_due_iff. split; [apply Hbig; exact H1 | exact Hcool]. }
    rewrite D1 in Hls1 |- *.
    assert (D2 : swing_due (t_swing k2) (with_sample s2 c1) = false).
    { unfold swing_due. apply andb_false_iff. right.
      apply Qltb_false. cbn [with_sample motion]. rewrite Hls1.
      unfold SWING_COOLDOWN. lra. }
    rewrite D2 in Hls2 |- *.
    assert (D3 : swing_due (t_swing k3) (with_sample s3 c2) = false).
    { unfold swing_due. apply andb_false_iff. right.
      apply Qltb_false. cbn [with_sample motion]. rewrite Hls2.
      cbn [with_sample motion]. rewrite Hls1.
      unfold SWING_COOLDOWN. lra. }
    rewrite D3. reflexivity.
Qed.

Lemma swing_after_cooldown_witness :
  swing_times (L := libm_rational) three_swings session_abc = [1000].
Proof.
  refine (proj2 (proj2 (swing_after_cooldown (L := libm_rational)))
            session_abc sample_swing sample_swing sample_swing
            (tick_at 1000) (tick_at 1000.1) (tick_at 1000.2) _ _ _ _ _ _);
    vm_compute; reflexivity.
Defined.

(** C8 as stated fails on the boundary: exactly 0.25 s after the last
    swing, with x = 3.0, at least 0.25 s have elapsed, and the tick emits
    no swing. *)
Lemma swing_needs_more_than_cooldown :
  swing_as_specified 1000.25 session_swung = true /\
  out_swing (snd (bridge_tick (L := libm_rational) (tick_at 1000.25)
                              session_swung)) = false.
Proof. split; vm_compute; reflexivity. Qed.

(** ** The control line *)

Lemma bridge_tick_parts {L : MathLib} (clk : Clock) (c : ControllerState) :
  exists RX RY,
    out_parts (snd (bridge_tick clk c))
    = control_parts (buttons c) (out_swing (snd (bridge_tick clk c))) RX RY.
Proof.
  pose proof (bridge_tick_unfold clk c) as Hu. cbv zeta in Hu.
  destruct Hu as (Hfst & Hsw & Hparts & _).
  destruct (bridge_tick_swing clk c) as (_ & _ & Hb).
  rewrite Hfst in Hb. rewrite Hparts, Hsw, Hb. eauto.
Qed.

(** C10. The line is the comma-joined list of fields. On a tick that
    emits a swing the fields are the eleven button fields, then [A=1],
    then RX and RY: the name A occurs twice, first with the state of the
    physical button and then with 1, so that with the button released the
    line holds both [A=0] and [A=1]. On a tick without a swing every
    driver button name occurs once. *)
Theorem control_line_buttons {L : MathLib} (clk : Clock)
    (c : ControllerState) :
  let o := snd (bridge_tick clk c) in
  out_line o = String.concat "," (out_parts o) /\
  (out_swing o = true ->
     (exists rx ry,
        out_parts o = (button_parts (buttons c) ++ ["A=1"; rx; ry])%list) /\
     nth 0 (out_parts o) "" = ("A=" ++ button_bit (buttons c) "A")%string /\
     nth 11 (out_parts o) "" = "A=1" /\
     count_key "A" (out_parts o) = 2%nat /\
     (default 0%Z (buttons c !! "A") = 0%Z ->
      In "A=0" (out_parts o) /\ In "A=1" (out_parts o))) /\
  (out_swing o = false ->
     forall k, In k (map snd WII_TO_BRIDGE) ->
               count_key k (out_parts o) = 1%nat).
Proof.
  intros o. subst o.
  destruct (bridge_tick_parts clk c) as (RX & RY & Hparts).
  split; [apply (bridge_tick_unfold clk c)|].
  rewrite Hparts.
  split; intros Hsw; rewrite Hsw; unfold control_parts, button_parts.
  - split; [eexists; eexists; reflexivity|].
    split; [reflexivity|]. split; [reflexivity|]. split; [reflexivity|].
    intros HA. simpl. split.
    + left. unfold button_bit. rewrite HA. reflexivity.
    + do 11 right. left. reflexivity.
  - intros k Hk. simpl in Hk.
    repeat (destruct Hk as [<-|Hk]; [reflexivity|]). contradiction.
Qed.

Lemma control_line_buttons_witness :
  In "A=0" (out_parts (snd (bridge_tick (L := libm_rational)
                              (tick_at 1000.5) session_swung))) /\
  In "A=1" (out_parts (snd (bridge_tick (L := libm_rational)
                              (tick_at 1000.5) session_swung))).
Proof.
  refine (proj2 (proj2 (proj2 (proj2
            (proj1 (proj2
               (control_line_buttons (L := libm_rational) (tick_at 1000.5)
                  session_swung)) _)))) _).
  - vm_compute. reflexivity.
  - reflexivity.
Defined.

(** The line of a swing tick with every button released. *)
Example swing_line :
  out_line (snd (bridge_tick (L := libm_rational) (tick_at 1000.5)
                             session_swung))
  = "A=0,B=0,X=0,Y=0,START=0,BACK=0,GUIDE=0,UP=0,DOWN=0,LEFT=0,RIGHT=0,A=1,RX=0,RY=0".
Proof. vm_compute. reflexivity. Qed.

(** ** The recenter gesture *)

Lemma recenter_check_effect (t tg : Q) (c : ControllerState) :
  let c' := recenter_check t tg c in
  home_hold (motion c')
  = (if (home_now c =? 1)%Z then
       match home_hold (motion c) with
       | None => Some t
       | Some h => if recenter_due t c then Some (tg + 9999) else Some h
       end
     else None) /\
  pitch0 (motion c')
  = (if recenter_due t c then pitch (motion c) else pitch0 (motion c)) /\
  yaw0 (motion c')
  = (if recenter_due t c then yaw (motion c) else yaw0 (motion c)).
Proof.
  unfold recenter_check, recenter_due.
  destruct (home_now c =? 1)%Z; simpl; [|repeat split].
  destruct (home_hold (motion c)) as [h|] eqn:Eh; simpl; [|repeat split].
  destruct (Qleb RECENTER_HOLD_SEC (t - h)); simpl; repeat split.
  exact Eh.
Qed.

(** The recenter test of a tick reads the buttons and the hold timer the
    tick started with; what the tick leaves in the hold timer and the zero
    references is what [recenter_check] decides. *)
Lemma bridge_tick_recenter {L : MathLib} (clk : Clock)
    (c : ControllerState) :
  let c1 := update_motion (t_motion clk) c in
  let c' := fst (bridge_tick clk c) in
  let due := recenter_due (t_home clk) c in
  recenter_due (t_home clk) c1 = due /\
  home_hold (motion c')
  = (if (home_now c =? 1)%Z then
       match home_hold (motion c) with
       | None => Some (t_home clk)
       | Some h => if due then Some (t_guard clk + 9999) else Some h
       end
     else None) /\
  pitch0 (motion c')
  = (if due then pitch (motion c1) else pitch0 (motion c)) /\
  yaw0 (motion c')
  = (if due then yaw (motion c1) else yaw0 (motion c)).
Proof.
  cbv zeta.
  pose proof (bridge_tick_unfold clk c) as Hu. cbv zeta in Hu.
  destruct Hu as (Hfst & _ & _ & _). rewrite Hfst.
  set (c1 := update_motion (t_motion clk) c).
  set (c2 := recenter_check (t_home clk) (t_guard clk) c1).
  pose proof (swing_check_frame (t_swing clk)
                (fst (compute_axes (t_axes clk) c2))) as H4.
  pose proof (compute_axes_frame INVERT_RX INVERT_RY (t_axes clk) c2) as H3.
  pose proof (recenter_check_effect (t_home clk) (t_guard clk) c1) as H2.
  pose proof (update_motion_frame (t_motion clk) c) as H1.
  cbv zeta in H1, H2, H3, H4. fold compute_axes in H3. fold c1 in H1, H2.
  fold c2 in H2.
  destruct H1 as (B1 & _ & _ & P1 & Y1 & HH1 & _ & _).
  destruct H2 as (HH2 & P2 & Y2).
  destruct H3 as (_ & _ & _ & P3 & Y3 & HH3 & _ & _).
  destruct H4 as (_ & _ & _ & P4 & Y4 & HH4).
  assert (Hhome : home_now c1 = home_now c)
    by (unfold home_now; rewrite B1; reflexivity).
  assert (Hdue : recenter_due (t_home clk) c1 = recenter_due (t_home clk) c)
    by (unfold recenter_due; rewrite Hhome, HH1; reflexivity).
  split; [exact Hdue|].
  rewrite HH4, HH3, HH2, P4, P3, P2, Y4, Y3, Y2.
  rewrite Hdue, Hhome, HH1, P1, Y1. repeat split.
Qed.

Lemma home_pressed_now (s : Sample) (c : ControllerState) :
  home_pressed s = true -> (home_now (with_sample s c) =? 1)%Z = true.
Proof. intros H. exact H. Qed.

Lemma run_ticks_app {L : MathLib} (ins ins' : list (Sample * Clock)) :
  forall c, run_ticks (ins ++ ins') c = run_ticks ins' (run_ticks ins c).
Proof.
  induction ins as [|[s clk] ins IH]; intros c; [reflexivity|].
  simpl. apply IH.
Qed.

(** While HOME stays pressed and no tick comes 0.6 s after the time [g] in
    the hold timer, nothing is assigned and the timer stays. *)
Lemma hold_quiet {L : MathLib} (ins : list (Sample * Clock)) :
  forall (c : ControllerState) (g : Q),
    home_hold (motion c) = Some g ->
    Forall (fun i => home_pressed (fst i) = true /\
                     t_home (snd i) - g < RECENTER_HOLD_SEC) ins ->
    recenter_times ins c = [] /\
    pitch0 (motion (run_ticks ins c)) = pitch0 (motion c) /\
    yaw0 (motion (run_ticks ins c)) = yaw0 (motion c) /\
    home_hold (motion (run_ticks ins c)) = Some g.
Proof.
  induction ins as [|[s clk] ins IH]; intros c g Hh Hall.
  - simpl. auto.
  - inversion Hall as [|i l [Hpr Hlt] Hrest]; subst. simpl in Hpr, Hlt.
    pose proof (bridge_tick_recenter clk (with_sample s c)) as Ht.
    cbv zeta in Ht. destruct Ht as (Hdue & Hhold & Hp0 & Hy0).
    rewrite (home_pressed_now s c Hpr) in Hhold.
    cbn [with_sample motion] in Hhold, Hp0, Hy0. rewrite Hh in Hhold.
    assert (Hnot : recenter_due (t_home clk) (with_sample s c) = false).
    { unfold recenter_due. cbn [with_sample motion]. rewrite Hh.
      apply andb_false_iff. right. apply Qleb_false. exact Hlt. }
    rewrite Hnot in Hhold, Hp0, Hy0, Hdue.
    cbn [recenter_times run_ticks]. rewrite Hdue.
    destruct (IH _ g Hhold Hrest) as (Hr & Hp & Hy & Hhh).
    rewrite Hr, Hp, Hy, Hhh, Hp0, Hy0. auto.
Qed.

Lemma clock_ordered_cons (t : Q) (s : Sample) (clk : Clock)
    (ins : list (Sample * Clock)) :
  clock_ordered t ((s, clk) :: ins) = true ->
  t <= t_home clk /\ t_home clk <= t_guard clk /\
  clock_ordered (t_home clk) ins = true.
Proof.
  simpl. intros H.
  apply andb_true_iff in H as [H Hrest].
  apply andb_true_iff in H as [H1 H2].
  apply Qleb_true in H1, H2. auto.
Qed.

Lemma clock_ordered_bounds (ins : list (Sample * Clock)) :
  forall t,
    clock_ordered t ins = true ->
    t <= last_home t ins /\
    Forall (fun i => t_home (snd i) <= last_home t ins) ins.
Proof.
  induction ins as [|[s clk] ins IH]; intros t Hord.
  - split; [apply Qle_refl | constructor].
  - apply clock_ordered_cons in Hord as (H1 & _ & Hrest).
    destruct (IH _ Hrest) as (Hle & Hall).
    change (last_home t ((s, clk) :: ins)) with (last_home (t_home clk) ins).
    split; [lra|]. constructor; [exact Hle | exact Hall].
Qed.

(** A hold under way since [h0], not yet 0.6 s old at the previous tick:
    the zero references are assigned once if some tick comes 0.6 s after
    [h0], and not at all otherwise. *)
Lemma hold_count {L : MathLib} (ins : list (Sample * Clock)) :
  forall (c : ControllerState) (h0 t : Q),
    home_hold (motion c) = Some h0 ->
    h0 <= t ->
    t - h0 < RECENTER_HOLD_SEC ->
    forallb (fun i => home_pressed (fst i)) ins = true ->
    clock_ordered t ins = true ->
    last_home t ins - h0 < 9999 ->
    length (recenter_times ins c)
    = if Qleb RECENTER_HOLD_SEC (last_home t ins - h0) then 1%nat else 0%nat.
Proof.
  induction ins as [|[s clk] ins IH]; intros c h0 t Hh Hle Hyoung Hpr Hord Hlen.
  - simpl. unfold last_home. simpl.
    rewrite (proj2 (Qleb_false _ _) Hyoung). reflexivity.
  - apply clock_ordered_cons in Hord as (H1 & H2 & Hrest).
    simpl in Hpr. apply andb_true_iff in Hpr as [Hp Hpr].
    change (last_home t ((s, clk) :: ins)) with (last_home (t_home clk) ins)
      in *.
    destruct (clock_ordered_bounds _ _ Hrest) as (Hlast & Hall).
    pose proof (bridge_tick_recenter clk (with_sample s c)) as Ht.
    cbv zeta in Ht. destruct Ht as (Hdue & Hhold & _ & _).
    rewrite (home_pressed_now s c Hp) in Hhold.
    cbn [with_sample motion] in Hhold. rewrite Hh in Hhold.
    cbn [recenter_times]. rewrite Hdue.
    assert (Hd : recenter_due (t_home clk) (with_sample s c)
                 = Qleb RECENTER_HOLD_SEC (t_home clk - h0)).
    { unfold recenter_due. cbn [with_sample motion]. rewrite Hh.
      rewrite (home_pressed_now s c Hp). reflexivity. }
    rewrite Hd in Hhold |- *.
    case_Qleb RECENTER_HOLD_SEC (t_home clk - h0).
    + (* the references are assigned on this tick *)
      assert (Hq : Forall (fun i => home_pressed (fst i) = true /\
                            t_home (snd i) - (t_guard clk + 9999)
                            < RECENTER_HOLD_SEC) ins).
      { apply List.Forall_forall. intros i Hi. split.
        - rewrite forallb_forall in Hpr. apply Hpr. exact Hi.
        - rewrite List.Forall_forall in Hall. specialize (Hall i Hi).
          unfold RECENTER_HOLD_SEC in *. lra. }
      destruct (hold_quiet ins _ _ Hhold Hq) as (Hnone & _).
      rewrite Hnone. simpl.
      rewrite (proj2 (Qleb_true _ _)); [reflexivity|].
      unfold RECENTER_HOLD_SEC in *. lra.
    + (* not yet *)
      simpl. apply (IH _ h0 (t_home clk)); auto. lra.
Qed.

(** The first tick that sees HOME pressed starts the timer and assigns
    nothing. *)
Lemma hold_start {L : MathLib} (s : Sample) (clk : Clock)
    (c : ControllerState) :
  home_hold (motion c) = None ->
  home_pressed s = true ->
  let c' := fst (bridge_tick clk (with_sample s c)) in
  recenter_due (t_home clk) (update_motion (t_motion clk) (with_sample s c))
  = false /\
  home_hold (motion c') = Some (t_home clk) /\
  pitch0 (motion c') = pitch0 (motion c) /\
  yaw0 (motion c') = yaw0 (motion c).
Proof.
  intros Hh Hp. cbv zeta.
  pose proof (bridge_tick_recenter clk (with_sample s c)) as Ht.
  cbv zeta in Ht. destruct Ht as (Hdue & Hhold & Hp0 & Hy0).
  rewrite (home_pressed_now s c Hp) in Hhold.
  cbn [with_sample motion] in Hhold, Hp0, Hy0. rewrite Hh in Hhold.
  assert (Hnot : recenter_due (t_home clk) (with_sample s c) = false).
  { unfold recenter_due. cbn [with_sample motion]. rewrite Hh.
    apply andb_false_r. }
  rewrite Hnot in Hdue, Hp0, Hy0. auto.
Qed.

(** C7, as the code has it.
    - A tick assigns the zero references only when HOME is pressed and the
      hold timer started at least 0.6 s before; it then sets them to the
      pitch and yaw of that tick; any other tick leaves them as they were.
    - Over a hold that starts with the timer off and lasts less than
      9999 s, the references are assigned once when the last tick of the
      hold comes at least 0.6 s after the first, and never otherwise (so
      once for a hold of 0.61 s, never for one of 0.59 s).
    - A hold shorter than 0.6 s followed by a release leaves the
      references as they were and the timer off.
    - On a tick with HOME released only the hold timer changes: it is
      cleared. *)
Theorem home_hold_recenters {L : MathLib} :
  (forall clk c,
     let c1 := update_motion (t_motion clk) c in
     let c' := fst (bridge_tick clk c) in
     (recenter_due (t_home clk) c1 = true ->
        pitch0 (motion c') = pitch (motion c1) /\
        yaw0 (motion c') = yaw (motion c1) /\
        home_now c = 1%Z /\
        exists h, home_hold (motion c) = Some h /\
                  RECENTER_HOLD_SEC <= t_home clk - h) /\
     (recenter_due (t_home clk) c1 = false ->
        pitch0 (motion c') = pitch0 (motion c) /\
        yaw0 (motion c') = yaw0 (motion c))) /\
  (forall c s0 k0 rest,
     home_hold (motion c) = None ->
     home_pressed s0 = true ->
     forallb (fun i => home_pressed (fst i)) rest = true ->
     clock_ordered (t_home k0) rest = true ->
     last_home (t_home k0) rest - t_home k0 < 9999 ->
     length (recenter_times ((s0, k0) :: rest) c)
     = if Qleb RECENTER_HOLD_SEC (last_home (t_home k0) rest - t_home k0)
       then 1%nat else 0%nat) /\
  (forall c s0 k0 rest s_rel k_rel,
     home_hold (motion c) = None ->
     home_pressed s0 = true ->
     forallb (fun i => home_pressed (fst i)) rest = true ->
     clock_ordered (t_home k0) rest = true ->
     last_home (t_home k0) rest - t_home k0 < RECENTER_HOLD_SEC ->
     home_pressed s_rel = false ->
     let c' := run_ticks (((s0, k0) :: rest) ++ [(s_rel, k_rel)]) c in
     pitch0 (motion c') = pitch0 (motion c) /\
     yaw0 (motion c') = yaw0 (motion c) /\
     home_hold (motion c') = None) /\
  (forall t tg c,
     home_now c <> 1%Z ->
     recenter_check t tg c
     = set_motion c (mkMotion (last_ts (motion c)) (pitch (motion c))
                              (yaw (motion c)) (pitch0 (motion c))
                              (yaw0 (motion c)) None
                              (last_swing (motion c)))).
Proof.
  split; [|split; [|split]].
  - intros clk c c1 c'. subst c1 c'.
    pose proof (bridge_tick_recenter clk c) as Ht. cbv zeta in Ht.
    destruct Ht as (Hdue & _ & Hp0 & Hy0).
    rewrite Hdue. split; intros Hd; rewrite Hd in Hp0, Hy0.
    + split; [exact Hp0|]. split; [exact Hy0|].
      unfold recenter_due in Hd. apply andb_true_iff in Hd as [Hhome Hd].
      apply Z.eqb_eq in Hhome. split; [exact Hhome|].
      destruct (home_hold (motion c)) as [h|]; [|discriminate].
      exists h. split; [reflexivity|]. apply Qleb_true. exact Hd.
    + auto.
  - intros c s0 k0 rest Hh Hp Hpr Hord Hlen.
    destruct (hold_start s0 k0 c Hh Hp) as (Hnot & Hhold & _ & _).
    cbn [recenter_times]. rewrite Hnot. simpl.
    apply (hold_count rest _ (t_home k0) (t_home k0)); auto.
    + apply Qle_refl.
    + unfold RECENTER_HOLD_SEC. lra.
  - intros c s0 k0 rest s_rel k_rel Hh Hp Hpr Hord Hshort Hrel c'. subst c'.
    destruct (hold_start s0 k0 c Hh Hp) as (_ & Hhold & Hp0 & Hy0).
    destruct (clock_ordered_bounds _ _ Hord) as (_ & Hall).
    assert (Hq : Forall (fun i => home_pressed (fst i) = true /\
                          t_home (snd i) - t_home k0 < RECENTER_HOLD_SEC)
                   rest).
    { apply List.Forall_forall. intros i Hi. split.
      - rewrite forallb_forall in Hpr. apply Hpr. exact Hi.
      - rewrite List.Forall_forall in Hall. specialize (Hall i Hi). lra. }
    rewrite run_ticks_app. cbn [run_ticks].
    set (c1 := fst (bridge_tick k0 (with_sample s0 c))) in *.
    destruct (hold_quiet rest c1 _ Hhold Hq) as (_ & Hp1 & Hy1 & _).
    set (c2 := run_ticks rest c1) in *.
    pose proof (bridge_tick_recenter k_rel (with_sample s_rel c2)) as Ht.
    cbv zeta in Ht. destruct Ht as (_ & Hhold3 & Hp3 & Hy3).
    assert (Hup : (home_now (with_sample s_rel c2) =? 1)%Z = false)
      by exact Hrel.
    assert (Hnot : recenter_due (t_home k_rel) (with_sample s_rel c2) = false)
      by (unfold recenter_due; rewrite Hup; reflexivity).
    rewrite Hup in Hhold3. rewrite Hnot in Hp3, Hy3.
    cbn [with_sample motion] in Hp3, Hy3.
    rewrite Hhold3, Hp3, Hy3, Hp1, Hy1, Hp0, Hy0. auto.
  - intros t tg c Hhome. unfold recenter_check.
    rewrite (proj2 (Z.eqb_neq _ _) Hhome). reflexivity.
Qed.

Lemma home_hold_recenters_witness :
  length (recenter_times (L := libm_rational) long_hold session_abc) = 1%nat
  /\
  length (recenter_times (L := libm_rational) short_hold session_abc) = 0%nat.
Proof.
  split.
  - refine (proj1 (proj2 (home_hold_recenters (L := libm_rational)))
              session_abc sample_home (tick_at 1000)
              [(sample_home, tick_at 1000.3); (sample_home, tick_at 1000.61)]
              _ _ _ _ _); vm_compute; reflexivity.
  - refine (proj1 (proj2 (home_hold_recenters (L := libm_rational)))
              session_abc sample_home (tick_at 1000)
              [(sample_home, tick_at 1000.3); (sample_home, tick_at 1000.59)]
              _ _ _ _ _); vm_compute; reflexivity.
Defined.

(** C7 as stated fails for a very long hold: the guard written when the
    references are assigned is the time plus 9999 s, so with HOME held
    from time 1000 to time 11001 the references are assigned at 1001 and
    again at 11001: twice in one continuous hold. *)
Lemma marathon_hold_recenters_twice :
  forallb (fun i => home_pressed (fst i)) marathon_hold = true /\
  clock_ordered 1000 marathon_hold = true /\
  recenter_times (L := libm_rational) marathon_hold session_abc
  = [1001; 11001] /\
  ~ (length (recenter_times (L := libm_rational) marathon_hold session_abc)
     <= 1)%nat.
Proof.
  repeat split; try (vm_compute; reflexivity).
  vm_compute. intros H. repeat apply le_S_n in H. inversion H.
Qed.

(** A hold of 0.61 s moves the zero references to the accumulators; a hold
    of 0.59 s followed by a release leaves them at 0 and the timer off. *)
Example long_hold_moves_references :
  let m := motion (run_ticks (L := libm_rational) long_hold session_tilted) in
  pitch0 m == 0.2 /\ yaw0 m == 0.1.
Proof. split; vm_compute; reflexivity. Qed.

Example short_hold_keeps_references :
  let m := motion (run_ticks (L := libm_rational)
                     (short_hold ++ [(sample_idle, tick_at 1000.7)])
                     session_tilted) in
  pitch0 m == 0 /\ yaw0 m == 0 /\ home_hold m = None.
Proof. repeat split; vm_compute; reflexivity. Qed.

(** ** The loop around the tick, end to end *)

(** With the active slot empty the loop sends nothing and changes
    nothing. *)
Lemma bridge_loop_step_idle {L : MathLib} (active : nat) (clk : Clock)
    (st : Registry) :
  slot_get (controllers st) (active - 1) = None ->
  bridge_loop_step active clk st = (st, None).
Proof. intros H. unfold bridge_loop_step. rewrite H. reflexivity. Qed.

(** The scenario of the specification: device [abc] pairs on the empty
    registry and gets slot 0; its telemetry with the token it was given
    and A pressed is accepted; the next tick for active slot 1 sends a
    line that starts with [A=1]. *)
Example pair_then_press_A :
  let r1 := pair_server_step DEFAULT_DATA_PORT 1000 "c0de" phone1 pair_abc
                             Registry_init in
  let j := mkTelemetry (Some "abc") (Some "c0de")
                       (Some (<["A" := 1%Z]> ∅)) None None in
  let r2 := phone_listener_step 1000.1 phone1 j (fst r1) in
  let r3 := bridge_loop_step (L := libm_rational) 1 (tick_at 1000.2)
                             (fst r2) in
  snd r1 = Some (phone1, PAIR_ACCEPT 0 "c0de" 5005%Z) /\
  snd r3 = Some "A=1,B=0,X=0,Y=0,START=0,BACK=0,GUIDE=0,UP=0,DOWN=0,LEFT=0,RIGHT=0,RX=0,RY=0".
Proof. split; vm_compute; reflexivity. Qed.

(** * Further properties of the server *)

(** ** Stripping *)

Lemma lstrip_head (s : string) :
  lstrip s = "" \/ exists a r, lstrip s = String a r /\ is_space a = false.
Proof.
  induction s as [|a s IH]; [left; reflexivity|].
  simpl. destruct (is_space a) eqn:E; [exact IH|].
  right. exists a, s. auto.
Qed.

Lemma rstrip_head (a : ascii) (r : string) :
  is_space a = false -> exists r', rstrip (String a r) = String a r'.
Proof.
  intros Ha. simpl. destruct (rstrip r) as [|b r'].
  - rewrite Ha. eauto.
  - eauto.
Qed.

Lemma rstrip_idem (s : string) : rstrip (rstrip s) = rstrip s.
Proof.
  induction s as [|a s IH]; [reflexivity|].
  simpl. destruct (rstrip s) as [|b r] eqn:E.
  - destruct (is_space a) eqn:Ha; [reflexivity|].
    simpl. rewrite Ha. reflexivity.
  - change (rstrip (String a (String b r))) with
      (match rstrip (String b r) with
       | EmptyString => if is_space a then EmptyString else String a EmptyString
       | r0 => String a r0
       end).
    rewrite IH. reflexivity.
Qed.

Lemma strip_idem (s : string) : strip (strip s) = strip s.
Proof.
  unfold strip.
  destruct (lstrip_head s) as [-> | (a & r & -> & Ha)]; [reflexivity|].
  destruct (rstrip_head a r Ha) as (r' & Hr).
  rewrite Hr. simpl lstrip. rewrite Ha. rewrite <- Hr. apply rstrip_idem.
Qed.

Lemma rstrip_no_space (s : string) :
  forallb (fun a => negb (is_space a)) (list_ascii_of_string s) = true ->
  rstrip s = s.
Proof.
  induction s as [|a s IH]; [reflexivity|].
  simpl. intros H. apply andb_true_iff in H as [Ha Hs].
  apply negb_true_iff in Ha. rewrite (IH Hs).
  destruct s; [rewrite Ha|]; reflexivity.
Qed.

Lemma strip_no_space (s : string) :
  forallb (fun a => negb (is_space a)) (list_ascii_of_string s) = true ->
  strip s = s.
Proof.
  intros H. unfold strip.
  assert (Hl : lstrip s = s).
  { destruct s as [|a s]; [reflexivity|]. simpl in *.
    apply andb_true_iff in H as [Ha _]. apply negb_true_iff in Ha.
    rewrite Ha. reflexivity. }
  rewrite Hl. apply rstrip_no_space. exact H.
Qed.

Lemma hex_digit_no_space (a : ascii) :
  is_hex_digit a = true -> is_space a = false.
Proof.
  destruct a as [[] [] [] [] [] [] [] []]; vm_compute; congruence.
Qed.

Lemma hex_token_ok (s : string) :
  is_hex_token s = true -> s <> "" /\ strip s = s.
Proof.
  unfold is_hex_token. intros H. apply andb_true_iff in H as [Hlen Hall].
  split.
  - intros ->. discriminate.
  - apply strip_no_space. rewrite forallb_forall in *.
    intros a Ha. rewrite (hex_digit_no_space a (Hall a Ha)). reflexivity.
Qed.

Lemma substring_length (n : nat) :
  forall (s : string), (String.length (substring 0 n s) <= n)%nat.
Proof.
  induction n as [|n IH]; intros s.
  - destruct s; simpl; lia.
  - destruct s as [|a s]; simpl; [lia|]. specialize (IH s). lia.
Qed.

(** ** How the updates of the slot table keep the invariants *)

Lemma find_device_from_none_inv (cs : list (option ControllerState)) :
  forall (k : nat) (d : string),
    find_device_from k cs d = None ->
    forall s c, cs !! s = Some (Some c) -> device_id c <> d.
Proof.
  induction cs as [|oc cs IH]; intros k d H s c Hl; [discriminate|].
  simpl in H. destruct oc as [c0|].
  - destruct (String.eqb (device_id c0) d) eqn:E; [discriminate|].
    apply String.eqb_neq in E.
    destruct s as [|s]; simpl in Hl.
    + injection Hl as <-. exact E.
    + exact (IH _ _ H s c Hl).
  - destruct s as [|s]; simpl in Hl; [discriminate|].
    exact (IH _ _ H s c Hl).
Qed.

Lemma find_device_found (st : Registry) (d : string) (s : nat)
    (c : ControllerState) :
  find_device (controllers st) d = Some (s, c) ->
  controllers st !! s = Some (Some c) /\ device_id c = d.
Proof.
  intros H. destruct (find_device_from_sound _ _ _ _ _ H) as (i & -> & Hl & Hd).
  auto.
Qed.

Lemma find_free_found (cs : list (option ControllerState)) (i : nat) :
  find_free cs = Some i ->
  (i < MAX_CONTROLLERS)%nat /\ cs !! i = Some None /\
  forall j, (j < i)%nat -> cs !! j <> Some None.
Proof.
  unfold find_free. intros H.
  destruct (find_seq_sound _ _ _ _ H) as (Hr & Hi & Hlow).
  repeat split; [lia | apply is_free_true; exact Hi |].
  intros j Hj. apply is_free_false. apply Hlow. lia.
Qed.

(** With one session per device, the slot of a session is the one the
    lookup finds. *)
Lemma unique_bound_at (st : Registry) (s : nat) (c : ControllerState) :
  unique_devices st ->
  controllers st !! s = Some (Some c) ->
  bound_at st (device_id c) s c.
Proof.
  intros Hu Hs. repeat split; [exact Hs|].
  intros j c' Hj Hl Hd. specialize (Hu j s c' c Hl Hs Hd). lia.
Qed.

Lemma unique_replace (st : Registry) (s : nat) (c c' : ControllerState)
    (ls : list Q) (pk : list Z) (hz : list Q) :
  unique_devices st ->
  controllers st !! s = Some (Some c) ->
  device_id c' = device_id c ->
  unique_devices (mkRegistry (<[s := Some c']> (controllers st)) ls pk hz).
Proof.
  intros Hu Hs Hd s1 s2 c1 c2 H1 H2 Heq. simpl in H1, H2.
  apply list_lookup_insert_Some in H1, H2.
  destruct H1 as [(<- & E1 & _) | (N1 & H1)];
    destruct H2 as [(<- & E2 & _) | (N2 & H2)]; try reflexivity.
  - injection E1 as <-. apply (Hu s s2 c c2 Hs H2). congruence.
  - injection E2 as <-. apply (Hu s1 s c1 c H1 Hs). congruence.
  - exact (Hu s1 s2 c1 c2 H1 H2 Heq).
Qed.

Lemma unique_new (st : Registry) (i : nat) (c' : ControllerState)
    (ls : list Q) (pk : list Z) (hz : list Q) :
  unique_devices st ->
  unbound st (device_id c') ->
  unique_devices (mkRegistry (<[i := Some c']> (controllers st)) ls pk hz).
Proof.
  intros Hu Hun s1 s2 c1 c2 H1 H2 Heq. simpl in H1, H2.
  apply list_lookup_insert_Some in H1, H2.
  destruct H1 as [(<- & E1 & _) | (N1 & H1)];
    destruct H2 as [(<- & E2 & _) | (N2 & H2)]; try reflexivity.
  - injection E1 as <-. exfalso. apply (Hun s2 c2 H2). congruence.
  - injection E2 as <-. exfalso. apply (Hun s1 c1 H1). congruence.
  - exact (Hu s1 s2 c1 c2 H1 H2 Heq).
Qed.

Lemma unique_clear (st : Registry) (s : nat)
    (ls : list Q) (pk : list Z) (hz : list Q) :
  unique_devices st ->
  unique_devices (mkRegistry (<[s := None]> (controllers st)) ls pk hz).
Proof.
  intros Hu s1 s2 c1 c2 H1 H2 Heq. simpl in H1, H2.
  apply list_lookup_insert_Some in H1, H2.
  destruct H1 as [(_ & E1 & _) | (N1 & H1)]; [discriminate|].
  destruct H2 as [(_ & E2 & _) | (N2 & H2)]; [discriminate|].
  exact (Hu s1 s2 c1 c2 H1 H2 Heq).
Qed.

Lemma sessions_insert (st : Registry) (s : nat) (c' : ControllerState)
    (ls : list Q) (pk : list Z) (hz : list Q) :
  sessions_ok st -> session_ok c' ->
  sessions_ok (mkRegistry (<[s := Some c']> (controllers st)) ls pk hz).
Proof.
  intros Hs Hc k c Hl. simpl in Hl.
  apply list_lookup_insert_Some in Hl.
  destruct Hl as [(_ & E & _) | (_ & Hl)]; [congruence | exact (Hs k c Hl)].
Qed.

Lemma sessions_clear (st : Registry) (s : nat)
    (ls : list Q) (pk : list Z) (hz : list Q) :
  sessions_ok st ->
  sessions_ok (mkRegistry (<[s := None]> (controllers st)) ls pk hz).
Proof.
  intros Hs k c Hl. simpl in Hl.
  apply list_lookup_insert_Some in Hl.
  destruct Hl as [(_ & E & _) | (_ & Hl)]; [discriminate | exact (Hs k c Hl)].
Qed.

(** The side tables after a slot was given a session, whatever time goes
    into its [last_seen] entry. *)
Lemma side_tables_occupy (st : Registry) (s : nat) (c' : ControllerState)
    (now : Q) :
  side_tables_ok st ->
  side_tables_ok (mkRegistry (<[s := Some c']> (controllers st))
                             (<[s := now]> (last_seen st))
                             (pkt_count st) (hz_est st)).
Proof.
  intros (Hl & Hp & Hh). split; [|split]; simpl; [|exact Hp|exact Hh].
  intros k Hk. apply list_lookup_insert_Some in Hk.
  destruct Hk as [(_ & E & _) | (Hne & Hk)]; [discriminate|].
  rewrite list_lookup_insert_ne by exact Hne. exact (Hl k Hk).
Qed.

(** The session the server builds for a request. *)
Lemma session_ok_created (j : PairDatagram) (from : Addr) (rnd : string) :
  request_device j <> "" ->
  is_hex_token rnd = true ->
  session_ok (new_controller (request_device j) (request_name j) from rnd).
Proof.
  intros Hd Hr. destruct (hex_token_ok rnd Hr) as (Hne & Hst).
  unfold session_ok, new_controller. simpl.
  repeat split; auto.
  - apply strip_idem.
  - apply substring_length.
Qed.

Lemma session_ok_refreshed (c : ControllerState) (uname : string)
    (from : Addr) (rnd : string) :
  session_ok c ->
  is_hex_token rnd = true ->
  (String.length uname <= 64)%nat ->
  session_ok (mkController (device_id c) uname from
                (if bool_decide (token c = "") then rnd else token c)
                (buttons c) (gyro c) (accel c) (motion c)).
Proof.
  intros (H1 & H2 & H3 & H4 & H5) Hr Hu.
  unfold session_ok. simpl.
  rewrite (bool_decide_eq_false_2 _ H3). repeat split; auto.
Qed.

(** The sample registry with device [abc] in slot 0. *)
Lemma table_shape_reg_one : table_shape reg_one.
Proof. repeat split. Qed.

Lemma unique_reg_one : unique_devices reg_one.
Proof.
  intros s1 s2 c1 c2 H1 H2 _.
  destruct s1 as [|[|[|[|s1]]]]; simpl in H1; try discriminate.
  destruct s2 as [|[|[|[|s2]]]]; simpl in H2; try discriminate.
  reflexivity.
Qed.

(** ** Each loop keeps the invariants *)

Lemma fold_left_invariant {A B : Type} (P : A -> Prop) (f : A -> B -> A)
    (l : list B) :
  (forall a b, P a -> P (f a b)) -> forall a, P a -> P (fold_left f l a).
Proof.
  intros Hf. induction l as [|b l IH]; intros a Ha; [exact Ha|].
  simpl. apply IH. apply Hf. exact Ha.
Qed.

Lemma pair_server_step_ok (data_port : Z) (now : Q) (rnd : string)
    (from : Addr) (j : PairDatagram) (st : Registry) :
  registry_ok st ->
  is_hex_token rnd = true ->
  registry_ok (fst (pair_server_step data_port now rnd from j st)).
Proof.
  intros Hok Hr. pose proof Hok as (Hshape & Hu & Hs & Hside).
  unfold pair_server_step. fold (request_device j). fold (request_name j).
  destruct (negb (bool_decide (pd_type j = Some "PAIR_REQUEST")));
    [exact Hok|].
  destruct (bool_decide (request_device j = "")) eqn:Ed; [exact Hok|].
  apply bool_decide_eq_false in Ed.
  destruct (find_device (controllers st) (request_device j))
    as [[slot c]|] eqn:Ef.
  - destruct (find_device_found _ _ _ _ Ef) as (Hl & Hd). simpl.
    split; [|split; [|split]].
    + unfold table_shape in *. simpl. rewrite !length_insert. exact Hshape.
    + apply (unique_replace st slot c); auto.
    + apply sessions_insert; [exact Hs|].
      apply session_ok_refreshed; [exact (Hs slot c Hl) | exact Hr |].
      apply substring_length.
    + apply side_tables_occupy. exact Hside.
  - destruct (find_free (controllers st)) as [free|] eqn:Efree;
      [|exact Hok].
    simpl. split; [|split; [|split]].
    + unfold table_shape in *. simpl. rewrite !length_insert. exact Hshape.
    + apply unique_new; [exact Hu|]. simpl.
      intros s c Hl. exact (find_device_from_none_inv _ _ _ Ef s c Hl).
    + apply sessions_insert; [exact Hs|].
      apply session_ok_created; assumption.
    + apply side_tables_occupy. exact Hside.
Qed.

Lemma phone_listener_step_ok (now : Q) (from : Addr)
    (j : TelemetryDatagram) (st : Registry) :
  registry_ok st ->
  registry_ok (fst (phone_listener_step now from j st)).
Proof.
  intros Hok. pose proof Hok as (Hshape & Hu & Hs & Hside).
  unfold phone_listener_step.
  destruct (bool_decide _ || bool_decide _); [exact Hok|].
  destruct (find_device (controllers st) _) as [[slot c]|] eqn:Ef;
    [|exact Hok].
  destruct (negb (String.eqb (token c) _)); [exact Hok|].
  destruct (find_device_found _ _ _ _ Ef) as (Hl & Hd). simpl.
  split; [|split; [|split]].
  - unfold table_shape in *. simpl.
    rewrite !length_insert, length_alter. exact Hshape.
  - apply (unique_replace st slot c); auto.
  - apply sessions_insert; [exact Hs|]. exact (Hs slot c Hl).
  - destruct Hside as (H1 & H2 & H3). split; [|split]; simpl.
    + intros k Hk. apply list_lookup_insert_Some in Hk.
      destruct Hk as [(_ & E & _) | (Hne & Hk)]; [discriminate|].
      rewrite list_lookup_insert_ne by exact Hne. exact (H1 k Hk).
    + intros k n Hk. rewrite list_lookup_alter in Hk.
      destruct (decide (slot = k)) as [<-|Hne]; [|exact (H2 k n Hk)].
      destruct (pkt_count st !! slot) as [m|] eqn:Em; [|discriminate].
      injection Hk as <-. specialize (H2 slot m Em). lia.
    + exact H3.
Qed.

Lemma evict_if_stale_ok (now : Q) (st : Registry) (s : nat) :
  registry_ok st -> registry_ok (evict_if_stale now st s).
Proof.
  intros Hok. pose proof Hok as (Hshape & Hu & Hs & H1 & H2 & H3).
  unfold evict_if_stale. destruct (is_stale now st s); [|exact Hok].
  split; [|split; [|split; [|split; [|split]]]]; simpl.
  - unfold table_shape in *. simpl. rewrite !length_insert. exact Hshape.
  - apply unique_clear. exact Hu.
  - apply sessions_clear. exact Hs.
  - intros k Hk. apply list_lookup_insert_Some in Hk.
    destruct Hk as [(<- & _ & Hlt) | (Hne & Hk)].
    + apply list_lookup_insert_eq.
      destruct Hshape as (E1 & E2 & _). rewrite E2, <- E1. exact Hlt.
    + rewrite list_lookup_insert_ne by exact Hne. exact (H1 k Hk).
  - intros k n Hk. apply list_lookup_insert_Some in Hk.
    destruct Hk as [(_ & <- & _) | (_ & Hk)]; [lia | exact (H2 k n Hk)].
  - intros k h Hk. apply list_lookup_insert_Some in Hk.
    destruct Hk as [(_ & <- & _) | (_ & Hk)]; [apply Qle_refl | exact (H3 k h Hk)].
Qed.

Lemma cleanup_pass_ok (now : Q) (st : Registry) :
  registry_ok st -> registry_ok (cleanup_pass now st).
Proof.
  unfold cleanup_pass. apply fold_left_invariant.
  intros a b. apply evict_if_stale_ok.
Qed.

Lemma disconnect_slot_ok (slot : nat) (st : Registry) :
  registry_ok st -> registry_ok (disconnect_slot slot st).
Proof.
  intros (Hshape & Hu & Hs & H1 & H2 & H3).
  unfold disconnect_slot.
  split; [|split; [|split; [|split; [|split]]]]; simpl.
  - unfold table_shape in *. simpl. rewrite !length_insert. exact Hshape.
  - apply unique_clear. exact Hu.
  - apply sessions_clear. exact Hs.
  - intros k Hk. apply list_lookup_insert_Some in Hk.
    destruct Hk as [(<- & _ & Hlt) | (Hne & Hk)].
    + apply list_lookup_insert_eq.
      destruct Hshape as (E1 & E2 & _). rewrite E2, <- E1. exact Hlt.
    + rewrite list_lookup_insert_ne by exact Hne. exact (H1 k Hk).
  - exact H2.
  - intros k h Hk. apply list_lookup_insert_Some in Hk.
    destruct Hk as [(_ & <- & _) | (_ & Hk)]; [apply Qle_refl | exact (H3 k h Hk)].
Qed.

Lemma Qdiv_nonneg (n : Z) (dt : Q) :
  (0 <= n)%Z -> 0 < dt -> 0 <= inject_Z n / dt.
Proof.
  intros Hn Hdt. unfold Qdiv. apply Qmult_le_0_compat.
  - unfold Qle, inject_Z. simpl. lia.
  - apply Qlt_le_weak. apply Qinv_lt_0_compat. exact Hdt.
Qed.

Lemma stats_slot_ok (dt : Q) (st : Registry) (s : nat) :
  0 < dt -> registry_ok st -> registry_ok (stats_slot dt st s).
Proof.
  intros Hdt (Hshape & Hu & Hs & H1 & H2 & H3).
  unfold stats_slot.
  split; [|split; [|split; [|split; [|split]]]]; simpl.
  - unfold table_shape in *. simpl. rewrite !length_insert. exact Hshape.
  - exact Hu.
  - exact Hs.
  - exact H1.
  - intros k n Hk. apply list_lookup_insert_Some in Hk.
    destruct Hk as [(_ & <- & _) | (_ & Hk)]; [lia | exact (H2 k n Hk)].
  - intros k h Hk. apply list_lookup_insert_Some in Hk.
    destruct Hk as [(_ & <- & _) | (_ & Hk)]; [|exact (H3 k h Hk)].
    apply Qdiv_nonneg; [|exact Hdt].
    destruct (pkt_count st !! s) as [m|] eqn:Em; simpl; [|lia].
    exact (H2 s m Em).
Qed.

Lemma stats_pass_ok (now last : Q) (st : Registry) :
  registry_ok st -> registry_ok (fst (stats_pass now last st)).
Proof.
  intros Hok. unfold stats_pass.
  case_Qleb (now - last) 0; [exact Hok|]. cbn [fst].
  apply fold_left_invariant; [|exact Hok].
  intros a b. apply stats_slot_ok. exact E.
Qed.

(** The four steps of a tick change the motion state only. *)
Lemma set_motion_same (c : ControllerState) (m : MotionState) :
  same_session c (set_motion c m).
Proof. repeat split. Qed.

Lemma same_session_refl (c : ControllerState) : same_session c c.
Proof. repeat split. Qed.

Lemma same_session_trans (c1 c2 c3 : ControllerState) :
  same_session c1 c2 -> same_session c2 c3 -> same_session c1 c3.
Proof.
  unfold same_session. intros H1 H2.
  destruct H1 as (A1 & A2 & A3 & A4 & A5 & A6 & A7).
  destruct H2 as (B1 & B2 & B3 & B4 & B5 & B6 & B7).
  repeat split; congruence.
Qed.

Lemma update_motion_same {L : MathLib} (now : Q) (c : ControllerState) :
  same_session c (update_motion now c).
Proof.
  unfold update_motion. destruct (Qeq_bool (last_ts (motion c)) 0);
    apply set_motion_same.
Qed.

Lemma recenter_check_same (t tg : Q) (c : ControllerState) :
  same_session c (recenter_check t tg c).
Proof.
  unfold recenter_check.
  destruct (home_now c =? 1)%Z; [|apply set_motion_same].
  destruct (home_hold (motion c)) as [h|]; [|apply set_motion_same].
  destruct (Qleb RECENTER_HOLD_SEC (t - h));
    [apply set_motion_same | apply same_session_refl].
Qed.

Lemma compute_axes_same (ix iy : bool) (now : Q) (c : ControllerState) :
  same_session c (fst (compute_axes_with ix iy now c)).
Proof.
  unfold compute_axes_with. destruct (Qeq_bool (last_ts (motion c)) 0);
    apply set_motion_same.
Qed.

Lemma swing_check_same (now : Q) (c : ControllerState) :
  same_session c (fst (swing_check now c)).
Proof.
  unfold swing_check. destruct (swing_due now c);
    [apply set_motion_same | apply same_session_refl].
Qed.

Lemma bridge_tick_same {L : MathLib} (clk : Clock) (c : ControllerState) :
  same_session c (fst (bridge_tick clk c)).
Proof.
  pose proof (bridge_tick_unfold clk c) as Hu. cbv zeta in Hu.
  destruct Hu as (-> & _).
  eapply same_session_trans; [apply update_motion_same|].
  eapply same_session_trans; [apply recenter_check_same|].
  eapply same_session_trans; [apply compute_axes_same|].
  apply swing_check_same.
Qed.

Lemma session_ok_same (c c' : ControllerState) :
  same_session c c' -> session_ok c -> session_ok c'.
Proof.
  intros (E1 & E2 & _ & E4 & _) (H1 & H2 & H3 & H4 & H5).
  unfold session_ok. rewrite E1, E2, E4. auto.
Qed.

Lemma bridge_loop_step_ok {L : MathLib} (active : nat) (clk : Clock)
    (st : Registry) :
  registry_ok st -> registry_ok (fst (bridge_loop_step active clk st)).
Proof.
  intros Hok. pose proof Hok as (Hshape & Hu & Hs & H1 & H2 & H3).
  unfold bridge_loop_step.
  destruct (slot_get (controllers st) (active - 1)) as [c|] eqn:Eg;
    [|exact Hok].
  assert (Hl : controllers st !! (active - 1)%nat = Some (Some c)).
  { unfold slot_get in Eg.
    destruct (controllers st !! (active - 1)%nat) as [[c0|]|];
      simpl in Eg; congruence. }
  pose proof (bridge_tick_same clk c) as Hsame.
  destruct (bridge_tick clk c) as [c' o]. simpl in *.
  split; [|split; [|split; [|split; [|split]]]]; simpl.
  - unfold table_shape in *. simpl. rewrite !length_insert. exact Hshape.
  - apply (unique_replace st _ c); [exact Hu | exact Hl | apply Hsame].
  - apply sessions_insert; [exact Hs|].
    exact (session_ok_same c c' Hsame (Hs _ c Hl)).
  - intros k Hk. apply list_lookup_insert_Some in Hk.
    destruct Hk as [(_ & E & _) | (_ & Hk)]; [discriminate | exact (H1 k Hk)].
  - exact H2.
  - exact H3.
Qed.

Lemma step_ok {L : MathLib} (data_port : Z) (st : Registry) (ev : Event) :
  registry_ok st -> valid_event ev -> registry_ok (step data_port st ev).
Proof.
  intros Hok Hv. destruct ev; simpl.
  - apply pair_server_step_ok; assumption.
  - apply phone_listener_step_ok; assumption.
  - apply cleanup_pass_ok; assumption.
  - apply stats_pass_ok; assumption.
  - apply disconnect_slot_ok; assumption.
  - apply bridge_loop_step_ok; assumption.
Qed.

Lemma run_ok {L : MathLib} (data_port : Z) (evs : list Event) :
  Forall valid_event evs ->
  forall st, registry_ok st -> registry_ok (run data_port evs st).
Proof.
  induction 1 as [|ev evs Hv Hall IH]; intros st Hok; [exact Hok|].
  simpl. apply IH. apply step_ok; assumption.
Qed.

Lemma Registry_init_ok : registry_ok Registry_init.
Proof.
  split; [repeat split|]. split; [|split; [|split; [|split]]].
  - intros s1 s2 c1 c2 H1. apply lookup_replicate in H1 as [H1 _].
    discriminate.
  - intros s c H1. apply lookup_replicate in H1 as [H1 _]. discriminate.
  - intros s H1. apply lookup_replicate in H1 as [_ H1].
    apply lookup_replicate. auto.
  - intros s n H1. apply lookup_replicate in H1 as [-> _]. lia.
  - intros s h H1. apply lookup_replicate in H1 as [-> _]. apply Qle_refl.
Qed.

(** ** What every run of the server keeps *)

Lemma valid_sample_run : Forall valid_event sample_run.
Proof.
  unfold sample_run.
  repeat (constructor; [simpl; try exact I; try reflexivity;
                        try (unfold MAX_CONTROLLERS; lia)|]).
  constructor.
Qed.

(** X1. Whatever the loops do, in whatever order, starting from the empty
    tables: no two slots ever hold sessions of the same device. *)
Theorem reachable_one_session_per_device {L : MathLib} (data_port : Z)
    (evs : list Event) :
  Forall valid_event evs ->
  unique_devices (run data_port evs Registry_init).
Proof.
  intros Hv. apply (run_ok data_port evs Hv Registry_init Registry_init_ok).
Qed.

Lemma reachable_one_session_per_device_witness :
  unique_devices (run (L := libm_rational) 5005 sample_run Registry_init).
Proof.
  exact (reachable_one_session_per_device (L := libm_rational) 5005
           sample_run valid_sample_run).
Defined.

(** X2. Along every run each session has a non-empty device identifier
    and a non-empty token, both free of surrounding whitespace, and a
    name of at most 64 characters. *)
Theorem reachable_sessions_well_formed {L : MathLib} (data_port : Z)
    (evs : list Event) :
  Forall valid_event evs ->
  forall s c,
    controllers (run data_port evs Registry_init) !! s = Some (Some c) ->
    device_id c <> "" /\ strip (device_id c) = device_id c /\
    token c <> "" /\ strip (token c) = token c /\
    (String.length (username c) <= 64)%nat.
Proof.
  intros Hv s c Hl.
  destruct (run_ok data_port evs Hv Registry_init Registry_init_ok)
    as (_ & _ & Hs & _).
  exact (Hs s c Hl).
Qed.

Lemma reachable_sessions_well_formed_witness :
  exists c,
    controllers (run (L := libm_rational) 5005 sample_run Registry_init)
      !! 0%nat = Some (Some c) /\
    device_id c <> "" /\ strip (device_id c) = device_id c /\
    token c <> "" /\ strip (token c) = token c /\
    (String.length (username c) <= 64)%nat.
Proof.
  assert (E : exists c,
             controllers (run (L := libm_rational) 5005 sample_run
                            Registry_init) !! 0%nat = Some (Some c))
    by (vm_compute; eexists; reflexivity).
  destruct E as (c & E). exists c. split; [exact E|].
  exact (reachable_sessions_well_formed (L := libm_rational) 5005
           sample_run valid_sample_run 0%nat c E).
Defined.

(** X3. Along every run the four tables keep one entry per slot, an empty
    slot has its [last_seen] entry at 0, and no packet counter or rate
    estimate is negative. *)
Theorem reachable_tables_well_formed {L : MathLib} (data_port : Z)
    (evs : list Event) :
  Forall valid_event evs ->
  let st := run data_port evs Registry_init in
  table_shape st /\
  (forall s, controllers st !! s = Some None -> last_seen st !! s = Some 0) /\
  (forall s n, pkt_count st !! s = Some n -> (0 <= n)%Z) /\
  (forall s h, hz_est st !! s = Some h -> 0 <= h).
Proof.
  intros Hv st. subst st.
  destruct (run_ok data_port evs Hv Registry_init Registry_init_ok)
    as (Hshape & _ & _ & Hside).
  split; [exact Hshape | exact Hside].
Qed.

Lemma reachable_tables_well_formed_witness :
  table_shape (run (L := libm_rational) 5005 sample_run Registry_init).
Proof.
  exact (proj1 (reachable_tables_well_formed (L := libm_rational) 5005
                  sample_run valid_sample_run)).
Defined.

(** The sample run ends with device [abc] in slot 0 and slot 1 empty
    again. *)
Example sample_run_result :
  let st := run (L := libm_rational) 5005 sample_run Registry_init in
  device_id <$> slot_get (controllers st) 0 = Some "abc" /\
  slot_get (controllers st) 1 = None /\
  pkt_count st = [0%Z; 0%Z; 0%Z; 0%Z] /\
  hz_est st = [1; 0; 0; 0].
Proof. repeat split; vm_compute; reflexivity. Qed.

(** ** Pairing and telemetry together *)

(** The three outcomes of a well-formed pairing request. *)
Lemma pair_server_step_cases (data_port : Z) (now : Q) (rnd : string)
    (from : Addr) (j : PairDatagram) (st : Registry) :
  pd_type j = Some "PAIR_REQUEST" ->
  request_device j <> "" ->
  (exists slot c,
     controllers st !! slot = Some (Some c) /\
     device_id c = request_device j /\
     pair_server_step data_port now rnd from j st
     = (mkRegistry
          (<[slot := Some (mkController (device_id c) (request_name j) from
                             (if bool_decide (token c = "") then rnd
                              else token c)
                             (buttons c) (gyro c) (accel c) (motion c))]>
             (controllers st))
          (<[slot := now]> (last_seen st)) (pkt_count st) (hz_est st),
        Some (from, PAIR_ACCEPT slot
                      (if bool_decide (token c = "") then rnd else token c)
                      data_port))) \/
  (exists i,
     unbound st (request_device j) /\ lowest_free st i /\
     pair_server_step data_port now rnd from j st
     = create_outcome data_port now rnd from j st i) \/
  (unbound st (request_device j) /\
   find_free (controllers st) = None /\
   pair_server_step data_port now rnd from j st
   = (st, Some (from, PAIR_DENY "NO_FREE_SLOTS"))).
Proof.
  intros Hty Hd. unfold pair_server_step.
  fold (request_device j). fold (request_name j).
  rewrite (bool_decide_eq_true_2 _ Hty). simpl.
  rewrite (bool_decide_eq_false_2 _ Hd).
  destruct (find_device (controllers st) (request_device j))
    as [[slot c]|] eqn:Ef.
  - left. destruct (find_device_found _ _ _ _ Ef) as (Hl & Hdev).
    exists slot, c. auto.
  - assert (Hun : unbound st (request_device j)).
    { intros s c Hl. exact (find_device_from_none_inv _ _ _ Ef s c Hl). }
    destruct (find_free (controllers st)) as [i|] eqn:Efree.
    + right. left. exists i. split; [exact Hun|]. split; [|reflexivity].
      exact (find_free_found _ _ Efree).
    + right. right. auto.
Qed.

Lemma pair_server_step_dropped (data_port : Z) (now : Q) (rnd : string)
    (from : Addr) (j : PairDatagram) (st : Registry) :
  pd_type j <> Some "PAIR_REQUEST" \/ request_device j = "" ->
  pair_server_step data_port now rnd from j st = (st, None).
Proof.
  intros H. unfold pair_server_step. fold (request_device j).
  destruct (bool_decide (pd_type j = Some "PAIR_REQUEST")) eqn:Et;
    [|reflexivity].
  apply bool_decide_eq_true in Et. simpl.
  destruct H as [H|H]; [contradiction|].
  rewrite (bool_decide_eq_true_2 _ H). reflexivity.
Qed.

(** X4. A pairing datagram of another type or with a blank device
    identifier is dropped without a reply and without a change; any other
    pairing datagram gets exactly one reply, addressed to its sender:
    either PAIR_ACCEPT, and then the slot of the reply holds a session of
    that device whose token, address and name are those of the reply and
    of the request, or PAIR_DENY NO_FREE_SLOTS, and then the registry is
    unchanged, the device is unknown and no slot is empty. *)
Theorem pair_server_answers (data_port : Z) (now : Q) (rnd : string)
    (from : Addr) (j : PairDatagram) (st : Registry) :
  let r := pair_server_step data_port now rnd from j st in
  (pd_type j <> Some "PAIR_REQUEST" \/ request_device j = "" ->
   r = (st, None)) /\
  (pd_type j = Some "PAIR_REQUEST" -> request_device j <> "" ->
   (exists slot tok c,
      snd r = Some (from, PAIR_ACCEPT slot tok data_port) /\
      controllers (fst r) !! slot = Some (Some c) /\
      device_id c = request_device j /\ token c = tok /\
      addr c = from /\ username c = request_name j) \/
   (snd r = Some (from, PAIR_DENY "NO_FREE_SLOTS") /\ fst r = st /\
    unbound st (request_device j) /\ no_free st)).
Proof.
  intros r. subst r. split.
  - apply pair_server_step_dropped.
  - intros Hty Hd.
    destruct (pair_server_step_cases data_port now rnd from j st Hty Hd)
      as [(slot & c & Hl & Hdev & ->) | [(i & Hun & Hfree & ->) | (Hun & Hnone & ->)]].
    + left. eexists slot, _, _. simpl.
      split; [reflexivity|]. split.
      * apply list_lookup_insert_eq. apply lookup_lt_Some in Hl. exact Hl.
      * simpl. auto.
    + left. unfold create_outcome. eexists i, _, _. simpl.
      split; [reflexivity|]. split.
      * destruct Hfree as (_ & Hf & _).
        apply list_lookup_insert_eq. apply lookup_lt_Some in Hf. exact Hf.
      * simpl. auto.
    + right. simpl. repeat split; auto.
      intros i Hi. apply is_free_false.
      unfold find_free in Hnone.
      apply (find_none _ _ Hnone). apply in_seq. lia.
Qed.

Lemma pair_server_answers_witness :
  exists slot tok c,
    snd (pair_server_step 5005 10 sample_token phone2 pair_new reg_one)
    = Some (phone2, PAIR_ACCEPT slot tok 5005%Z) /\
    controllers (fst (pair_server_step 5005 10 sample_token phone2 pair_new
                        reg_one)) !! slot = Some (Some c) /\
    device_id c = request_device pair_new /\ token c = tok /\
    addr c = phone2 /\ username c = request_name pair_new.
Proof.
  destruct (proj2 (pair_server_answers 5005 10 sample_token phone2 pair_new
                     reg_one)) as [H | (H & _)].
  - reflexivity.
  - vm_compute. discriminate.
  - exact H.
  - vm_compute in H. discriminate.
Defined.

(** The accepting path of the listener. *)
Lemma phone_listener_step_accepted (now : Q) (from : Addr)
    (j : TelemetryDatagram) (st : Registry) (s : nat) (c : ControllerState) :
  unique_devices st ->
  controllers st !! s = Some (Some c) ->
  device_id c <> "" -> token c <> "" ->
  telemetry_device j = device_id c ->
  telemetry_token j = token c ->
  phone_listener_step now from j st = (touched now from j st s c, []).
Proof.
  intros Hu Hl Hd Ht Ed Et. unfold phone_listener_step.
  fold (telemetry_device j). fold (telemetry_token j).
  rewrite Ed, Et.
  rewrite (bool_decide_eq_false_2 _ Hd), (bool_decide_eq_false_2 _ Ht).
  simpl.
  rewrite (find_device_bound st (device_id c) s c (unique_bound_at st s c Hu Hl)).
  rewrite String.eqb_refl. reflexivity.
Qed.

(** X5. A telemetry datagram that carries the device identifier and the
    token of the session in slot [s] is accepted: the slot's session takes
    the sender's address and the buttons, gyro and accelerometer of the
    datagram (an absent one becomes empty) and keeps its identity, token
    and motion state; [last_seen] of the slot becomes the arrival time;
    its packet counter grows by one; the other slots and the rates are
    as before, and nothing is sent. *)
Theorem phone_listener_touches (now : Q) (from : Addr)
    (j : TelemetryDatagram) (st : Registry) (s : nat) (c : ControllerState) :
  table_shape st ->
  unique_devices st ->
  controllers st !! s = Some (Some c) ->
  device_id c <> "" -> token c <> "" ->
  telemetry_device j = device_id c ->
  telemetry_token j = token c ->
  let r := phone_listener_step now from j st in
  snd r = [] /\
  controllers (fst r) !! s
  = Some (Some (mkController (device_id c) (username c) from (token c)
                  (default ∅ (td_buttons j)) (default ∅ (td_gyro j))
                  (default ∅ (td_accel j)) (motion c))) /\
  last_seen (fst r) !! s = Some now /\
  pkt_count (fst r) !! s = (fun n => n + 1)%Z <$> pkt_count st !! s /\
  hz_est (fst r) = hz_est st /\
  forall s', s' <> s ->
    controllers (fst r) !! s' = controllers st !! s' /\
    last_seen (fst r) !! s' = last_seen st !! s' /\
    pkt_count (fst r) !! s' = pkt_count st !! s'.
Proof.
  intros (E1 & E2 & E3 & E4) Hu Hl Hd Ht Ed Et r. subst r.
  rewrite (phone_listener_step_accepted now from j st s c Hu Hl Hd Ht Ed Et).
  assert (Hlt : (s < MAX_CONTROLLERS)%nat)
    by (apply lookup_lt_Some in Hl; lia).
  unfold touched. cbn [fst snd controllers last_seen pkt_count hz_est].
  split; [reflexivity|].
  split; [apply list_lookup_insert_eq; lia|].
  split; [apply list_lookup_insert_eq; lia|].
  split; [apply list_lookup_alter_eq|].
  split; [reflexivity|].
  intros s' Hne.
  rewrite !list_lookup_insert_ne by congruence.
  rewrite list_lookup_alter_ne by congruence. auto.
Qed.

Lemma phone_listener_touches_witness :
  last_seen (fst (phone_listener_step 10 phone2 telemetry_good reg_one))
    !! 0%nat = Some 10 /\
  pkt_count (fst (phone_listener_step 10 phone2 telemetry_good reg_one))
    !! 0%nat = (fun n => n + 1)%Z <$> pkt_count reg_one !! 0%nat.
Proof.
  assert (H := phone_listener_touches 10 phone2 telemetry_good reg_one 0
                 session_abc table_shape_reg_one unique_reg_one eq_refl).
  cbv zeta in H.
  specialize (H ltac:(vm_compute; discriminate)
                ltac:(vm_compute; discriminate) eq_refl eq_refl).
  destruct H as (_ & _ & H3 & H4 & _).
  split; [exact H3 | exact H4].
Defined.

(** What a PAIR_ACCEPT reply tells: the request was well formed, and the
    slot of the reply holds a session of the request's device with the
    token of the reply. *)
Lemma pair_accept_session (data_port : Z) (now : Q) (rnd : string)
    (from : Addr) (j : PairDatagram) (st : Registry)
    (slot : nat) (tok : string) (port : Z) :
  snd (pair_server_step data_port now rnd from j st)
  = Some (from, PAIR_ACCEPT slot tok port) ->
  pd_type j = Some "PAIR_REQUEST" /\ request_device j <> "" /\
  port = data_port /\
  exists c,
    controllers (fst (pair_server_step data_port now rnd from j st)) !! slot
    = Some (Some c) /\
    device_id c = request_device j /\ token c = tok.
Proof.
  intros Hreply.
  assert (Hwf : pd_type j = Some "PAIR_REQUEST" /\ request_device j <> "").
  { destruct (bool_decide (pd_type j = Some "PAIR_REQUEST")) eqn:Ety.
    - apply bool_decide_eq_true in Ety. split; [exact Ety|].
      intros Hblank.
      rewrite (pair_server_step_dropped data_port now rnd from j st
                 (or_intror Hblank)) in Hreply.
      discriminate.
    - apply bool_decide_eq_false in Ety.
      rewrite (pair_server_step_dropped data_port now rnd from j st
                 (or_introl Ety)) in Hreply.
      discriminate. }
  destruct Hwf as (Hty & Hd). split; [exact Hty|]. split; [exact Hd|].
  destruct (pair_server_step_cases data_port now rnd from j st Hty Hd)
    as [(s0 & c & Hl & Hdev & E) | [(i & Hun & Hfree & E) | (Hun & Hnone & E)]];
    rewrite E in Hreply |- *; simpl in Hreply.
  - injection Hreply as <- <- <-. split; [reflexivity|]. eexists. simpl.
    split; [apply list_lookup_insert_eq; apply lookup_lt_Some in Hl;
            exact Hl|]. simpl. auto.
  - injection Hreply as <- <- <-. split; [reflexivity|].
    eexists. unfold create_outcome. simpl.
    destruct Hfree as (_ & Hf & _).
    split; [apply list_lookup_insert_eq; apply lookup_lt_Some in Hf;
            exact Hf|]. simpl. auto.
  - discriminate.
Qed.

(** X6. Pairing and telemetry fit together: on a registry the server can
    reach, after a request was answered with PAIR_ACCEPT for a slot and a
    token, a telemetry datagram that carries the request's device
    identifier and that token is accepted and touches that slot. *)
Theorem paired_telemetry_accepted (data_port : Z) (now : Q) (rnd : string)
    (from : Addr) (j : PairDatagram) (st : Registry)
    (slot : nat) (tok : string) (port : Z)
    (now' : Q) (from' : Addr) (j' : TelemetryDatagram) :
  registry_ok st ->
  is_hex_token rnd = true ->
  snd (pair_server_step data_port now rnd from j st)
  = Some (from, PAIR_ACCEPT slot tok port) ->
  telemetry_device j' = request_device j ->
  telemetry_token j' = tok ->
  let st1 := fst (pair_server_step data_port now rnd from j st) in
  exists c,
    controllers st1 !! slot = Some (Some c) /\ token c = tok /\
    phone_listener_step now' from' j' st1
    = (touched now' from' j' st1 slot c, []).
Proof.
  intros Hok Hr Hreply Ed Et st1.
  pose proof (pair_server_step_ok data_port now rnd from j st Hok Hr)
    as (_ & Hu1 & Hs1 & _). fold st1 in Hu1, Hs1.
  destruct (pair_accept_session data_port now rnd from j st slot tok port
              Hreply) as (_ & _ & _ & c & Hl & Hdev & Htok).
  fold st1 in Hl.
  exists c. split; [exact Hl|]. split; [exact Htok|].
  destruct (Hs1 slot c Hl) as (H1 & _ & H3 & _).
  apply phone_listener_step_accepted; auto; congruence.
Qed.

Lemma paired_telemetry_accepted_witness :
  exists c,
    controllers (fst (pair_server_step 5005 1000 sample_token phone1 pair_abc
                        Registry_init)) !! 0%nat = Some (Some c) /\
    token c = sample_token /\
    phone_listener_step 1000.1 phone1 sample_telemetry
      (fst (pair_server_step 5005 1000 sample_token phone1 pair_abc
              Registry_init))
    = (touched 1000.1 phone1 sample_telemetry
         (fst (pair_server_step 5005 1000 sample_token phone1 pair_abc
                 Registry_init)) 0 c, []).
Proof.
  refine (paired_telemetry_accepted 5005 1000 sample_token phone1 pair_abc
            Registry_init 0 sample_token 5005 1000.1 phone1 sample_telemetry
            Registry_init_ok _ _ _ _); vm_compute; reflexivity.
Defined.

(** ** The life of a session *)

Lemma fold_slot_view (f : Registry -> nat -> Registry) (s : nat)
    (l : list nat) :
  (forall st j, s <> j -> slot_view (f st j) s = slot_view st s) ->
  (forall st st', slot_view st s = slot_view st' s ->
                  slot_view (f st s) s = slot_view (f st' s) s) ->
  NoDup l ->
  forall st,
    slot_view (fold_left f l st) s
    = if bool_decide (s ∈ l) then slot_view (f st s) s else slot_view st s.
Proof.
  intros Hother Hself. induction 1 as [|j l Hj Hnd IH]; intros st;
    cbn [fold_left].
  - rewrite bool_decide_eq_false_2; [reflexivity | apply not_elem_of_nil].
  - rewrite IH. destruct (decide (s = j)) as [->|Hne].
    + rewrite (bool_decide_eq_false_2 _ Hj).
      rewrite bool_decide_eq_true_2 by (apply elem_of_cons; auto).
      reflexivity.
    + destruct (bool_decide (s ∈ l)) eqn:E.
      * rewrite bool_decide_eq_true_2
          by (apply elem_of_cons; right; apply bool_decide_eq_true in E;
              exact E).
        apply Hself. apply Hother. exact Hne.
      * rewrite bool_decide_eq_false_2.
        -- apply Hother. exact Hne.
        -- apply bool_decide_eq_false in E. intros Hin.
           apply elem_of_cons in Hin.
           destruct Hin; [congruence | contradiction].
Qed.

Lemma is_stale_out_of_range (now : Q) (st : Registry) (s : nat) :
  (length (controllers st) <= s)%nat -> is_stale now st s = false.
Proof.
  intros H. unfold is_stale, slot_get.
  rewrite (proj2 (lookup_ge_None _ _) H). reflexivity.
Qed.

Lemma cleanup_pass_untouched (now : Q) (st : Registry) (s : nat) :
  is_stale now st s = false ->
  slot_view (cleanup_pass now st) s = slot_view st s.
Proof.
  intros Hs. unfold cleanup_pass.
  rewrite fold_evict_view by apply NoDup_seq.
  destruct (bool_decide _); [|reflexivity].
  unfold evict_if_stale. rewrite Hs. reflexivity.
Qed.

Lemma cleanup_pass_cleared (now : Q) (st : Registry) (s : nat) :
  table_shape st ->
  is_stale now st s = true ->
  slot_view (cleanup_pass now st) s = cleared_view.
Proof.
  intros (E1 & E2 & E3 & E4) Hs.
  assert (Hlt : (s < MAX_CONTROLLERS)%nat).
  { destruct (Nat.lt_ge_cases s MAX_CONTROLLERS) as [H|H]; [exact H|].
    rewrite is_stale_out_of_range in Hs by (rewrite E1; exact H).
    discriminate. }
  rewrite cleanup_pass_view by exact Hlt.
  unfold evict_if_stale. rewrite Hs. unfold slot_view, cleared_view. simpl.
  rewrite !list_lookup_insert_eq by lia. reflexivity.
Qed.

(** X7. One eviction pass, slot by slot: a slot that holds a session last
    seen more than 2.0 s before the pass is emptied and its [last_seen],
    packet counter and rate are zeroed; every other slot, occupied or
    empty, keeps all four entries. *)
Theorem cleanup_pass_exact (now : Q) (st : Registry) (s : nat) :
  table_shape st ->
  slot_view (cleanup_pass now st) s
  = match controllers st !! s, last_seen st !! s with
    | Some (Some _), Some t =>
        if Qltb TIMEOUT_SEC (now - t) then cleared_view else slot_view st s
    | _, _ => slot_view st s
    end.
Proof.
  intros Hshape.
  destruct (controllers st !! s) as [[c|]|] eqn:Ec.
  - destruct (last_seen st !! s) as [t|] eqn:El.
    + assert (Hst : is_stale now st s = Qltb TIMEOUT_SEC (now - t)).
      { unfold is_stale, slot_get. rewrite Ec, El. reflexivity. }
      destruct (Qltb TIMEOUT_SEC (now - t)).
      * apply cleanup_pass_cleared; assumption.
      * apply cleanup_pass_untouched. exact Hst.
    + exfalso. destruct Hshape as (E1 & E2 & _).
      apply lookup_lt_Some in Ec. apply lookup_ge_None in El. lia.
  - apply cleanup_pass_untouched. unfold is_stale, slot_get.
    rewrite Ec. reflexivity.
  - apply cleanup_pass_untouched. unfold is_stale, slot_get.
    rewrite Ec. reflexivity.
Qed.

Lemma cleanup_pass_exact_witness :
  slot_view (cleanup_pass 10 reg_one) 0 = cleared_view /\
  slot_view (cleanup_pass 6 reg_one) 0 = slot_view reg_one 0.
Proof.
  split.
  - exact (cleanup_pass_exact 10 reg_one 0 table_shape_reg_one).
  - exact (cleanup_pass_exact 6 reg_one 0 table_shape_reg_one).
Defined.

Lemma registry_eq_views (st st' : Registry) :
  (forall s, slot_view st s = slot_view st' s) -> st = st'.
Proof.
  intros H. destruct st as [cs ls pk hz], st' as [cs' ls' pk' hz'].
  unfold slot_view in H. simpl in H.
  f_equal; apply list_eq; intros i; specialize (H i); congruence.
Qed.

(** X8. A second eviction pass at the same time changes nothing: what the
    first pass left is not stale. *)
Theorem cleanup_pass_idempotent (now : Q) (st : Registry) :
  cleanup_pass now (cleanup_pass now st) = cleanup_pass now st.
Proof.
  apply registry_eq_views. intros s.
  unfold cleanup_pass at 1.
  rewrite fold_evict_view by apply NoDup_seq.
  destruct (bool_decide (s ∈ seq 0 MAX_CONTROLLERS)) eqn:Hin; [|reflexivity].
  fold (cleanup_pass now st).
  assert (Hnot : is_stale now (cleanup_pass now st) s = false).
  { pose proof (fold_evict_view now s (seq 0 MAX_CONTROLLERS)
                  (NoDup_seq 0 MAX_CONTROLLERS) st) as Hv.
    rewrite Hin in Hv. fold (cleanup_pass now st) in Hv.
    unfold evict_if_stale in Hv.
    destruct (is_stale now st s) eqn:Hs.
    - (* the first pass emptied the slot *)
      unfold slot_view in Hv. simpl in Hv. injection Hv as Hc _ _ _.
      unfold is_stale, slot_get. rewrite Hc, lookup_insert_self.
      unfold is_stale, slot_get in Hs.
      destruct (controllers st !! s) as [[c|]|]; simpl in *;
        try discriminate. reflexivity.
    - unfold slot_view in Hv. injection Hv as Hc Hl _ _.
      unfold is_stale, slot_get in *. rewrite Hc, Hl. exact Hs. }
  unfold evict_if_stale. rewrite Hnot. reflexivity.
Qed.

(** X9. Telemetry keeps a session alive: after a datagram of the session
    in slot [s] arrived at time [t], an eviction pass at a time up to
    2.0 s later keeps the session as the datagram left it, and a pass
    more than 2.0 s later empties the slot. *)
Theorem touched_slot_and_eviction (t now : Q) (from : Addr)
    (j : TelemetryDatagram) (st : Registry) (s : nat) (c : ControllerState) :
  table_shape st ->
  unique_devices st ->
  controllers st !! s = Some (Some c) ->
  device_id c <> "" -> token c <> "" ->
  telemetry_device j = device_id c ->
  telemetry_token j = token c ->
  let st1 := fst (phone_listener_step t from j st) in
  (now - t <= TIMEOUT_SEC ->
   controllers (cleanup_pass now st1) !! s
   = Some (Some (touch_controller from j c))) /\
  (TIMEOUT_SEC < now - t ->
   slot_view (cleanup_pass now st1) s = cleared_view).
Proof.
  intros Hshape Hu Hl Hd Ht Ed Et st1. subst st1.
  rewrite (phone_listener_step_accepted t from j st s c Hu Hl Hd Ht Ed Et).
  cbn [fst].
  pose proof Hshape as (E1 & E2 & E3 & E4).
  assert (Hlt : (s < MAX_CONTROLLERS)%nat)
    by (apply lookup_lt_Some in Hl; lia).
  assert (Hc1 : controllers (touched t from j st s c) !! s
                = Some (Some (touch_controller from j c))).
  { unfold touched. simpl. apply list_lookup_insert_eq. lia. }
  assert (Hl1 : last_seen (touched t from j st s c) !! s = Some t).
  { unfold touched. simpl. apply list_lookup_insert_eq. lia. }
  assert (Hshape1 : table_shape (touched t from j st s c)).
  { unfold table_shape, touched. simpl.
    rewrite !length_insert, length_alter. auto. }
  split; intros Hage.
  - pose proof (cleanup_pass_untouched now (touched t from j st s c) s) as Hv.
    unfold slot_view in Hv.
    assert (Hns : is_stale now (touched t from j st s c) s = false).
    { unfold is_stale, slot_get. rewrite Hc1, Hl1. simpl.
      apply Qltb_false. exact Hage. }
    specialize (Hv Hns). injection Hv as Hc _ _ _. rewrite Hc. exact Hc1.
  - apply cleanup_pass_cleared; [exact Hshape1|].
    unfold is_stale, slot_get. rewrite Hc1, Hl1. simpl.
    apply Qltb_true. exact Hage.
Qed.

Lemma touched_slot_and_eviction_witness :
  controllers (cleanup_pass 12
                 (fst (phone_listener_step 10 phone2 telemetry_good reg_one)))
    !! 0%nat
  = Some (Some (touch_controller phone2 telemetry_good session_abc)).
Proof.
  refine (proj1 (touched_slot_and_eviction 10 12 phone2 telemetry_good
                   reg_one 0 session_abc table_shape_reg_one unique_reg_one
                   _ _ _ _ _) _).
  - reflexivity.
  - vm_compute. discriminate.
  - vm_compute. discriminate.
  - vm_compute. reflexivity.
  - vm_compute. reflexivity.
  - vm_compute. discriminate.
Defined.

(** ** Tokens never change *)

Lemma cleanup_pass_controllers (now : Q) (st : Registry) (s : nat) :
  controllers (cleanup_pass now st) !! s = controllers st !! s \/
  controllers (cleanup_pass now st) !! s
  = (fun _ => None) <$> (controllers st !! s).
Proof.
  pose proof (fold_evict_view now s (seq 0 MAX_CONTROLLERS)
                (NoDup_seq 0 MAX_CONTROLLERS) st) as Hv.
  fold (cleanup_pass now st) in Hv.
  destruct (bool_decide _).
  - unfold evict_if_stale in Hv. destruct (is_stale now st s).
    + right. unfold slot_view in Hv. simpl in Hv. injection Hv as Hc _ _ _.
      rewrite Hc. apply lookup_insert_self.
    + left. unfold slot_view in Hv. injection Hv as Hc _ _ _. exact Hc.
  - left. unfold slot_view in Hv. injection Hv as Hc _ _ _. exact Hc.
Qed.

Lemma stats_pass_sessions (now last : Q) (st : Registry) :
  controllers (fst (stats_pass now last st)) = controllers st /\
  last_seen (fst (stats_pass now last st)) = last_seen st.
Proof.
  unfold stats_pass. destruct (Qleb (now - last) 0); [auto|]. cbn [fst].
  apply (fold_left_invariant
           (fun a => controllers a = controllers st /\
                     last_seen a = last_seen st)); [|auto].
  intros a b (Hc & Hl). unfold stats_slot. simpl. auto.
Qed.

(** X10. No iteration of any loop changes the device or the token of a
    session that stays in its slot: whatever the event, if slot [s] holds
    a session before and after it, the two have the same device
    identifier and the same (non-empty) token. *)
Theorem step_keeps_device_and_token {L : MathLib} (data_port : Z)
    (st : Registry) (ev : Event) (s : nat) (c c' : ControllerState) :
  token c <> "" ->
  controllers st !! s = Some (Some c) ->
  controllers (step data_port st ev) !! s = Some (Some c') ->
  device_id c' = device_id c /\ token c' = token c.
Proof.
  intros Htok Hl Hl'. destruct ev as [now rnd from j | now from j | now
                                     | now last | slot | active clk];
    simpl in Hl'.
  - (* pair_server *)
    destruct (bool_decide (pd_type j = Some "PAIR_REQUEST")) eqn:Ety;
      [apply bool_decide_eq_true in Ety | apply bool_decide_eq_false in Ety].
    2:{ rewrite (pair_server_step_dropped _ _ _ _ _ _ (or_introl Ety)) in Hl'.
        simpl in Hl'. split; congruence. }
    destruct (bool_decide (request_device j = "")) eqn:Ed;
      [apply bool_decide_eq_true in Ed | apply bool_decide_eq_false in Ed].
    1:{ rewrite (pair_server_step_dropped _ _ _ _ _ _ (or_intror Ed)) in Hl'.
        simpl in Hl'. split; congruence. }
    destruct (pair_server_step_cases data_port now rnd from j st Ety Ed)
      as [(s0 & c0 & Hl0 & Hdev & E) | [(i & Hun & Hfree & E) | (Hun & Hnone & E)]];
      rewrite E in Hl'; simpl in Hl'.
    + apply list_lookup_insert_Some in Hl'.
      destruct Hl' as [(<- & Ec & _) | (_ & Hl')]; [|split; congruence].
      assert (c0 = c) as -> by congruence.
      injection Ec as <-. simpl.
      rewrite (bool_decide_eq_false_2 _ Htok). auto.
    + apply list_lookup_insert_Some in Hl'.
      destruct Hl' as [(<- & _ & _) | (_ & Hl')]; [|split; congruence].
      destruct Hfree as (_ & Hf & _). congruence.
    + split; congruence.
  - (* phone_listener *)
    unfold phone_listener_step in Hl'.
    destruct (bool_decide _ || bool_decide _); [simpl in Hl'; split; congruence|].
    destruct (find_device (controllers st) _) as [[slot c0]|] eqn:Ef;
      [|simpl in Hl'; split; congruence].
    destruct (negb (String.eqb (token c0) _));
      [simpl in Hl'; split; congruence|].
    destruct (find_device_found _ _ _ _ Ef) as (Hl0 & _). simpl in Hl'.
    apply list_lookup_insert_Some in Hl'.
    destruct Hl' as [(<- & Ec & _) | (_ & Hl')]; [|split; congruence].
    assert (c0 = c) as -> by congruence.
    injection Ec as <-. simpl. auto.
  - (* cleanup_loop *)
    destruct (cleanup_pass_controllers now st s) as [E|E];
      rewrite E in Hl'; [split; congruence|].
    rewrite Hl in Hl'. discriminate.
  - (* stats_loop *)
    rewrite (proj1 (stats_pass_sessions now last st)) in Hl'.
    split; congruence.
  - (* disconnect_slot *)
    unfold disconnect_slot in Hl'. simpl in Hl'.
    apply list_lookup_insert_Some in Hl'.
    destruct Hl' as [(_ & Ec & _) | (_ & Hl')];
      [discriminate | split; congruence].
  - (* bridge_loop *)
    unfold bridge_loop_step in Hl'.
    destruct (slot_get (controllers st) (active - 1)) as [c0|] eqn:Eg;
      [|simpl in Hl'; split; congruence].
    assert (Hl0 : controllers st !! (active - 1)%nat = Some (Some c0)).
    { unfold slot_get in Eg.
      destruct (controllers st !! (active - 1)%nat) as [[c1|]|];
        simpl in Eg; congruence. }
    pose proof (bridge_tick_same clk c0) as Hsame.
    destruct (bridge_tick clk c0) as [c1 o]. simpl in *.
    apply list_lookup_insert_Some in Hl'.
    destruct Hl' as [(<- & Ec & _) | (_ & Hl')]; [|split; congruence].
    assert (c0 = c) as -> by congruence.
    injection Ec as <-.
    destruct Hsame as (E1 & _ & _ & E4 & _). auto.
Qed.

Lemma step_keeps_device_and_token_witness :
  device_id (touch_controller phone2 telemetry_good session_abc)
  = device_id session_abc /\
  token (touch_controller phone2 telemetry_good session_abc)
  = token session_abc.
Proof.
  refine (step_keeps_device_and_token (L := libm_rational) 5005 reg_one
            (EvTelemetry 10 phone2 telemetry_good) 0 session_abc _ _ _ _).
  - vm_compute. discriminate.
  - reflexivity.
  - vm_compute. reflexivity.
Defined.

(** ** Packet rates *)

Lemma stats_pass_view (now last : Q) (st : Registry) (s : nat) :
  0 < now - last ->
  (s < MAX_CONTROLLERS)%nat ->
  slot_view (fst (stats_pass now last st)) s
  = slot_view (stats_slot (now - last) st s) s.
Proof.
  intros Hdt Hlt. unfold stats_pass.
  rewrite (proj2 (Qleb_false _ _)) by exact Hdt. cbn [fst].
  rewrite (fold_slot_view (stats_slot (now - last)) s).
  - rewrite bool_decide_eq_true_2; [reflexivity|].
    apply elem_of_seq. lia.
  - intros a j Hne. unfold slot_view, stats_slot. simpl.
    rewrite !list_lookup_insert_ne by congruence. reflexivity.
  - intros a a' Hv. unfold slot_view, stats_slot in *. simpl.
    rewrite !lookup_insert_self.
    injection Hv as -> -> -> ->. reflexivity.
  - apply NoDup_seq.
Qed.

(** X11. One pass of the statistics loop.  The time of the pass is stored
    in every case.  When no time has passed since the previous one
    ([dt <= 0]) the tables are left alone.  Otherwise every slot's rate
    becomes its packet counter divided by [dt] and the counter returns to
    0; sessions and [last_seen] are never touched. *)
Theorem stats_pass_rates (now last : Q) (st : Registry) (s : nat) (n : Z) :
  table_shape st ->
  pkt_count st !! s = Some n ->
  let r := stats_pass now last st in
  snd r = now /\
  controllers (fst r) = controllers st /\
  last_seen (fst r) = last_seen st /\
  (now - last <= 0 -> fst r = st) /\
  (0 < now - last ->
   pkt_count (fst r) !! s = Some 0%Z /\
   hz_est (fst r) !! s = Some (inject_Z n / (now - last))).
Proof.
  intros (E1 & E2 & E3 & E4) Hn r. subst r.
  assert (Hlt : (s < MAX_CONTROLLERS)%nat)
    by (apply lookup_lt_Some in Hn; lia).
  split; [unfold stats_pass; destruct (Qleb _ _); reflexivity|].
  split; [apply stats_pass_sessions|].
  split; [apply stats_pass_sessions|].
  split.
  - intros Hdt. unfold stats_pass.
    rewrite (proj2 (Qleb_true _ _)) by exact Hdt. reflexivity.
  - intros Hdt.
    pose proof (stats_pass_view now last st s Hdt Hlt) as Hv.
    unfold slot_view, stats_slot in Hv. simpl in Hv.
    injection Hv as _ _ Hp Hh. rewrite Hp, Hh, Hn. simpl.
    rewrite !list_lookup_insert_eq by lia. auto.
Qed.

Lemma stats_pass_rates_witness :
  pkt_count (fst (stats_pass 11 10 reg_one)) !! 0%nat = Some 0%Z /\
  hz_est (fst (stats_pass 11 10 reg_one)) !! 0%nat
  = Some (inject_Z 5 / (11 - 10)).
Proof.
  refine (proj2 (proj2 (proj2 (proj2
            (stats_pass_rates 11 10 reg_one 0 5 table_shape_reg_one _)))) _).
  - reflexivity.
  - reflexivity.
Defined.

Lemma table_shape_touched (now : Q) (from : Addr) (j : TelemetryDatagram)
    (st : Registry) (s : nat) (c : ControllerState) :
  table_shape st -> table_shape (touched now from j st s c).
Proof.
  unfold table_shape, touched. simpl.
  rewrite !length_insert, length_alter. auto.
Qed.

Lemma deliver_carried (s : nat)
    (burst : list (Q * Addr * TelemetryDatagram)) :
  forall (st : Registry) (c : ControllerState) (n : Z),
    table_shape st -> unique_devices st ->
    controllers st !! s = Some (Some c) ->
    device_id c <> "" -> token c <> "" ->
    Forall (carries c) burst ->
    pkt_count st !! s = Some n ->
    table_shape (deliver burst st) /\
    hz_est (deliver burst st) = hz_est st /\
    pkt_count (deliver burst st) !! s
    = Some (n + Z.of_nat (length burst))%Z /\
    exists c', controllers (deliver burst st) !! s = Some (Some c') /\
               device_id c' = device_id c /\ token c' = token c /\
               username c' = username c /\ motion c' = motion c.
Proof.
  induction burst as [|[[t from] j] burst IH];
    intros st c n Hshape Hu Hl Hd Ht Hall Hn.
  - simpl. rewrite Z.add_0_r. split; [exact Hshape|].
    split; [reflexivity|]. split; [exact Hn|]. exists c. auto.
  - apply Forall_cons in Hall as [(Ed & Et) Hall]. simpl in Ed, Et.
    unfold deliver. cbn [fold_left fst snd].
    rewrite (phone_listener_step_accepted t from j st s c Hu Hl Hd Ht Ed Et).
    cbn [fst]. fold (deliver burst (touched t from j st s c)).
    assert (Hlt : (s < MAX_CONTROLLERS)%nat)
      by (apply lookup_lt_Some in Hn; destruct Hshape as (_ & _ & E3 & _);
          lia).
    pose proof Hshape as (E1 & E2 & E3 & E4).
    destruct (IH (touched t from j st s c) (touch_controller from j c)
                 (n + 1)%Z) as (H1 & H2 & H3 & c' & H4 & H5 & H6 & H7 & H8).
    + apply table_shape_touched. exact Hshape.
    + unfold touched. eapply unique_replace; [exact Hu | exact Hl |].
      reflexivity.
    + unfold touched. simpl. apply list_lookup_insert_eq. lia.
    + exact Hd.
    + exact Ht.
    + exact Hall.
    + unfold touched. simpl. rewrite list_lookup_alter_eq, Hn. reflexivity.
    + split; [exact H1|]. split; [exact H2|].
      split; [rewrite H3; f_equal; simpl length; lia|].
      exists c'. auto.
Qed.

(** X12. The rate the window shows is the number of datagrams accepted
    since the previous pass over the time since then: when the counter of
    slot [s] stands at [n] and a burst of datagrams of the slot's session
    is received, the next pass of the statistics loop, [dt > 0] after the
    previous one, stores [(n + length burst) / dt] as the rate of the slot
    and returns the counter to 0. *)
Theorem burst_rate (now last : Q)
    (burst : list (Q * Addr * TelemetryDatagram))
    (st : Registry) (s : nat) (c : ControllerState) (n : Z) :
  table_shape st -> unique_devices st ->
  controllers st !! s = Some (Some c) ->
  device_id c <> "" -> token c <> "" ->
  Forall (carries c) burst ->
  pkt_count st !! s = Some n ->
  0 < now - last ->
  let st' := fst (stats_pass now last (deliver burst st)) in
  hz_est st' !! s
  = Some (inject_Z (n + Z.of_nat (length burst)) / (now - last)) /\
  pkt_count st' !! s = Some 0%Z.
Proof.
  intros Hshape Hu Hl Hd Ht Hall Hn Hdt st'. subst st'.
  destruct (deliver_carried s burst st c n Hshape Hu Hl Hd Ht Hall Hn)
    as ((E1 & E2 & E3 & E4) & _ & Hp & _).
  assert (Hlt : (s < MAX_CONTROLLERS)%nat)
    by (apply lookup_lt_Some in Hp; lia).
  pose proof (stats_pass_view now last (deliver burst st) s Hdt Hlt) as Hv.
  unfold slot_view, stats_slot in Hv. simpl in Hv.
  injection Hv as _ _ Hp' Hh'. rewrite Hp', Hh', Hp. simpl.
  rewrite !list_lookup_insert_eq by lia. auto.
Qed.

Lemma burst_rate_witness :
  hz_est (fst (stats_pass 11 10 (deliver sample_burst reg_one))) !! 0%nat
  = Some (inject_Z (5 + Z.of_nat (length sample_burst)) / (11 - 10)) /\
  pkt_count (fst (stats_pass 11 10 (deliver sample_burst reg_one))) !! 0%nat
  = Some 0%Z.
Proof.
  refine (burst_rate 11 10 sample_burst reg_one 0 session_abc 5
            table_shape_reg_one unique_reg_one _ _ _ _ _ _).
  - reflexivity.
  - vm_compute. discriminate.
  - vm_compute. discriminate.
  - repeat constructor.
  - reflexivity.
  - reflexivity.
Defined.

(** ** The bridge loop *)

Lemma slot_get_Some (cs : list (option ControllerState)) (s : nat)
    (c : ControllerState) :
  slot_get cs s = Some c <-> cs !! s = Some (Some c).
Proof.
  unfold slot_get. destruct (cs !! s) as [[c0|]|]; simpl;
    split; intros H; congruence.
Qed.

(** X13. What one iteration of the bridge loop touches.  With the active
    slot (1-based) empty, nothing changes and nothing is sent.  With a
    session in it, one line is sent; the session keeps its device, name,
    address, token and sample, so that the motion state alone can change;
    the other slots, [last_seen], the packet counters and the rates are as
    before. *)
Theorem bridge_loop_step_frame {L : MathLib} (active : nat) (clk : Clock)
    (st : Registry) :
  (1 <= active)%nat ->
  let slot := (active - 1)%nat in
  let r := bridge_loop_step active clk st in
  last_seen (fst r) = last_seen st /\
  pkt_count (fst r) = pkt_count st /\
  hz_est (fst r) = hz_est st /\
  (forall s, s <> slot -> controllers (fst r) !! s = controllers st !! s) /\
  (slot_get (controllers st) slot = None -> r = (st, None)) /\
  (forall c, slot_get (controllers st) slot = Some c ->
     exists c' line,
       snd r = Some line /\
       controllers (fst r) !! slot = Some (Some c') /\
       same_session c c').
Proof.
  intros _ slot r. subst slot r. unfold bridge_loop_step.
  destruct (slot_get (controllers st) (active - 1)) as [c|] eqn:Eg.
  - pose proof (bridge_tick_same clk c) as Hsame.
    destruct (bridge_tick clk c) as [c' o]. cbn [fst snd] in *.
    cbn [controllers last_seen pkt_count hz_est].
    split; [reflexivity|]. split; [reflexivity|]. split; [reflexivity|].
    split; [intros s Hne; apply list_lookup_insert_ne; congruence|].
    split; [discriminate|].
    intros c0 [= <-]. exists c', (out_line o).
    split; [reflexivity|]. split; [|exact Hsame].
    apply list_lookup_insert_eq. apply slot_get_Some in Eg.
    apply lookup_lt_Some in Eg. exact Eg.
  - cbn [fst snd]. repeat split; discriminate.
Qed.

Lemma bridge_loop_step_frame_witness :
  exists c' line,
    snd (bridge_loop_step (L := libm_rational) 1 (tick_at 1000.2) reg_one)
    = Some line /\
    controllers
      (fst (bridge_loop_step (L := libm_rational) 1 (tick_at 1000.2) reg_one))
      !! 0%nat = Some (Some c') /\
    same_session session_abc c'.
Proof.
  refine (proj2 (proj2 (proj2 (proj2 (proj2
            (bridge_loop_step_frame (L := libm_rational) 1 (tick_at 1000.2)
               reg_one _))))) session_abc _).
  - lia.
  - reflexivity.
Defined.

(** X14. From the phone to the driver: the buttons of an accepted
    telemetry datagram are what the next line of the bridge loop reports
    when the datagram's slot is the active one.  The line is the
    comma-joined list of fields, and the list begins with the eleven
    button fields computed from the datagram's buttons. *)
Theorem telemetry_reaches_line {L : MathLib} (now : Q) (from : Addr)
    (j : TelemetryDatagram) (st : Registry) (s : nat) (c : ControllerState)
    (clk : Clock) :
  unique_devices st ->
  controllers st !! s = Some (Some c) ->
  device_id c <> "" -> token c <> "" ->
  telemetry_device j = device_id c ->
  telemetry_token j = token c ->
  let st1 := fst (phone_listener_step now from j st) in
  exists rest,
    snd (bridge_loop_step (S s) clk st1)
    = Some (String.concat ","
              (button_parts (default ∅ (td_buttons j)) ++ rest)%list).
Proof.
  intros Hu Hl Hd Ht Ed Et st1. subst st1.
  rewrite (phone_listener_step_accepted now from j st s c Hu Hl Hd Ht Ed Et).
  cbn [fst]. unfold bridge_loop_step.
  replace (S s - 1)%nat with s by lia.
  assert (Hg : slot_get (controllers (touched now from j st s c)) s
               = Some (touch_controller from j c)).
  { apply slot_get_Some. unfold touched. simpl.
    apply list_lookup_insert_eq. apply lookup_lt_Some in Hl. exact Hl. }
  rewrite Hg.
  pose proof (bridge_tick_unfold clk (touch_controller from j c)) as Hun.
  cbv zeta in Hun. destruct Hun as (_ & _ & _ & Hline).
  destruct (bridge_tick_parts clk (touch_controller from j c))
    as (RX & RY & Hparts).
  destruct (bridge_tick clk (touch_controller from j c)) as [c' o].
  cbn [fst snd] in *. rewrite Hline, Hparts. unfold control_parts.
  eexists. reflexivity.
Qed.

Lemma telemetry_reaches_line_witness :
  exists rest,
    snd (bridge_loop_step (L := libm_rational) 1 (tick_at 1000.2)
           (fst (phone_listener_step 1000.1 phone2 telemetry_good reg_one)))
    = Some (String.concat ","
              (button_parts (default ∅ (td_buttons telemetry_good))
               ++ rest)%list).
Proof.
  refine (telemetry_reaches_line (L := libm_rational) 1000.1 phone2
            telemetry_good reg_one 0 session_abc (tick_at 1000.2)
            unique_reg_one _ _ _ _ _).
  - reflexivity.
  - vm_compute. discriminate.
  - vm_compute. discriminate.
  - vm_compute. reflexivity.
  - vm_compute. reflexivity.
Defined.

(** ** The pointer within a tick *)

Lemma Qeq_bool_nonzero (x : Q) : ~ x == 0 -> Qeq_bool x 0 = false.
Proof.
  intros H. destruct (Qeq_bool x 0) eqn:E; [|reflexivity].
  apply Qeq_bool_eq in E. contradiction.
Qed.

Lemma compute_axes_step (ix iy : bool) (now : Q) (c : ControllerState) :
  Qeq_bool (last_ts (motion c)) 0 = false ->
  let dt := clamp (now - last_ts (motion c)) 0.001 0.05 in
  let gx := maybe_deg_to_rad (getf (gyro c) "x") in
  let gy := maybe_deg_to_rad (getf (gyro c) "y") in
  let gx := if Qltb (Qabs gx) 0.015 then 0 else gx in
  let gy := if Qltb (Qabs gy) 0.015 then 0 else gy in
  yaw (motion (fst (compute_axes_with ix iy now c)))
  = clamp (yaw (motion c) + gx * dt) (- 0.6) 0.6 /\
  pitch (motion (fst (compute_axes_with ix iy now c)))
  = clamp (pitch (motion c) + gy * dt) (- 0.45) 0.45.
Proof. intros H0. unfold compute_axes_with. rewrite H0. split; reflexivity. Qed.

Lemma swing_check_pointer (now : Q) (c : ControllerState) :
  let c' := fst (swing_check now c) in
  last_ts (motion c') = last_ts (motion c) /\
  pitch (motion c') = pitch (motion c) /\
  yaw (motion c') = yaw (motion c).
Proof.
  unfold swing_check. destruct (swing_due now c); simpl; repeat split.
Qed.

(** X15. The pointer step of a tick.  [update_motion] stamps [last_ts]
    before [compute_axes] reads it, so within the bridge loop
    [compute_axes] never takes its first-call path and integrates over
    the time since [update_motion] ran in the same tick, not since the
    previous tick: the yaw and pitch the tick leaves are those
    [update_motion] produced, advanced by the dead-zoned gyro x and y
    rates times [clamp(t_axes - t_motion, 0.001, 0.05)] and clamped to
    0.6 and 0.45; with the two clock readings at most a millisecond
    apart that time is 0.001 whatever the tick rate. *)
Theorem bridge_tick_pointer_step {L : MathLib} (clk : Clock)
    (c : ControllerState) :
  ~ t_motion clk == 0 ->
  let c1 := update_motion (t_motion clk) c in
  let dt := clamp (t_axes clk - t_motion clk) 0.001 0.05 in
  let gx := maybe_deg_to_rad (getf (gyro c) "x") in
  let gy := maybe_deg_to_rad (getf (gyro c) "y") in
  let gx := if Qltb (Qabs gx) 0.015 then 0 else gx in
  let gy := if Qltb (Qabs gy) 0.015 then 0 else gy in
  let c' := fst (bridge_tick clk c) in
  yaw (motion c') = clamp (yaw (motion c1) + gx * dt) (- 0.6) 0.6 /\
  pitch (motion c') = clamp (pitch (motion c1) + gy * dt) (- 0.45) 0.45 /\
  last_ts (motion c') = t_axes clk /\
  (t_axes clk - t_motion clk <= 0.001 -> dt == 0.001).
Proof.
  intros Hnz. cbv zeta.
  pose proof (bridge_tick_unfold clk c) as Hun. cbv zeta in Hun.
  destruct Hun as (-> & _).
  set (c1 := update_motion (t_motion clk) c).
  set (c2 := recenter_check (t_home clk) (t_guard clk) c1).
  pose proof (update_motion_frame (t_motion clk) c) as H1.
  cbv zeta in H1. fold c1 in H1.
  destruct H1 as (_ & G1 & _ & _ & _ & _ & _ & T1).
  pose proof (recenter_check_frame (t_home clk) (t_guard clk) c1) as H2.
  cbv zeta in H2. fold c2 in H2.
  destruct H2 as (_ & G2 & _ & T2 & P2 & Y2 & _).
  assert (H0 : Qeq_bool (last_ts (motion c2)) 0 = false).
  { rewrite T2, T1. apply Qeq_bool_nonzero. exact Hnz. }
  pose proof (compute_axes_step INVERT_RX INVERT_RY (t_axes clk) c2 H0) as H3.
  cbv zeta in H3. fold compute_axes in H3.
  rewrite T2, T1, G2, G1, P2, Y2 in H3. destruct H3 as (Hy & Hp).
  pose proof (compute_axes_frame INVERT_RX INVERT_RY (t_axes clk) c2) as H3'.
  cbv zeta in H3'. fold compute_axes in H3'.
  destruct H3' as (_ & _ & _ & _ & _ & _ & _ & T3).
  pose proof (swing_check_pointer (t_swing clk)
                (fst (compute_axes (t_axes clk) c2))) as H4.
  cbv zeta in H4. destruct H4 as (T4 & P4 & Y4).
  rewrite Y4, P4, T4, Hy, Hp, T3.
  split; [reflexivity|]. split; [reflexivity|]. split; [reflexivity|].
  intros Hclose. unfold clamp, py_max, py_min.
  case_Qltb (t_axes clk - t_motion clk) 0.05.
  - case_Qltb 0.001 (t_axes clk - t_motion clk); lra.
  - lra.
Qed.

Lemma bridge_tick_pointer_step_witness :
  clamp (t_axes (tick_at 1000.5) - t_motion (tick_at 1000.5)) 0.001 0.05
  == 0.001.
Proof.
  refine (proj2 (proj2 (proj2
            (bridge_tick_pointer_step (L := libm_rational) (tick_at 1000.5)
               session_swung _))) _).
  - vm_compute. discriminate.
  - vm_compute. discriminate.
Defined.

(** ** Ranges *)

Lemma py_int_bound (q : Q) (n : Z) :
  - inject_Z n <= q <= inject_Z n -> (- n <= py_int q <= n)%Z.
Proof.
  destruct q as [a b]. unfold py_int, Qle, inject_Z, Qopp. simpl.
  rewrite !Z.mul_1_r. intros [Hlo Hhi].
  assert (Hb : (0 < Z.pos b)%Z) by lia.
  destruct (Z.le_gt_cases 0 a) as [Ha|Ha].
  - rewrite Z.quot_div_nonneg by lia. split.
    + pose proof (Z.div_pos a (Z.pos b) Ha Hb). nia.
    + apply Z.div_le_upper_bound; [lia|]. lia.
  - assert (E : Z.quot a (Z.pos b) = (- Z.quot (- a) (Z.pos b))%Z).
    { rewrite Z.quot_opp_l by lia. lia. }
    rewrite E. rewrite Z.quot_div_nonneg by lia. split.
    + assert ((- a) / Z.pos b <= n)%Z; [|lia].
      apply Z.div_le_upper_bound; [lia|]. lia.
    + pose proof (Z.div_pos (- a) (Z.pos b)). nia.
Qed.

(** X16. Whatever the sample, the state and the clock, both stick values
    [compute_axes] returns lie in the signed 16-bit stick range
    -32767 .. 32767, on the first call as on every later one and with
    either inversion flag. *)
Theorem compute_axes_range (ix iy : bool) (now : Q) (c : ControllerState) :
  let '(RX, RY) := snd (compute_axes_with ix iy now c) in
  (- 32767 <= RX <= 32767)%Z /\ (- 32767 <= RY <= 32767)%Z.
Proof.
  unfold compute_axes_with.
  destruct (Qeq_bool (last_ts (motion c)) 0); cbn [snd]; [lia|].
  set (y1 := clamp _ (- 0.6) 0.6). set (p1 := clamp _ (- 0.45) 0.45).
  assert (Hy : - 0.6 <= y1 <= 0.6) by (apply clamp_bounds; lra).
  assert (Hp : - 0.45 <= p1 <= 0.45) by (apply clamp_bounds; lra).
  split; apply (py_int_bound _ 32767%Z); change (inject_Z 32767) with 32767.
  - unfold Qdiv. change (/ 0.6) with (10 # 6). destruct ix; lra.
  - unfold Qdiv. change (/ 0.45) with (100 # 45). destruct iy; lra.
Qed.

(** X17. One call of [update_motion] on a session that has a time stamp
    moves the yaw by the gyro z rate times a time between 2 ms and 25 ms,
    however long ago the previous call was: the change of yaw is at least
    [|gz| * 0.002] and at most [|gz| * 0.025] in absolute value. *)
Theorem update_motion_yaw_step {L : MathLib} (now : Q)
    (c : ControllerState) :
  Qeq_bool (last_ts (motion c)) 0 = false ->
  let gz := maybe_deg_to_rad (getf (gyro c) "z") in
  let d := yaw (motion (update_motion now c)) - yaw (motion c) in
  Qabs gz * 0.002 <= Qabs d <= Qabs gz * 0.025.
Proof.
  intros H0 gz d. subst d. rewrite (update_motion_yaw now c H0). fold gz.
  set (dt := clamp (now - last_ts (motion c)) DT_MIN DT_MAX).
  assert (Hdt : DT_MIN <= dt <= DT_MAX)
    by (apply clamp_bounds; unfold Qle; simpl; lia).
  assert (Hmin : DT_MIN == 0.002) by reflexivity.
  assert (Hmax : DT_MAX == 0.025) by reflexivity.
  assert (E : yaw (motion c) + gz * dt - yaw (motion c) == gz * dt) by ring.
  rewrite E, Qabs_Qmult.
  assert (Hpos : 0 <= dt) by lra.
  rewrite (Qabs_pos dt Hpos).
  pose proof (Qabs_nonneg gz) as Hg.
  split.
  - rewrite (Qmult_comm (Qabs gz) 0.002), (Qmult_comm (Qabs gz) dt).
    apply Qmult_le_compat_r; lra.
  - rewrite (Qmult_comm (Qabs gz) 0.025), (Qmult_comm (Qabs gz) dt).
    apply Qmult_le_compat_r; lra.
Qed.

Lemma update_motion_yaw_step_witness :
  Qabs (maybe_deg_to_rad (getf (gyro session_turning) "z")) * 0.002
  <= Qabs (yaw (motion (update_motion (L := libm_rational) 1000.01
                          session_turning))
           - yaw (motion session_turning)).
Proof.
  refine (proj1 (update_motion_yaw_step (L := libm_rational) 1000.01
                   session_turning _)).
  reflexivity.
Defined.

(** ** Retries, and sessions that ended *)

(** X18. A repeated request is harmless.  After a request was answered
    with PAIR_ACCEPT for a slot and a token, a further request for the
    same device, from any address and at any time, is answered with
    PAIR_ACCEPT for the same slot and the same token at the new address;
    the session takes the new name and address and keeps everything
    else, and no other slot changes. *)
Theorem pair_request_retry (data_port : Z) (now : Q) (rnd : string)
    (from : Addr) (j : PairDatagram) (st : Registry)
    (slot : nat) (tok : string) (port : Z)
    (now' : Q) (rnd' : string) (from' : Addr) (j' : PairDatagram) :
  registry_ok st ->
  is_hex_token rnd = true ->
  snd (pair_server_step data_port now rnd from j st)
  = Some (from, PAIR_ACCEPT slot tok port) ->
  pd_type j' = Some "PAIR_REQUEST" ->
  request_device j' = request_device j ->
  let st1 := fst (pair_server_step data_port now rnd from j st) in
  let r := pair_server_step data_port now' rnd' from' j' st1 in
  snd r = Some (from', PAIR_ACCEPT slot tok data_port) /\
  (exists c,
     controllers st1 !! slot = Some (Some c) /\
     controllers (fst r) !! slot
     = Some (Some (mkController (device_id c) (request_name j') from'
                     tok (buttons c) (gyro c) (accel c) (motion c)))) /\
  (forall s, s <> slot -> controllers (fst r) !! s = controllers st1 !! s) /\
  pkt_count (fst r) = pkt_count st1 /\ hz_est (fst r) = hz_est st1.
Proof.
  intros Hok Hr Hreply Hty' Ed st1 r. subst r.
  pose proof (pair_server_step_ok data_port now rnd from j st Hok Hr)
    as (_ & Hu1 & Hs1 & _). fold st1 in Hu1, Hs1.
  destruct (pair_accept_session data_port now rnd from j st slot tok port
              Hreply) as (_ & Hd & _ & c & Hl & Hdev & Htok).
  fold st1 in Hl.
  destruct (Hs1 slot c Hl) as (_ & _ & H3 & _).
  assert (Hb : bound_at st1 (request_device j') slot c).
  { rewrite Ed, <- Hdev. apply unique_bound_at; assumption. }
  rewrite (pair_server_step_known data_port now' rnd' from' j' st1 slot c
             Hty' ltac:(congruence) Hb H3).
  unfold refresh_outcome, refresh_session.
  cbn [fst snd controllers pkt_count hz_est]. rewrite Htok.
  split; [reflexivity|]. split.
  - exists c. split; [exact Hl|].
    apply list_lookup_insert_eq. apply lookup_lt_Some in Hl. exact Hl.
  - split; [|split; reflexivity].
    intros s Hne. apply list_lookup_insert_ne. congruence.
Qed.

Lemma pair_request_retry_witness :
  snd (pair_server_step 5005 1001 sample_token phone2 pair_abc
         (fst (pair_server_step 5005 1000 sample_token phone1 pair_abc
                 Registry_init)))
  = Some (phone2, PAIR_ACCEPT 0 sample_token 5005%Z).
Proof.
  refine (proj1 (pair_request_retry 5005 1000 sample_token phone1 pair_abc
                   Registry_init 0 sample_token 5005 1001 sample_token
                   phone2 pair_abc Registry_init_ok _ _ _ _)).
  - vm_compute. reflexivity.
  - vm_compute. reflexivity.
  - reflexivity.
  - reflexivity.
Defined.

Lemma phone_listener_step_unbound (now : Q) (from : Addr)
    (j : TelemetryDatagram) (st : Registry) :
  unbound st (telemetry_device j) ->
  phone_listener_step now from j st = (st, []).
Proof.
  intros Hun. unfold phone_listener_step. fold (telemetry_device j).
  destruct (bool_decide _ || bool_decide _); [reflexivity|].
  rewrite (find_device_unbound st _ Hun). reflexivity.
Qed.

(** X19. A session that ended is gone for every loop.  Once slot [s] was
    disconnected from the window, or evicted by a pass of the cleanup
    loop that found it stale, a telemetry datagram of its device is
    dropped whatever token it carries, and the bridge loop with [s] as
    the active slot sends nothing; neither changes the tables. *)
Theorem ended_session_is_gone {L : MathLib} (now t : Q) (from : Addr)
    (j : TelemetryDatagram) (st st' : Registry) (s : nat)
    (c : ControllerState) (clk : Clock) :
  table_shape st -> unique_devices st ->
  controllers st !! s = Some (Some c) ->
  telemetry_device j = device_id c ->
  st' = disconnect_slot s st \/
  (is_stale now st s = true /\ st' = cleanup_pass now st) ->
  phone_listener_step t from j st' = (st', []) /\
  bridge_loop_step (S s) clk st' = (st', None).
Proof.
  intros Hshape Hu Hl Ed Hend.
  assert (Hlt : (s < length (controllers st))%nat)
    by (apply lookup_lt_Some in Hl; exact Hl).
  assert (Hs : controllers st' !! s = Some None).
  { destruct Hend as [-> | (Hst & ->)].
    - unfold disconnect_slot. simpl. apply list_lookup_insert_eq. exact Hlt.
    - pose proof (cleanup_pass_cleared now st s Hshape Hst) as Hv.
      unfold slot_view, cleared_view in Hv. congruence. }
  assert (Hothers : forall s' c', controllers st' !! s' = Some (Some c') ->
                                  controllers st !! s' = Some (Some c')).
  { intros s' c' Hl'. destruct Hend as [-> | (_ & ->)].
    - unfold disconnect_slot in Hl'. simpl in Hl'.
      apply list_lookup_insert_Some in Hl'.
      destruct Hl' as [(_ & E & _) | (_ & Hl')]; [discriminate | exact Hl'].
    - destruct (cleanup_pass_controllers now st s') as [E|E];
        rewrite E in Hl'; [exact Hl'|].
      destruct (controllers st !! s'); discriminate. }
  split.
  - apply phone_listener_step_unbound. rewrite Ed.
    intros s' c' Hl' Hd.
    pose proof (Hu s' s c' c (Hothers s' c' Hl') Hl Hd) as ->.
    congruence.
  - unfold bridge_loop_step. replace (S s - 1)%nat with s by lia.
    unfold slot_get. rewrite Hs. reflexivity.
Qed.

Lemma ended_session_is_gone_witness :
  phone_listener_step 11 phone2 telemetry_good (disconnect_slot 0 reg_one)
  = (disconnect_slot 0 reg_one, []) /\
  bridge_loop_step (L := libm_rational) 1 (tick_at 1000.2)
    (disconnect_slot 0 reg_one)
  = (disconnect_slot 0 reg_one, None).
Proof.
  refine (ended_session_is_gone (L := libm_rational) 0 11 phone2
            telemetry_good reg_one (disconnect_slot 0 reg_one) 0 session_abc
            (tick_at 1000.2) table_shape_reg_one unique_reg_one _ _ _).
  - reflexivity.
  - vm_compute. reflexivity.
  - left. reflexivity.
Defined.

(** ** The zero references *)

Lemma same_up_to_zero_inv (c c' : ControllerState) :
  same_up_to_zero c c' ->
  exists p0 y0,
    c' = set_motion c (mkMotion (last_ts (motion c)) (pitch (motion c))
                                (yaw (motion c)) p0 y0
                                (home_hold (motion c))
                                (last_swing (motion c))).
Proof.
  destruct c as [d u a t b g ac [ts p y p0 y0 hh ls]].
  destruct c' as [d' u' a' t' b' g' ac' [ts' p' y' p0' y0' hh' ls']].
  unfold same_up_to_zero, same_session. simpl.
  intros ((-> & -> & -> & -> & -> & -> & ->) & -> & -> & -> & -> & ->).
  exists p0', y0'. reflexivity.
Qed.

Lemma same_up_to_zero_set (c : ControllerState) (p0 y0 : Q) :
  same_up_to_zero c
    (set_motion c (mkMotion (last_ts (motion c)) (pitch (motion c))
                            (yaw (motion c)) p0 y0
                            (home_hold (motion c))
                            (last_swing (motion c)))).
Proof. repeat split. Qed.

Lemma update_motion_zero {L : MathLib} (now : Q) (c c' : ControllerState) :
  same_up_to_zero c c' ->
  same_up_to_zero (update_motion now c) (update_motion now c').
Proof.
  intros H. destruct (same_up_to_zero_inv c c' H) as (p0 & y0 & ->).
  unfold update_motion. cbn [motion set_motion last_ts].
  destruct (Qeq_bool (last_ts (motion c)) 0); repeat split.
Qed.

Lemma recenter_check_zero (t tg : Q) (c c' : ControllerState) :
  same_up_to_zero c c' ->
  same_up_to_zero (recenter_check t tg c) (recenter_check t tg c').
Proof.
  intros H. destruct (same_up_to_zero_inv c c' H) as (p0 & y0 & ->).
  unfold recenter_check, home_now.
  cbn [motion set_motion buttons home_hold].
  destruct (_ =? 1)%Z; [|repeat split].
  destruct (home_hold (motion c)) as [h|] eqn:Eh; [|repeat split].
  destruct (Qleb RECENTER_HOLD_SEC (t - h)); repeat split.
  simpl. symmetry. exact Eh.
Qed.

Lemma compute_axes_zero (ix iy : bool) (now : Q) (c c' : ControllerState) :
  same_up_to_zero c c' ->
  snd (compute_axes_with ix iy now c') = snd (compute_axes_with ix iy now c) /\
  same_up_to_zero (fst (compute_axes_with ix iy now c))
                  (fst (compute_axes_with ix iy now c')).
Proof.
  intros H. destruct (same_up_to_zero_inv c c' H) as (p0 & y0 & ->).
  unfold compute_axes_with. cbn [motion set_motion last_ts].
  destruct (Qeq_bool (last_ts (motion c)) 0); repeat split.
Qed.

Lemma swing_check_zero (now : Q) (c c' : ControllerState) :
  same_up_to_zero c c' ->
  snd (swing_check now c') = snd (swing_check now c) /\
  same_up_to_zero (fst (swing_check now c)) (fst (swing_check now c')).
Proof.
  intros H. destruct (same_up_to_zero_inv c c' H) as (p0 & y0 & ->).
  unfold swing_check, swing_due.
  cbn [motion set_motion accel last_swing].
  destruct (_ && _); repeat split.
Qed.

(** X20. The zero references are written and never read.  Two states of a
    session that differ in [pitch0] and [yaw0] only give, in one tick of
    the bridge loop, the same swing decision, the same fields and the
    same line, and again differ in [pitch0] and [yaw0] at most: what a
    recentering stores has no effect on what is sent, in that tick or in
    any later one. *)
Theorem zero_reference_unused {L : MathLib} (clk : Clock)
    (c c' : ControllerState) :
  same_up_to_zero c c' ->
  out_swing (snd (bridge_tick clk c')) = out_swing (snd (bridge_tick clk c)) /\
  out_parts (snd (bridge_tick clk c')) = out_parts (snd (bridge_tick clk c)) /\
  out_line (snd (bridge_tick clk c')) = out_line (snd (bridge_tick clk c)) /\
  same_up_to_zero (fst (bridge_tick clk c)) (fst (bridge_tick clk c')).
Proof.
  intros H.
  pose proof (bridge_tick_unfold clk c) as U. cbv zeta in U.
  pose proof (bridge_tick_unfold clk c') as U'. cbv zeta in U'.
  destruct U as (U1 & U2 & U3 & U4). destruct U' as (U1' & U2' & U3' & U4').
  pose proof (update_motion_zero (t_motion clk) c c' H) as H1.
  pose proof (recenter_check_zero (t_home clk) (t_guard clk) _ _ H1) as H2.
  destruct (compute_axes_zero INVERT_RX INVERT_RY (t_axes clk) _ _ H2)
    as (O3 & H3).
  fold compute_axes in O3, H3.
  destruct (swing_check_zero (t_swing clk) _ _ H3) as (O4 & H4).
  assert (Hb : buttons (fst (swing_check (t_swing clk)
                 (fst (compute_axes (t_axes clk)
                    (recenter_check (t_home clk) (t_guard clk)
                       (update_motion (t_motion clk) c'))))))
               = buttons (fst (swing_check (t_swing clk)
                   (fst (compute_axes (t_axes clk)
                      (recenter_check (t_home clk) (t_guard clk)
                         (update_motion (t_motion clk) c))))))).
  { destruct H4 as ((_ & _ & _ & _ & Hb & _) & _). exact Hb. }
  assert (Hparts : out_parts (snd (bridge_tick clk c'))
                   = out_parts (snd (bridge_tick clk c))).
  { rewrite U3, U3', Hb, O4, O3. reflexivity. }
  split; [rewrite U2, U2'; exact O4|].
  split; [exact Hparts|].
  split; [rewrite U4, U4', Hparts; reflexivity|].
  rewrite U1, U1'. exact H4.
Qed.

Lemma zero_reference_unused_witness :
  out_line (snd (bridge_tick (L := libm_rational) (tick_at 1000.01)
                   session_turning_recentered))
  = out_line (snd (bridge_tick (L := libm_rational) (tick_at 1000.01)
                     session_turning)).
Proof.
  refine (proj1 (proj2 (proj2
            (zero_reference_unused (L := libm_rational) (tick_at 1000.01)
               session_turning session_turning_recentered _)))).
  repeat split.
Defined.

(** ** A new session and the cleanup loop *)

Lemma pair_accept_last_seen (data_port : Z) (now : Q) (rnd : string)
    (from : Addr) (j : PairDatagram) (st : Registry)
    (slot : nat) (tok : string) (port : Z) :
  table_shape st ->
  snd (pair_server_step data_port now rnd from j st)
  = Some (from, PAIR_ACCEPT slot tok port) ->
  last_seen (fst (pair_server_step data_port now rnd from j st)) !! slot
  = Some now.
Proof.
  intros (E1 & E2 & _) Hreply.
  destruct (pair_accept_session data_port now rnd from j st slot tok port
              Hreply) as (Hty & Hd & _).
  destruct (pair_server_step_cases data_port now rnd from j st Hty Hd)
    as [(s0 & c & Hl & Hdev & E) | [(i & Hun & Hfree & E) | (Hun & Hnone & E)]];
    rewrite E in Hreply |- *; simpl in Hreply.
  - injection Hreply as <- _ _. simpl.
    apply list_lookup_insert_eq. apply lookup_lt_Some in Hl. lia.
  - injection Hreply as <- _ _. unfold create_outcome. simpl.
    destruct Hfree as (Hi & _). apply list_lookup_insert_eq. lia.
  - discriminate.
Qed.

(** X21. Pairing starts the liveness clock: a session that was answered
    with PAIR_ACCEPT at time [now], whether created or refreshed, is kept
    by every pass of the cleanup loop up to 2.0 s later, and emptied by
    a pass more than 2.0 s later if nothing of it arrived in between. *)
Theorem paired_session_and_eviction (data_port : Z) (now : Q) (rnd : string)
    (from : Addr) (j : PairDatagram) (st : Registry)
    (slot : nat) (tok : string) (port : Z) (now' : Q) :
  table_shape st ->
  snd (pair_server_step data_port now rnd from j st)
  = Some (from, PAIR_ACCEPT slot tok port) ->
  let st1 := fst (pair_server_step data_port now rnd from j st) in
  (now' - now <= TIMEOUT_SEC ->
   slot_view (cleanup_pass now' st1) slot = slot_view st1 slot) /\
  (TIMEOUT_SEC < now' - now ->
   slot_view (cleanup_pass now' st1) slot = cleared_view).
Proof.
  intros Hshape Hreply st1.
  pose proof (pair_accept_last_seen data_port now rnd from j st slot tok port
                Hshape Hreply) as Hseen. fold st1 in Hseen.
  destruct (pair_accept_session data_port now rnd from j st slot tok port
              Hreply) as (Hty & Hd & _ & c & Hl & _). fold st1 in Hl.
  assert (Hshape1 : table_shape st1).
  { subst st1.
    destruct (pair_server_step_cases data_port now rnd from j st Hty Hd)
      as [(s0 & c0 & _ & _ & E) | [(i & _ & _ & E) | (_ & _ & E)]];
      rewrite E; [| |exact Hshape];
      unfold table_shape, create_outcome; simpl; rewrite !length_insert;
      exact Hshape. }
  assert (Hstale : is_stale now' st1 slot
                   = Qltb TIMEOUT_SEC (now' - now)).
  { unfold is_stale, slot_get. rewrite Hl, Hseen. reflexivity. }
  split; intros Hage.
  - apply cleanup_pass_untouched. rewrite Hstale.
    apply Qltb_false. exact Hage.
  - apply cleanup_pass_cleared; [exact Hshape1|]. rewrite Hstale.
    apply Qltb_true. exact Hage.
Qed.

Lemma paired_session_and_eviction_witness :
  slot_view
    (cleanup_pass 1001.5
       (fst (pair_server_step 5005 1000 sample_token phone1 pair_abc
               Registry_init))) 0
  = slot_view (fst (pair_server_step 5005 1000 sample_token phone1 pair_abc
                      Registry_init)) 0.
Proof.
  refine (proj1 (paired_session_and_eviction 5005 1000 sample_token phone1
                   pair_abc Registry_init 0 sample_token 5005 1001.5 _ _) _).
  - repeat split.
  - vm_compute. reflexivity.
  - vm_compute. discriminate.
Defined.
